(** * Verification of the torchtune Llama2 model builders and quantization recipe

    Two source files are embedded:

    - [torchtune/models/llama2/_model_builders.py]: the model builders, which
      bind their Python arguments and delegate to a component builder with a
      keyword dictionary ([Module Builders]);
    - [recipes/quantize.py]: the quantization recipe, a sequence of calls to
      external collaborators with a final write to disk ([Module Recipe]).

    Python values that the code only threads through are kept as values of
    [pyval]; keyword dictionaries are [gmap string pyval]; exceptions are an
    explicit result type. *)

From Stdlib Require Import ZArith QArith Ascii.
From stdpp Require Import gmap strings list fin_maps.

Local Open Scope Z_scope.

(** ** Python results and values *)

(** The exception classes the embedded code can raise by itself, and
    [OtherError] for whatever an external collaborator raises. *)
Inductive exn : Type :=
  | TypeError
  | KeyError
  | IndexError
  | AttributeError
  | ValueError
  | FileNotFoundError
  | FileExistsError
  | NotADirectoryError
  | IsADirectoryError
  | RuntimeError
  | OtherError (name : string).

Global Instance exn_eq_dec : EqDecision exn.
Proof. solve_decision. Defined.

Inductive pyresult (A : Type) : Type :=
  | Ok (a : A)
  | Raise (e : exn).
Global Arguments Ok {A} a.
Global Arguments Raise {A} e.

Global Instance pyresult_ret : MRet pyresult := λ A a, Ok a.
Global Instance pyresult_bind : MBind pyresult := λ A B f r,
  match r with
  | Ok a => f a
  | Raise e => Raise e
  end.

Definition is_ok {A} (r : pyresult A) : bool :=
  match r with Ok _ => true | Raise _ => false end.

Definition raised {A} (r : pyresult A) : option exn :=
  match r with Ok _ => None | Raise e => Some e end.

Definition returned {A} (r : pyresult A) : option A :=
  match r with Ok a => Some a | Raise _ => None end.

(** Dynamically typed Python values, as far as the builders see them. *)
#[warnings="-register-all"]
Inductive pyval : Type :=
  | PyNone
  | PyBool (b : bool)
  | PyInt (n : Z)
  | PyFloat (q : Q)
  | PyStr (s : string)
  | PyList (l : list pyval).

Global Instance pyval_inhabited : Inhabited pyval := populate PyNone.

(** ** Python call binding and [functools.partial] *)

Module PyCall.

(** A formal parameter: its name and its default, if it has one. *)
Record param : Type := Param { p_name : string; p_default : option pyval }.

(** Positional arguments fill the parameters from the left; more positional
    arguments than parameters is a [TypeError].  Returns the bindings made
    and the parameters still unbound. *)
Fixpoint bind_positional (ps : list param) (args : list pyval)
  : pyresult (gmap string pyval * list param) :=
  match args, ps with
  | [], _ => Ok (∅, ps)
  | a :: args', p :: ps' =>
      '(bound, rest) ← bind_positional ps' args';
      Ok (<[p_name p := a]> bound, rest)
  | _ :: _, [] => Raise TypeError
  end.

(** Every parameter left unbound takes its default; a parameter without a
    default is a missing required argument. *)
Fixpoint fill_defaults (rest : list param) (locals : gmap string pyval)
  : pyresult (gmap string pyval) :=
  match rest with
  | [] => Ok locals
  | p :: rest' =>
      match locals !! p_name p, p_default p with
      | Some _, _ => fill_defaults rest' locals
      | None, Some d => fill_defaults rest' (<[p_name p := d]> locals)
      | None, None => Raise TypeError
      end
  end.

(** The call [f(args..., kw...)] of [def f(p1, ..., pn)]: a keyword that
    names no parameter (unexpected keyword argument) or one already bound by
    position (multiple values for argument) is a [TypeError]. *)
Definition bind_call (ps : list param) (args : list pyval)
    (kw : gmap string pyval) : pyresult (gmap string pyval) :=
  '(bound, rest) ← bind_positional ps args;
  if decide (dom kw ⊆@{gset string} list_to_set (p_name <$> ps)) then
    if decide (dom kw ##@{gset string} dom bound) then
      fill_defaults rest (kw ∪ bound)
    else Raise TypeError
  else Raise TypeError.

(** A Python callable taking positional and keyword arguments. *)
Definition callable (R : Type) : Type :=
  list pyval → gmap string pyval → pyresult R.

(** [functools.partial] with preset keywords only: calling the partial
    object with positional [args] and keywords [kw] calls [func] with
    [args] and the dictionary of [keywords] updated by [kw], so a keyword
    given at the call overrides the preset one. *)
Definition partial {R} (func : callable R) (keywords : gmap string pyval)
  : callable R :=
  λ args kw, func args (kw ∪ keywords).

End PyCall.

(** ** The model builders ([_model_builders.py]) *)

Module Builders.
Import PyCall.

(** The component builders imported from [_component_builders]; a model
    builder returns whatever its component builder returns, so a builder's
    behaviour is the component call it makes. *)
Inductive component_builder : Type :=
  | llama2
  | lora_llama2
  | llama2_classifier
  | lora_llama2_classifier.

Global Instance component_builder_eq_dec : EqDecision component_builder.
Proof. solve_decision. Defined.

Record component_call : Type := ComponentCall {
  builder : component_builder;
  call_kwargs : gmap string pyval;
}.

(** Float literals of the source. *)
Definition f_0_0 : pyval := PyFloat 0.
Definition f_1e_5 : pyval := PyFloat (1 # 100000).

Definition llama2_7b : component_call :=
  ComponentCall llama2 (list_to_map [
    ("vocab_size", PyInt 32000);
    ("num_layers", PyInt 32);
    ("num_heads", PyInt 32);
    ("num_kv_heads", PyInt 32);
    ("embed_dim", PyInt 4096);
    ("max_seq_len", PyInt 4096);
    ("attn_dropout", f_0_0);
    ("norm_eps", f_1e_5)]).

(** The signature shared by the four LoRA builders. *)
Definition lora_params : list param := [
  Param "lora_attn_modules" None;
  Param "apply_lora_to_mlp" (Some (PyBool false));
  Param "apply_lora_to_output" (Some (PyBool false));
  Param "lora_rank" (Some (PyInt 8));
  Param "lora_alpha" (Some (PyInt 16));
  Param "lora_dropout" (Some f_0_0);
  Param "use_dora" (Some (PyBool false));
  Param "quantize_base" (Some (PyBool false))].

Definition lora_llama2_7b : callable component_call := λ args kw,
  locals ← bind_call lora_params args kw;
  Ok (ComponentCall lora_llama2 (list_to_map [
    ("lora_attn_modules", locals !!! "lora_attn_modules");
    ("apply_lora_to_mlp", locals !!! "apply_lora_to_mlp");
    ("apply_lora_to_output", locals !!! "apply_lora_to_output");
    ("vocab_size", PyInt 32000);
    ("num_layers", PyInt 32);
    ("num_heads", PyInt 32);
    ("num_kv_heads", PyInt 32);
    ("embed_dim", PyInt 4096);
    ("max_seq_len", PyInt 4096);
    ("attn_dropout", f_0_0);
    ("norm_eps", f_1e_5);
    ("lora_rank", locals !!! "lora_rank");
    ("lora_alpha", locals !!! "lora_alpha");
    ("lora_dropout", locals !!! "lora_dropout");
    ("use_dora", locals !!! "use_dora");
    ("quantize_base", locals !!! "quantize_base")])).

Definition qlora_llama2_7b : callable component_call :=
  partial lora_llama2_7b {["quantize_base" := PyBool true]}.

Definition llama2_13b : component_call :=
  ComponentCall llama2 (list_to_map [
    ("vocab_size", PyInt 32000);
    ("num_layers", PyInt 40);
    ("num_heads", PyInt 40);
    ("num_kv_heads", PyInt 40);
    ("embed_dim", PyInt 5120);
    ("intermediate_dim", PyInt 13824);
    ("max_seq_len", PyInt 4096);
    ("attn_dropout", f_0_0);
    ("norm_eps", f_1e_5)]).

Definition lora_llama2_13b : callable component_call := λ args kw,
  locals ← bind_call lora_params args kw;
  Ok (ComponentCall lora_llama2 (list_to_map [
    ("lora_attn_modules", locals !!! "lora_attn_modules");
    ("apply_lora_to_mlp", locals !!! "apply_lora_to_mlp");
    ("apply_lora_to_output", locals !!! "apply_lora_to_output");
    ("vocab_size", PyInt 32000);
    ("num_layers", PyInt 40);
    ("num_heads", PyInt 40);
    ("num_kv_heads", PyInt 40);
    ("embed_dim", PyInt 5120);
    ("intermediate_dim", PyInt 13824);
    ("max_seq_len", PyInt 4096);
    ("attn_dropout", f_0_0);
    ("norm_eps", f_1e_5);
    ("lora_rank", locals !!! "lora_rank");
    ("lora_alpha", locals !!! "lora_alpha");
    ("lora_dropout", locals !!! "lora_dropout");
    ("use_dora", locals !!! "use_dora");
    ("quantize_base", locals !!! "quantize_base")])).

Definition qlora_llama2_13b : callable component_call :=
  partial lora_llama2_13b {["quantize_base" := PyBool true]}.

Definition llama2_70b : component_call :=
  ComponentCall llama2 (list_to_map [
    ("vocab_size", PyInt 32000);
    ("num_layers", PyInt 80);
    ("num_heads", PyInt 64);
    ("num_kv_heads", PyInt 8);
    ("embed_dim", PyInt 8192);
    ("intermediate_dim", PyInt 28672);
    ("max_seq_len", PyInt 4096);
    ("attn_dropout", f_0_0);
    ("norm_eps", f_1e_5)]).

Definition lora_llama2_70b : callable component_call := λ args kw,
  locals ← bind_call lora_params args kw;
  Ok (ComponentCall lora_llama2 (list_to_map [
    ("lora_attn_modules", locals !!! "lora_attn_modules");
    ("apply_lora_to_mlp", locals !!! "apply_lora_to_mlp");
    ("apply_lora_to_output", locals !!! "apply_lora_to_output");
    ("vocab_size", PyInt 32000);
    ("num_layers", PyInt 80);
    ("num_heads", PyInt 64);
    ("num_kv_heads", PyInt 8);
    ("embed_dim", PyInt 8192);
    ("max_seq_len", PyInt 4096);
    ("intermediate_dim", PyInt 28672);
    ("attn_dropout", f_0_0);
    ("norm_eps", f_1e_5);
    ("lora_rank", locals !!! "lora_rank");
    ("lora_alpha", locals !!! "lora_alpha");
    ("lora_dropout", locals !!! "lora_dropout");
    ("use_dora", locals !!! "use_dora");
    ("quantize_base", locals !!! "quantize_base")])).

Definition qlora_llama2_70b : callable component_call :=
  partial lora_llama2_70b {["quantize_base" := PyBool true]}.

Definition llama2_reward_7b : component_call :=
  ComponentCall llama2_classifier (list_to_map [
    ("num_classes", PyInt 1);
    ("vocab_size", PyInt 32000);
    ("num_layers", PyInt 32);
    ("num_heads", PyInt 32);
    ("num_kv_heads", PyInt 32);
    ("embed_dim", PyInt 4096);
    ("max_seq_len", PyInt 4096);
    ("attn_dropout", f_0_0);
    ("norm_eps", f_1e_5)]).

Definition lora_llama2_reward_7b : callable component_call := λ args kw,
  locals ← bind_call lora_params args kw;
  Ok (ComponentCall lora_llama2_classifier (list_to_map [
    ("lora_attn_modules", locals !!! "lora_attn_modules");
    ("apply_lora_to_mlp", locals !!! "apply_lora_to_mlp");
    ("apply_lora_to_output", locals !!! "apply_lora_to_output");
    ("num_classes", PyInt 1);
    ("vocab_size", PyInt 32000);
    ("num_layers", PyInt 32);
    ("num_heads", PyInt 32);
    ("num_kv_heads", PyInt 32);
    ("embed_dim", PyInt 4096);
    ("max_seq_len", PyInt 4096);
    ("attn_dropout", f_0_0);
    ("norm_eps", f_1e_5);
    ("lora_rank", locals !!! "lora_rank");
    ("lora_alpha", locals !!! "lora_alpha");
    ("lora_dropout", locals !!! "lora_dropout");
    ("use_dora", locals !!! "use_dora");
    ("quantize_base", locals !!! "quantize_base")])).

(** As in the source, the partial object wraps [lora_llama2_7b]. *)
Definition qlora_llama2_reward_7b : callable component_call :=
  partial lora_llama2_7b {["quantize_base" := PyBool true]}.

(** The four model variants, with the plain and the LoRA builder of each. *)
Inductive variant : Type := V7b | V13b | V70b | VReward7b.

Definition plain_builder (v : variant) : component_call :=
  match v with
  | V7b => llama2_7b
  | V13b => llama2_13b
  | V70b => llama2_70b
  | VReward7b => llama2_reward_7b
  end.

Definition lora_builder (v : variant) : callable component_call :=
  match v with
  | V7b => lora_llama2_7b
  | V13b => lora_llama2_13b
  | V70b => lora_llama2_70b
  | VReward7b => lora_llama2_reward_7b
  end.

(** The keyword names that carry the LoRA settings. *)
Definition lora_keys : gset string :=
  list_to_set (p_name <$> lora_params).

(** The component builder a LoRA model builder is expected to use, given
    the one its plain model builder uses. *)
Definition lora_counterpart (b : component_builder) : component_builder :=
  match b with
  | llama2 | lora_llama2 => lora_llama2
  | llama2_classifier | lora_llama2_classifier => lora_llama2_classifier
  end.

(** First binding of a key in a list of keyword bindings. *)
Fixpoint assoc {A} (k : string) (l : list (string * A)) : option A :=
  match l with
  | [] => None
  | (k', v) :: l' => if String.eqb k k' then Some v else assoc k l'
  end.

End Builders.

(** ** Python string operations used by the recipe *)

Module PyStr.

(** [c in chars] for a character. *)
Fixpoint mem (c : ascii) (chars : string) : bool :=
  match chars with
  | "" => false
  | String c' chars' => Ascii.eqb c c' || mem c chars'
  end.

(** [s.split(sep)] for a one-character separator: the pieces between the
    occurrences of [sep]; the result is never empty. *)
Fixpoint split (sep : ascii) (s : string) : list string :=
  match s with
  | "" => [""]
  | String c s' =>
      if Ascii.eqb c sep then "" :: split sep s'
      else match split sep s' with
           | h :: t => String c h :: t
           | [] => [String c ""]
           end
  end.

(** [s.rstrip(chars)]: drops the longest run of trailing characters that
    all belong to the set [chars]. *)
Fixpoint rstrip (chars : string) (s : string) : string :=
  match s with
  | "" => ""
  | String c s' =>
      match rstrip chars s' with
      | "" => if mem c chars then "" else String c ""
      | r => String c r
      end
  end.

(** [sub in s]: [sub] occurs in [s] as a contiguous substring. *)
Fixpoint contains (sub s : string) : bool :=
  String.prefix sub s ||
  match s with
  | "" => false
  | String _ s' => contains sub s'
  end.

(** [s.removesuffix(suffix)]: [s] without its ending [suffix] when it has
    that ending, and [s] itself otherwise.  The recipe does not call it; it
    states what removing a trailing suffix means. *)
Fixpoint removesuffix (suffix s : string) : string :=
  if String.eqb s suffix then ""
  else match s with
       | "" => ""
       | String c s' => String c (removesuffix suffix s')
       end.

(** [str(x)] inside an f-string, for an optional string. *)
Definition str_of_optional (x : option string) : string :=
  match x with
  | Some s => s
  | None => "None"
  end.

End PyStr.

(** ** Paths and the file system ([pathlib], [os], [torch.save]) *)

Module Fs.
Import PyStr.

(** A POSIX path after [pathlib]'s normalisation: whether it starts at the
    root, and its components.  Empty components and ["."] are dropped when
    a string is parsed; [".."] is kept as a component, as [pathlib] does.
    A relative path is read against one fixed working directory, and the
    special root of a path starting with exactly two slashes is not
    told apart from the ordinary root. *)
Record path : Type := Path { anchored : bool; parts : list string }.

Global Instance path_eq_dec : EqDecision path.
Proof. solve_decision. Defined.

Global Instance path_countable : Countable path :=
  inj_countable' (λ p, (anchored p, parts p)) (λ x, Path x.1 x.2)
    (λ p, match p with Path _ _ => eq_refl end).

(** [Path(s)] *)
Definition parse (s : string) : path :=
  Path (String.prefix "/" s)
       (filter (λ c, c ≠ "" ∧ c ≠ ".") (split "/" s)).

(** [Path.joinpath(p, s)]: an absolute [s] replaces [p]. *)
Definition joinpath (p : path) (s : string) : path :=
  let q := parse s in
  if anchored q then q else Path (anchored p) (parts p ++ parts q).

(** [p.name]: the final component, [""] when there is none. *)
Definition name (p : path) : string := default "" (last (parts p)).

(** [p.parent]; a path without components is its own parent. *)
Definition parent (p : path) : path :=
  Path (anchored p) (removelast (parts p)).

(** The text before and after the last ["."] of [s], if there is one. *)
Fixpoint last_dot (s : string) : option (string * string) :=
  match s with
  | "" => None
  | String c s' =>
      match last_dot s' with
      | Some (before, after) => Some (String c before, after)
      | None => if Ascii.eqb c "." then Some ("", s') else None
      end
  end.

(** [p.stem]: the name without its suffix, where a suffix starts at the
    last ["."] that is neither the first nor the last character. *)
Definition stem (p : path) : string :=
  match last_dot (name p) with
  | Some (before, after) =>
      if bool_decide (before ≠ "" ∧ after ≠ "") then before else name p
  | None => name p
  end.

(** [p.with_suffix(suffix)] *)
Definition with_suffix (p : path) (suffix : string) : pyresult path :=
  if contains "/" suffix then Raise ValueError
  else if bool_decide (suffix ≠ "" ∧ String.prefix "." suffix = false
                       ∨ suffix = ".") then Raise ValueError
  else if bool_decide (name p = "") then Raise ValueError
  else Ok (Path (anchored p) (removelast (parts p) ++ [stem p +:+ suffix])).

Section FileSystem.
Context {Content : Type}.

(** Directories and regular files, by path.  The root and the working
    directory (the paths without components) always exist. *)
Record fs : Type := Fs { dirs : gset path; files : gmap path Content }.

Definition is_dir (σ : fs) (p : path) : bool :=
  bool_decide (parts p = [] ∨ p ∈ dirs σ).

Definition is_file (σ : fs) (p : path) : bool :=
  bool_decide (is_Some (files σ !! p)).

(** [os.mkdir(p)]: the parent is resolved first, then [p] must be new. *)
Definition os_mkdir (σ : fs) (p : path) : pyresult unit * fs :=
  if bool_decide (parts p = []) then (Raise FileExistsError, σ)
  else if is_file σ (parent p) then (Raise NotADirectoryError, σ)
  else if negb (is_dir σ (parent p)) then (Raise FileNotFoundError, σ)
  else if is_dir σ p || is_file σ p then (Raise FileExistsError, σ)
  else (Ok (), Fs ({[p]} ∪ dirs σ) (files σ)).

(** [p.mkdir(exist_ok=exist_ok)], with [parents=False]: a missing parent
    is re-raised; any other [OSError] is swallowed only when [exist_ok]
    holds and [p] is a directory. *)
Definition Path_mkdir (σ : fs) (p : path) (exist_ok : bool)
  : pyresult unit * fs :=
  match os_mkdir σ p with
  | (Ok u, σ') => (Ok u, σ')
  | (Raise FileNotFoundError, σ') => (Raise FileNotFoundError, σ')
  | (Raise e, σ') =>
      if negb exist_ok || negb (is_dir σ' p) then (Raise e, σ')
      else (Ok (), σ')
  end.

(** [torch.save(obj, p)]: writes the serialised object to the regular
    file [p], replacing what was there; it needs the parent directory
    and refuses a directory as target. *)
Definition torch_save (σ : fs) (obj : Content) (p : path)
  : pyresult unit * fs :=
  if negb (is_dir σ (parent p)) then (Raise RuntimeError, σ)
  else if is_dir σ p then (Raise IsADirectoryError, σ)
  else (Ok (), Fs (dirs σ) (<[p := obj]> (files σ))).

(** [os.path.getsize(p)], given the size of a file's content; the size
    the system reports for a directory is not modelled and taken as 0. *)
Definition getsize (size : Content → Z) (σ : fs) (p : path)
  : pyresult Z :=
  match files σ !! p with
  | Some c => Ok (size c)
  | None => if is_dir σ p then Ok 0 else Raise FileNotFoundError
  end.

End FileSystem.
Global Arguments fs : clear implicits.

End Fs.

(** ** The quantization recipe ([recipes/quantize.py]) *)

Module Recipe.
Import PyStr Fs.

(** The configuration keys the recipe reads.  The sub-configurations handed
    to [config.instantiate] are kept as values. *)
Record checkpointer_cfg : Type := CheckpointerCfg {
  checkpoint_files : list string;
  output_dir : string;
  checkpointer_component : pyval;
}.

Record config : Type := Config {
  device : string;
  dtype : string;
  quantizer : pyval;
  seed : option Z;
  cudnn_deterministic_mode : option pyval;
  checkpointer : checkpointer_cfg;
  model : pyval;
}.

Section WithCollaborators.
(** The artifacts of the external framework are opaque. *)
Context {Device Dtype Quantizer Checkpointer Model StateDict Rng : Type}.
Context `{!EqDecision Dtype}.

(** The external collaborators, as functions of their arguments.  The
    ones that build or transform a model also read and advance the state
    of the random generator.  [instantiate_model] stands for building
    the model inside the dtype and device context managers. *)
Record collaborators : Type := Collaborators {
  log_config : config → pyresult unit;
  get_device : string → pyresult Device;
  device_type : Device → string;
  get_dtype : string → Device → pyresult Dtype;
  instantiate_quantizer : pyval → pyresult Quantizer;
  get_quantizer_mode : Quantizer → pyresult (option string);
  set_seed : option Z → option pyval → Rng → pyresult unit * Rng;
  instantiate_checkpointer : checkpointer_cfg → pyresult Checkpointer;
  checkpointer_load_checkpoint :
    Checkpointer → pyresult (gmap string StateDict);
  MODEL_KEY : string;
  instantiate_model :
    pyval → Dtype → Device → Rng → pyresult Model * Rng;
  quantizer_prepare : Quantizer → Model → Rng → pyresult Model * Rng;
  load_state_dict : Model → StateDict → pyresult Model;
  named_parameters : Model → list (string * Dtype);
  quantizer_convert : Quantizer → Model → Rng → pyresult Model * Rng;
  quantizer_quantize : Quantizer → Model → Rng → pyresult Model * Rng;
  get_torch_device_namespace : pyresult unit;
  max_memory_allocated : pyresult Z;
  state_dict : Model → pyresult StateDict;
  serialized_size : StateDict → Z;
}.

(** What [logger.info] is given. *)
Inductive log_msg : Type :=
  | MsgPrecision (d : Dtype)
  | MsgQuantTime (t : Z)
  | MsgMemory (bytes : Z)
  | MsgSaved (size : Z) (p : path).

(** The calls that leave the recipe, with the arguments the properties
    below speak about. *)
Inductive call : Type :=
  | LogConfig
  | GetDevice
  | GetDtype
  | InstantiateQuantizer
  | GetQuantizerMode
  | SetSeed (seed : option Z) (debug_mode : option pyval)
  | InstantiateCheckpointer
  | LoadCheckpoint
  | InstantiateModel
  | Prepare
  | LoadStateDict
  | ValidateExpectedParamDtype
      (named_params : list (string * Dtype)) (d : Dtype)
  | PerfCounter
  | Convert
  | Quantize
  | GetTorchDeviceNamespace
  | MaxMemoryAllocated
  | GetStateDict
  | Mkdir (p : path)
  | TorchSave (p : path)
  | Getsize (p : path)
  | LoggerInfo (msg : log_msg).

(** A call together with the exception it raised, if any. *)
Definition event : Type := call * option exn.

(** The attributes of the recipe object; an attribute that was never
    assigned is [None]. *)
Record recipe : Type := RecipeObj {
  _device : option Device;
  _dtype : option Dtype;
  _quantizer : option Quantizer;
  _quantization_mode : option (option string);
  _checkpointer : option Checkpointer;
  _model : option Model;
}.

Definition new_recipe : recipe := RecipeObj None None None None None None.

(** Everything a run can read or change: the recipe object, the calls
    made so far, the disk, the random generator and the readings the
    clock will give. *)
Record world : Type := World {
  self : recipe;
  trace : list event;
  disk : fs StateDict;
  rng : Rng;
  clock : list Z;
}.

(** State and exceptions: the world survives an exception. *)
Definition M (A : Type) : Type := world → pyresult A * world.

Global Instance M_ret : MRet M := λ A a w, (Ok a, w).
Global Instance M_bind : MBind M := λ A B f m w,
  match m w with
  | (Ok a, w') => f a w'
  | (Raise e, w') => (Raise e, w')
  end.

Definition raise {A} (e : exn) : M A := λ w, (Raise e, w).

Definition record (c : call) (o : option exn) (w : world) : world :=
  World (self w) (trace w ++ [(c, o)]) (disk w) (rng w) (clock w).

(** A call to a collaborator that does not touch the generator. *)
Definition invoke {A} (c : call) (r : pyresult A) : M A :=
  λ w, (r, record c (raised r) w).

(** A call to a collaborator that reads and advances the generator. *)
Definition invoke_rng {A} (c : call) (f : Rng → pyresult A * Rng) : M A :=
  λ w, let '(r, g) := f (rng w) in
       (r, record c (raised r)
             (World (self w) (trace w) (disk w) g (clock w))).

(** A call that acts on the disk. *)
Definition invoke_fs {A} (c : call)
    (f : fs StateDict → pyresult A * fs StateDict) : M A :=
  λ w, let '(r, σ) := f (disk w) in
       (r, record c (raised r)
             (World (self w) (trace w) σ (rng w) (clock w))).

(** [time.perf_counter()] *)
Definition perf_counter : M Z := λ w,
  let '(t, rest) := match clock w with
                    | t :: rest => (t, rest)
                    | [] => (0, [])
                    end in
  (Ok t, record PerfCounter None
           (World (self w) (trace w) (disk w) (rng w) rest)).

Definition logger_info (msg : log_msg) : M unit :=
  invoke (LoggerInfo msg) (Ok ()).

(** Reading [self.attr]: an attribute never assigned is an
    [AttributeError]. *)
Definition getattr {A} (attr : recipe → option A) : M A := λ w,
  match attr (self w) with
  | Some a => (Ok a, w)
  | None => (Raise AttributeError, w)
  end.

Definition setattr (f : recipe → recipe) : M unit := λ w,
  (Ok (), World (f (self w)) (trace w) (disk w) (rng w) (clock w)).

Definition set_device (v : Device) (o : recipe) : recipe :=
  RecipeObj (Some v) (_dtype o) (_quantizer o) (_quantization_mode o)
            (_checkpointer o) (_model o).
Definition set_dtype (v : Dtype) (o : recipe) : recipe :=
  RecipeObj (_device o) (Some v) (_quantizer o) (_quantization_mode o)
            (_checkpointer o) (_model o).
Definition set_quantizer (v : Quantizer) (o : recipe) : recipe :=
  RecipeObj (_device o) (_dtype o) (Some v) (_quantization_mode o)
            (_checkpointer o) (_model o).
Definition set_quantization_mode (v : option string) (o : recipe)
  : recipe :=
  RecipeObj (_device o) (_dtype o) (_quantizer o) (Some v)
            (_checkpointer o) (_model o).
Definition set_checkpointer (v : Checkpointer) (o : recipe) : recipe :=
  RecipeObj (_device o) (_dtype o) (_quantizer o) (_quantization_mode o)
            (Some v) (_model o).
Definition set_model (v : Model) (o : recipe) : recipe :=
  RecipeObj (_device o) (_dtype o) (_quantizer o) (_quantization_mode o)
            (_checkpointer o) (Some v).

(** Modelled from the spec: [training.validate_expected_param_dtype] is
    not among the source files.  The recipe calls it to "validate model
    was loaded in with the expected dtype", and the specification lists
    dtype mismatches among the failures that propagate: it goes through
    the named parameters and raises at the first one whose dtype is not
    the expected one. *)
Fixpoint validate_expected_param_dtype
    (named_params : list (string * Dtype)) (d : Dtype) : pyresult unit :=
  match named_params with
  | [] => Ok ()
  | (_, param_dtype) :: rest =>
      if decide (param_dtype = d)
      then validate_expected_param_dtype rest d
      else Raise ValueError
  end.

(** [sub in s] where [s] may be [None], which is not iterable. *)
Definition py_in (sub : string) (s : option string) : M bool :=
  match s with
  | Some s => mret (contains sub s)
  | None => raise TypeError
  end.

(** [l[i]] *)
Definition getitem {A} (l : list A) (i : nat) : M A :=
  match l !! i with
  | Some a => mret a
  | None => raise IndexError
  end.

(** [d[k]] *)
Definition getkey {A} (d : gmap string A) (k : string) : M A :=
  match d !! k with
  | Some a => mret a
  | None => raise KeyError
  end.

Context (env : collaborators).

Definition __init__ (cfg : config) : M unit :=
  dev ← invoke GetDevice (get_device env (device cfg));
  setattr (set_device dev);;
  dev ← getattr _device;
  dt ← invoke GetDtype (get_dtype env (dtype cfg) dev);
  setattr (set_dtype dt);;
  q ← invoke InstantiateQuantizer (instantiate_quantizer env (quantizer cfg));
  setattr (set_quantizer q);;
  q ← getattr _quantizer;
  mode ← invoke GetQuantizerMode (get_quantizer_mode env q);
  setattr (set_quantization_mode mode);;
  invoke_rng (SetSeed (seed cfg) (cudnn_deterministic_mode cfg))
    (set_seed env (seed cfg) (cudnn_deterministic_mode cfg)).

Definition load_checkpoint (checkpointer_cfg : checkpointer_cfg)
  : M (gmap string StateDict) :=
  c ← invoke InstantiateCheckpointer
        (instantiate_checkpointer env checkpointer_cfg);
  setattr (set_checkpointer c);;
  c ← getattr _checkpointer;
  checkpoint_dict ← invoke LoadCheckpoint
                      (checkpointer_load_checkpoint env c);
  mret checkpoint_dict.

Definition _setup_model (model_cfg : pyval) (model_state_dict : StateDict)
  : M Model :=
  dt ← getattr _dtype;
  dev ← getattr _device;
  model ← invoke_rng InstantiateModel
            (instantiate_model env model_cfg dt dev);
  mode ← getattr _quantization_mode;
  qat ← py_in "qat" mode;
  model ← (if qat : bool then
             q ← getattr _quantizer;
             invoke_rng Prepare (quantizer_prepare env q model)
           else mret model);
  model ← invoke LoadStateDict
            (load_state_dict env model model_state_dict);
  dt ← getattr _dtype;
  invoke (ValidateExpectedParamDtype (named_parameters env model) dt)
    (validate_expected_param_dtype (named_parameters env model) dt);;
  dt ← getattr _dtype;
  logger_info (MsgPrecision dt);;
  mret model.

Definition setup (cfg : config) : M unit :=
  ckpt_dict ← load_checkpoint (checkpointer cfg);
  sd ← getkey ckpt_dict (MODEL_KEY env);
  model ← _setup_model (model cfg) sd;
  setattr (set_model model).

Definition quantize (cfg : config) : M unit :=
  t0 ← perf_counter;
  mode ← getattr _quantization_mode;
  qat ← py_in "qat" mode;
  (if qat : bool then
     q ← getattr _quantizer;
     m ← getattr _model;
     m ← invoke_rng Convert (quantizer_convert env q m);
     setattr (set_model m)
   else
     q ← getattr _quantizer;
     m ← getattr _model;
     m ← invoke_rng Quantize (quantizer_quantize env q m);
     setattr (set_model m));;
  t1 ← perf_counter;
  logger_info (MsgQuantTime (t1 - t0));;
  dev ← getattr _device;
  if bool_decide (device_type env dev ≠ "cpu") then
    invoke GetTorchDeviceNamespace (get_torch_device_namespace env);;
    bytes ← invoke MaxMemoryAllocated (max_memory_allocated env);
    logger_info (MsgMemory bytes)
  else mret ().

Definition save_checkpoint (cfg : config) : M unit :=
  m ← getattr _model;
  ckpt_dict ← invoke GetStateDict (state_dict env m);
  file0 ← getitem (checkpoint_files (checkpointer cfg)) 0;
  file_name ← getitem (split "." file0) 0;
  let output_dir := parse (output_dir (checkpointer cfg)) in
  invoke_fs (Mkdir output_dir) (λ σ, Path_mkdir σ output_dir true);;
  mode ← getattr _quantization_mode;
  checkpoint_file ← match
      with_suffix
        (joinpath output_dir
           (rstrip "-qat" (file_name +:+ "-" +:+ str_of_optional mode)))
        ".ckpt"
    with
    | Ok p => mret p
    | Raise e => raise e
    end;
  invoke_fs (TorchSave checkpoint_file)
    (λ σ, torch_save σ ckpt_dict checkpoint_file);;
  size ← invoke_fs (Getsize checkpoint_file)
           (λ σ, (getsize (serialized_size env) σ checkpoint_file, σ));
  logger_info (MsgSaved size checkpoint_file).

(** [main]: the recipe object is created afresh, then initialised. *)
Definition main (cfg : config) : M unit :=
  invoke LogConfig (log_config env cfg);;
  setattr (λ _, new_recipe);;
  __init__ cfg;;
  setup cfg;;
  quantize cfg;;
  save_checkpoint cfg.

End WithCollaborators.
End Recipe.

(** ** Vocabulary for the runs of the recipe *)

Module Trace.
Import PyStr Fs Recipe.

Section WithTypes.
Context {Device Dtype Quantizer Checkpointer Model StateDict Rng : Type}.

#[local] Abbreviation world :=
  (@world Device Dtype Quantizer Checkpointer Model StateDict Rng).
#[local] Abbreviation event := (@event Dtype).
#[local] Abbreviation call := (@call Dtype).

(** The source name of the callee of a call. *)
Definition call_name (c : call) : string :=
  match c with
  | LogConfig => "config.log_config"
  | GetDevice => "utils.get_device"
  | GetDtype => "training.get_dtype"
  | InstantiateQuantizer => "config.instantiate(cfg.quantizer)"
  | GetQuantizerMode => "training.get_quantizer_mode"
  | SetSeed _ _ => "training.set_seed"
  | InstantiateCheckpointer => "config.instantiate(checkpointer_cfg)"
  | LoadCheckpoint => "checkpointer.load_checkpoint"
  | InstantiateModel => "config.instantiate(model_cfg)"
  | Prepare => "quantizer.prepare"
  | LoadStateDict => "model.load_state_dict"
  | ValidateExpectedParamDtype _ _ =>
      "training.validate_expected_param_dtype"
  | PerfCounter => "time.perf_counter"
  | Convert => "quantizer.convert"
  | Quantize => "quantizer.quantize"
  | GetTorchDeviceNamespace => "utils.get_torch_device_namespace"
  | MaxMemoryAllocated => "torch_device.max_memory_allocated"
  | GetStateDict => "model.state_dict"
  | Mkdir _ => "Path.mkdir"
  | TorchSave _ => "torch.save"
  | Getsize _ => "os.path.getsize"
  | LoggerInfo _ => "logger.info"
  end.

Definition names (t : list event) : list string :=
  (λ ev, call_name ev.1) <$> t.

(** The events a run from [w] to [w'] added. *)
Definition new_events (w w' : world) : list event :=
  drop (length (trace w)) (trace w').

(** The calls of the four steps of [main], by name; [qat] tells whether
    the quantization mode contains ["qat"], [cpu] whether the device is
    the CPU. *)
Definition construct_calls : list string :=
  ["utils.get_device"; "training.get_dtype";
   "config.instantiate(cfg.quantizer)"; "training.get_quantizer_mode";
   "training.set_seed"].

Definition setup_model_calls (qat : bool) : list string :=
  ["config.instantiate(model_cfg)"] ++
  (if qat then ["quantizer.prepare"] else []) ++
  ["model.load_state_dict"; "training.validate_expected_param_dtype";
   "logger.info"].

Definition setup_calls (qat : bool) : list string :=
  ["config.instantiate(checkpointer_cfg)";
   "checkpointer.load_checkpoint"] ++ setup_model_calls qat.

Definition quantize_calls (qat cpu : bool) : list string :=
  ["time.perf_counter";
   if qat then "quantizer.convert" else "quantizer.quantize";
   "time.perf_counter"; "logger.info"] ++
  (if cpu then []
   else ["utils.get_torch_device_namespace";
         "torch_device.max_memory_allocated"; "logger.info"]).

Definition save_calls : list string :=
  ["model.state_dict"; "Path.mkdir"; "torch.save"; "os.path.getsize";
   "logger.info"].

Definition pipeline (qat cpu : bool) : list string :=
  ["config.log_config"] ++ construct_calls ++ setup_calls qat ++
  quantize_calls qat cpu ++ save_calls.

(** How often a name occurs. *)
Definition occurrences (n : string) (l : list string) : nat :=
  length (filter (λ x, x = n) l).

(** An exception raised by a call ends the run and is its result. *)
Definition propagated {A} (r : pyresult A) (t : list event) : Prop :=
  ∀ i c e, t !! i = Some (c, Some e) → r = Raise e ∧ S i = length t.

Fixpoint propagated_from (r : option exn) (t : list event) : Prop :=
  match t with
  | [] => True
  | (_, None) :: t' => propagated_from r t'
  | (_, Some e) :: t' => t' = [] ∧ r = Some e
  end.

(** The calls that build, load or transform the model. *)
Definition is_model_work (c : call) : bool :=
  match c with
  | InstantiateModel | Prepare | LoadStateDict
  | ValidateExpectedParamDtype _ _ | Convert | Quantize
  | GetStateDict => true
  | _ => false
  end.

(** Every call that works on the model comes after a successful call
    of [set_seed] with the given arguments. *)
Definition seeded_before_model_work
    (seed : option Z) (debug_mode : option pyval) (t : list event)
  : Prop :=
  ∀ i c o, t !! i = Some (c, o) → is_model_work c = true →
           ∃ j, (j < i)%nat ∧ t !! j = Some (SetSeed seed debug_mode, None).

Fixpoint seeded_from
    (seed : option Z) (debug_mode : option pyval) (t : list event)
  : Prop :=
  match t with
  | [] => True
  | (c, o) :: t' =>
      if is_model_work c then False
      else (c = SetSeed seed debug_mode ∧ o = None)
           ∨ seeded_from seed debug_mode t'
  end.

End WithTypes.
End Trace.

(** ** Comparing two runs *)

Module TwoRuns.
Import Recipe.

Section WithTypes.
Context {Device Dtype Quantizer Checkpointer Model StateDict Rng : Type}.

#[local] Abbreviation world :=
  (@world Device Dtype Quantizer Checkpointer Model StateDict Rng).
#[local] Abbreviation M :=
  (@M Device Dtype Quantizer Checkpointer Model StateDict Rng).

(** How much two worlds have in common besides the disk: whether they
    hold the same recipe object, and whether their random generators
    are in the same state.  The calls made so far and the readings of
    the clock are never compared. *)
Record level : Type := Level { same_object : bool; same_rng : bool }.

Definition sim (l : level) (w1 w2 : world) : Prop :=
  disk w1 = disk w2 ∧
  (same_object l = true → self w1 = self w2) ∧
  (same_rng l = true → rng w1 = rng w2).

(** From worlds alike at level [l], the two computations end alike:
    the same result, and worlds alike at level [l'] when they return,
    the same disk when they raise. *)
Definition rel {A} (l l' : level) (m1 m2 : M A) : Prop :=
  ∀ w1 w2, sim l w1 w2 →
    (m1 w1).1 = (m2 w2).1 ∧
    if is_ok (m1 w1).1 then sim l' (m1 w1).2 (m2 w2).2
    else disk (m1 w1).2 = disk (m2 w2).2.

(** Seeding with the configured seed sets the generator whatever its
    state was. *)
Definition reseeds
    (env : @collaborators Device Dtype Quantizer Checkpointer Model
             StateDict Rng) (cfg : config) : Prop :=
  ∃ s, seed cfg = Some s ∧
       ∀ dbg g1 g2,
         set_seed env (Some s) dbg g1 = set_seed env (Some s) dbg g2.

End WithTypes.
End TwoRuns.

(** ** A concrete set of collaborators, for evaluating the recipe *)

Module Demo.
Import PyStr Fs Recipe.

(** A device and a dtype are their names; a quantizer is its mode; a
    model and a state dict list the parameter names with their dtype; the
    generator state is a number. *)
Definition env
  : @collaborators string string string (list string)
      (list (string * string)) (list (string * string)) Z :=
  {| log_config := λ _, Ok ();
     get_device := λ d, Ok d;
     device_type := λ d, d;
     get_dtype := λ d _, Ok d;
     instantiate_quantizer := λ q,
       match q with
       | PyStr mode => Ok mode
       | _ => Raise (OtherError "InstantiationError")
       end;
     get_quantizer_mode := λ q, Ok (Some q);
     set_seed := λ s _ g, (Ok (), default g s);
     instantiate_checkpointer := λ c, Ok (checkpoint_files c);
     checkpointer_load_checkpoint := λ c,
       Ok {["model" := [("tok_embeddings.weight", "bf16");
                         ("output.weight", "bf16")]]};
     MODEL_KEY := "model";
     instantiate_model := λ _ dt _ g,
       (Ok [("tok_embeddings.weight", dt); ("output.weight", dt)],
        g + 1);
     quantizer_prepare := λ _ m g, (Ok m, g);
     load_state_dict := λ m sd,
       if bool_decide (m.*1 = sd.*1) then Ok sd
       else Raise (OtherError "RuntimeError: missing keys");
     named_parameters := λ m, m;
     quantizer_convert := λ _ m g, (Ok m, g);
     quantizer_quantize := λ _ m g, (Ok m, g);
     get_torch_device_namespace := Ok ();
     max_memory_allocated := Ok 0;
     state_dict := λ m, Ok m;
     serialized_size := λ sd, Z.of_nat (length sd) |}.

Definition cfg (mode : string) : config :=
  {| device := "cpu";
     dtype := "bf16";
     quantizer := PyStr mode;
     seed := Some 1234;
     cudnn_deterministic_mode := None;
     checkpointer :=
       {| checkpoint_files := ["model.pt"];
          output_dir := "out";
          checkpointer_component := PyStr "FullModelTorchTuneCheckpointer" |};
     model := PyStr "torchtune.models.llama2.llama2_7b" |}.

(** An empty disk, no recipe object yet, nothing called so far. *)
Definition world0
  : @world string string string (list string)
      (list (string * string)) (list (string * string)) Z :=
  {| self := new_recipe;
     trace := [];
     disk := Fs ∅ ∅;
     rng := 0;
     clock := [10; 25] |}.

(** The world after construction and [setup]. *)
Definition world_ready (mode : string) :=
  (setup env (cfg mode) (__init__ env (cfg mode) world0).2).2.

End Demo.

(** ** The tokenizer builder ([_model_builders.py]) *)

Module Tokenizer.
Import PyCall.

(** The signature of [llama2_tokenizer]. *)
Definition tokenizer_params : list param := [
  Param "path" None;
  Param "max_seq_len" (Some PyNone);
  Param "prompt_template"
    (Some (PyStr "torchtune.models.llama2.Llama2ChatTemplate"));
  Param "truncation_type" (Some (PyStr "right"))].

Section WithTemplates.
(** A prompt template object is opaque. *)
Context {Template : Type}.

(** The call of the [Llama2Tokenizer] constructor, whose four arguments
    the builder passes by keyword; the builder returns what the
    constructor returns. *)
Record tokenizer_call : Type := Llama2Tokenizer {
  path : pyval;
  max_seq_len : pyval;
  prompt_template : option Template;
  truncation_type : pyval;
}.

(** [_get_prompt_template], imported from [torchtune.data]: it makes the
    template object out of a dotpath or a dictionary, or raises. *)
Context (_get_prompt_template : pyval → pyresult Template).

Definition llama2_tokenizer : callable tokenizer_call := λ args kw,
  locals ← bind_call tokenizer_params args kw;
  template ← match locals !!! "prompt_template" with
             | PyNone => Ok None
             | t => tpl ← _get_prompt_template t; Ok (Some tpl)
             end;
  Ok (Llama2Tokenizer (locals !!! "path") (locals !!! "max_seq_len")
        template (locals !!! "truncation_type")).

End WithTemplates.
Global Arguments tokenizer_call : clear implicits.

End Tokenizer.

(** ** Builders that return what their callee returns *)

Module Delegate.
Import PyCall.

(** A builder whose body is [return callee(...)]: [b] gives the call that
    the builder makes, or the exception raised before it is made; the
    builder then returns, or raises, what [callee] does on that call. *)
Definition returning {C R} (callee : C → pyresult R) (b : callable C)
  : callable R :=
  λ args kw, c ← b args kw; callee c.

End Delegate.

(** ** Further collaborators, for the edge cases of the recipe *)

Module Scenarios.
Import PyStr Fs Recipe.

(** The collaborators of [Demo.env], except that the mode of a quantizer
    is looked up by [mode] and that the checkpointer loads [loaded]. *)
Definition env_with (mode : string → option string)
    (loaded : gmap string (list (string * string)))
  : @collaborators string string string (list string)
      (list (string * string)) (list (string * string)) Z :=
  {| log_config := log_config Demo.env;
     get_device := get_device Demo.env;
     device_type := device_type Demo.env;
     get_dtype := get_dtype Demo.env;
     instantiate_quantizer := instantiate_quantizer Demo.env;
     get_quantizer_mode := λ q, Ok (mode q);
     set_seed := set_seed Demo.env;
     instantiate_checkpointer := instantiate_checkpointer Demo.env;
     checkpointer_load_checkpoint := λ _, Ok loaded;
     MODEL_KEY := MODEL_KEY Demo.env;
     instantiate_model := instantiate_model Demo.env;
     quantizer_prepare := quantizer_prepare Demo.env;
     load_state_dict := load_state_dict Demo.env;
     named_parameters := named_parameters Demo.env;
     quantizer_convert := quantizer_convert Demo.env;
     quantizer_quantize := quantizer_quantize Demo.env;
     get_torch_device_namespace := get_torch_device_namespace Demo.env;
     max_memory_allocated := max_memory_allocated Demo.env;
     state_dict := state_dict Demo.env;
     serialized_size := serialized_size Demo.env |}.

(** [Demo.cfg] with other checkpoint files and another device. *)
Definition cfg_with (dev : string) (files : list string) : config :=
  {| device := dev;
     dtype := "bf16";
     quantizer := PyStr "8da4w";
     seed := Some 1234;
     cudnn_deterministic_mode := None;
     checkpointer :=
       {| checkpoint_files := files;
          output_dir := "out";
          checkpointer_component :=
            PyStr "FullModelTorchTuneCheckpointer" |};
     model := PyStr "torchtune.models.llama2.llama2_7b" |}.

(** The collaborators of [Demo.env], except that the checkpointer loads
    [loaded] and that [load_state_dict] copies the values of the state
    dict into the parameters of the model, which keep their dtype, as
    [torch.nn.Module.load_state_dict] does. *)
Definition env_casting (loaded : gmap string (list (string * string)))
  : @collaborators string string string (list string)
      (list (string * string)) (list (string * string)) Z :=
  {| log_config := log_config Demo.env;
     get_device := get_device Demo.env;
     device_type := device_type Demo.env;
     get_dtype := get_dtype Demo.env;
     instantiate_quantizer := instantiate_quantizer Demo.env;
     get_quantizer_mode := get_quantizer_mode Demo.env;
     set_seed := set_seed Demo.env;
     instantiate_checkpointer := instantiate_checkpointer Demo.env;
     checkpointer_load_checkpoint := λ _, Ok loaded;
     MODEL_KEY := MODEL_KEY Demo.env;
     instantiate_model := instantiate_model Demo.env;
     quantizer_prepare := quantizer_prepare Demo.env;
     load_state_dict := λ m sd,
       if bool_decide (m.*1 = sd.*1) then Ok m
       else Raise (OtherError "RuntimeError: missing keys");
     named_parameters := named_parameters Demo.env;
     quantizer_convert := quantizer_convert Demo.env;
     quantizer_quantize := quantizer_quantize Demo.env;
     get_torch_device_namespace := get_torch_device_namespace Demo.env;
     max_memory_allocated := max_memory_allocated Demo.env;
     state_dict := state_dict Demo.env;
     serialized_size := serialized_size Demo.env |}.

End Scenarios.

(** * The Python operations on small inputs *)

Section Examples.
Import PyCall Builders PyStr Fs.

Example split_file_name : split "." "hf_model_0001_0.pt" = ["hf_model_0001_0"; "pt"].
Proof. reflexivity. Qed.

Example split_without_separator : split "." "model" = ["model"].
Proof. reflexivity. Qed.

Example rstrip_qat_mode : rstrip "-qat" "model-8da4w-qat" = "model-8da4w".
Proof. reflexivity. Qed.

Example rstrip_is_a_character_set : rstrip "-qat" "llama-qat" = "llam".
Proof. reflexivity. Qed.

Example removesuffix_qat : removesuffix "-qat" "llama-qat" = "llama".
Proof. reflexivity. Qed.

Example contains_qat :
  contains "qat" "8da4w-qat" = true ∧ contains "qat" "8da4w" = false.
Proof. split; reflexivity. Qed.

Example parse_drops_dots : parse "./out//ckpt/" = Path false ["out"; "ckpt"].
Proof. vm_compute. reflexivity. Qed.

Example with_suffix_appends :
  with_suffix (joinpath (parse "out") "model-8da4w") ".ckpt"
  = Ok (Path false ["out"; "model-8da4w.ckpt"]).
Proof. vm_compute. reflexivity. Qed.

Example with_suffix_replaces :
  with_suffix (joinpath (parse "/out") "model-v1.5") ".ckpt"
  = Ok (Path true ["out"; "model-v1.ckpt"]).
Proof. vm_compute. reflexivity. Qed.

Example mkdir_needs_parent :
  (Path_mkdir (Fs ∅ ∅ : fs unit) (parse "a/out") true).1
  = Raise FileNotFoundError.
Proof. vm_compute. reflexivity. Qed.

Example call_with_too_many_values :
  raised (qlora_llama2_7b
            [PyList []; PyBool false; PyBool false; PyInt 8; PyInt 16;
             PyFloat 0; PyBool false; PyBool true] ∅)
  = Some TypeError.
Proof. vm_compute. reflexivity. Qed.

Example call_overrides_preset :
  (λ c, call_kwargs c !! "quantize_base") <$>
    returned (qlora_llama2_7b [PyList [PyStr "q_proj"]]
                {["quantize_base" := PyBool false]})
  = Some (Some (PyBool false)).
Proof. vm_compute. reflexivity. Qed.

End Examples.

(** * Facts about the model builders *)

Section BuilderFacts.
Import PyCall Builders.

Lemma Ok_inj {A} (a b : A) : Ok a = Ok b → a = b.
Proof.
  intros H.
  exact (f_equal (λ r, match r with Ok x => x | Raise _ => a end) H).
Qed.

Lemma lookup_list_to_map_assoc {A} (l : list (string * A)) k :
  (list_to_map l : gmap string A) !! k = assoc k l.
Proof.
  induction l as [|[k' v] l IH]; cbn [assoc list_to_map foldr uncurry];
    [apply lookup_empty|].
  destruct (String.eqb_spec k k') as [->|Hne].
  - apply lookup_insert_eq.
  - rewrite lookup_insert_ne; [exact IH|]. cbn. intros Heq. apply Hne. by rewrite Heq.
Qed.

(** Defaults never replace a binding that is already there. *)
Lemma fill_defaults_preserves rest :
  ∀ (m l : gmap string pyval) k v,
    fill_defaults rest m = Ok l → m !! k = Some v → l !! k = Some v.
Proof.
  induction rest as [|p rest IH]; intros m l k v Hf Hk; cbn in Hf.
  - apply Ok_inj in Hf. by subst.
  - destruct (m !! p_name p) eqn:Hp; [by eauto|].
    destruct (p_default p); [|discriminate Hf].
    eapply IH; [exact Hf|].
    rewrite lookup_insert_ne; [done|].
    intros Heq. rewrite Heq in Hp. congruence.
Qed.

(** A keyword argument reaches the function body under its own name. *)
Lemma bind_call_keyword ps args (kw locals : gmap string pyval) k v :
  bind_call ps args kw = Ok locals → kw !! k = Some v →
  locals !! k = Some v.
Proof.
  unfold bind_call.
  destruct (bind_positional ps args) as [[bound rest]|]; [|discriminate].
  cbn [mbind pyresult_bind]. repeat case_decide; try discriminate.
  intros Hf Hk. eapply fill_defaults_preserves; [exact Hf|].
  by apply lookup_union_Some_l.
Qed.

Lemma partial_insert {R} (f : callable R) k v args
    (kw : gmap string pyval) :
  kw !! k = None → partial f {[k := v]} args kw = f args (<[k := v]> kw).
Proof.
  intros Hk. unfold partial. f_equal.
  by rewrite insert_union_singleton_r.
Qed.

(** Running a LoRA builder: the call succeeds exactly when the arguments
    bind, and then the component call is the one written in the body. *)
Ltac run_builder H locals :=
  unfold lora_llama2_7b, lora_llama2_13b, lora_llama2_70b,
    lora_llama2_reward_7b in H;
  match type of H with
  | context [bind_call ?ps ?args ?kw] =>
      destruct (bind_call ps args kw) as [locals|] eqn:Hbind;
      cbn [mbind pyresult_bind] in H; [|discriminate H];
      apply Ok_inj in H; subst
  end.

Ltac split_key k :=
  repeat match goal with
  | |- context [String.eqb k ?s] =>
      destruct (String.eqb_spec k s) as [->|?]
  end.

Ltac lora_key_absurd Hk :=
  exfalso; apply Hk; apply elem_of_list_to_set, list_elem_of_In;
  cbn [fmap list_fmap lora_params p_name In];
  repeat first [left; reflexivity | right].

Lemma lora_builder_base v args kw c k :
  lora_builder v args kw = Ok c → k ∉ lora_keys →
  call_kwargs c !! k = call_kwargs (plain_builder v) !! k.
Proof.
  intros H Hk.
  destruct v; cbn [lora_builder plain_builder] in *; run_builder H locals;
    unfold llama2_7b, llama2_13b, llama2_70b, llama2_reward_7b;
    cbn [call_kwargs]; rewrite !lookup_list_to_map_assoc; cbn [assoc];
    split_key k; try reflexivity; lora_key_absurd Hk.
Qed.

Lemma lora_builder_component v args kw c :
  lora_builder v args kw = Ok c →
  builder c = lora_counterpart (builder (plain_builder v)).
Proof.
  intros H.
  destruct v; cbn [lora_builder plain_builder] in *; run_builder H locals;
    reflexivity.
Qed.

Lemma lora_builder_quantize_base v args kw c x :
  lora_builder v args kw = Ok c → kw !! "quantize_base" = Some x →
  call_kwargs c !! "quantize_base" = Some x.
Proof.
  intros H Hk.
  assert (∀ locals, bind_call lora_params args kw = Ok locals →
                    locals !!! "quantize_base" = x) as Hl.
  { intros locals Hb. apply lookup_total_correct.
    eapply bind_call_keyword; eassumption. }
  destruct v; cbn [lora_builder] in *; run_builder H locals;
    cbn [call_kwargs]; rewrite lookup_list_to_map_assoc; cbn;
    f_equal; by apply Hl.
Qed.

(** C1: [qlora_llama2_reward_7b] is the QLoRA form of [lora_llama2_7b], not
    of [lora_llama2_reward_7b]: on the attention modules [q_proj, v_proj]
    it calls the component builder [lora_llama2] and passes no
    [num_classes], where [lora_llama2_reward_7b] with [quantize_base=True]
    calls [lora_llama2_classifier] with [num_classes=1]. *)
Theorem qlora_llama2_reward_7b_not_reward :
  let args := [PyList [PyStr "q_proj"; PyStr "v_proj"]] in
  let qlora := returned (qlora_llama2_reward_7b args ∅) in
  let reward := returned (lora_llama2_reward_7b args
                            {["quantize_base" := PyBool true]}) in
  builder <$> qlora = Some lora_llama2 ∧
  (λ c, call_kwargs c !! "num_classes") <$> qlora = Some None ∧
  builder <$> reward = Some lora_llama2_classifier ∧
  (λ c, call_kwargs c !! "num_classes") <$> reward = Some (Some (PyInt 1)) ∧
  qlora ≠ reward ∧
  ∀ args' kw, qlora_llama2_reward_7b args' kw = qlora_llama2_7b args' kw.
Proof.
  cbv zeta.
  assert (builder <$> returned (qlora_llama2_reward_7b
                       [PyList [PyStr "q_proj"; PyStr "v_proj"]] ∅)
          = Some lora_llama2) as H1 by (vm_compute; reflexivity).
  assert (builder <$> returned (lora_llama2_reward_7b
                       [PyList [PyStr "q_proj"; PyStr "v_proj"]]
                       {["quantize_base" := PyBool true]})
          = Some lora_llama2_classifier) as H2 by (vm_compute; reflexivity).
  split; [exact H1|]. split; [vm_compute; reflexivity|].
  split; [exact H2|]. split; [vm_compute; reflexivity|].
  split; [|reflexivity].
  intros Heq. rewrite Heq, H2 in H1. discriminate H1.
Qed.

(** C5: for each variant, the LoRA builder calls the LoRA counterpart of
    the plain builder's component builder, and on every keyword that is
    not a LoRA setting it passes exactly what the plain builder passes;
    the plain builders pass the fixed values listed. *)
Theorem lora_builders_pass_base_hyperparameters v args kw c :
  lora_builder v args kw = Ok c →
  builder c = lora_counterpart (builder (plain_builder v)) ∧
  (∀ k, k ∉ lora_keys →
        call_kwargs c !! k = call_kwargs (plain_builder v) !! k) ∧
  (∀ k, call_kwargs llama2_7b !! k =
        assoc k [("vocab_size", PyInt 32000); ("num_layers", PyInt 32);
                 ("num_heads", PyInt 32); ("num_kv_heads", PyInt 32);
                 ("embed_dim", PyInt 4096); ("max_seq_len", PyInt 4096);
                 ("attn_dropout", PyFloat 0);
                 ("norm_eps", PyFloat (1 # 100000))]) ∧
  (∀ k, call_kwargs llama2_13b !! k =
        assoc k [("vocab_size", PyInt 32000); ("num_layers", PyInt 40);
                 ("num_heads", PyInt 40); ("num_kv_heads", PyInt 40);
                 ("embed_dim", PyInt 5120);
                 ("intermediate_dim", PyInt 13824);
                 ("max_seq_len", PyInt 4096);
                 ("attn_dropout", PyFloat 0);
                 ("norm_eps", PyFloat (1 # 100000))]) ∧
  (∀ k, call_kwargs llama2_70b !! k =
        assoc k [("vocab_size", PyInt 32000); ("num_layers", PyInt 80);
                 ("num_heads", PyInt 64); ("num_kv_heads", PyInt 8);
                 ("embed_dim", PyInt 8192);
                 ("intermediate_dim", PyInt 28672);
                 ("max_seq_len", PyInt 4096);
                 ("attn_dropout", PyFloat 0);
                 ("norm_eps", PyFloat (1 # 100000))]) ∧
  (∀ k, call_kwargs llama2_reward_7b !! k =
        assoc k [("num_classes", PyInt 1);
                 ("vocab_size", PyInt 32000); ("num_layers", PyInt 32);
                 ("num_heads", PyInt 32); ("num_kv_heads", PyInt 32);
                 ("embed_dim", PyInt 4096); ("max_seq_len", PyInt 4096);
                 ("attn_dropout", PyFloat 0);
                 ("norm_eps", PyFloat (1 # 100000))]).
Proof.
  intros H. split_and!.
  - eapply lora_builder_component, H.
  - intros k Hk. eapply lora_builder_base; eassumption.
  - intros k. apply lookup_list_to_map_assoc.
  - intros k. apply lookup_list_to_map_assoc.
  - intros k. apply lookup_list_to_map_assoc.
  - intros k. apply lookup_list_to_map_assoc.
Qed.

Lemma lora_builders_pass_base_hyperparameters_witness :
  let args := [PyList [PyStr "q_proj"]] in
  let kw : gmap string pyval := {["lora_rank" := PyInt 4]} in
  ∃ c, lora_builder V70b args kw = Ok c ∧
       builder c = lora_llama2 ∧
       call_kwargs c !! "num_kv_heads" = Some (PyInt 8).
Proof.
  cbv zeta.
  destruct (lora_builder V70b [PyList [PyStr "q_proj"]]
              {["lora_rank" := PyInt 4]}) as [c|e] eqn:Hc;
    [|vm_compute in Hc; discriminate Hc].
  exists c. split; [reflexivity|].
  destruct (lora_builders_pass_base_hyperparameters V70b _ _ c Hc)
    as (Hb & Hk & _ & _ & H70 & _).
  split; [exact Hb|].
  rewrite Hk; [apply H70|].
  vm_compute. intros Hin. discriminate Hin.
Defined.

(** C9: for each size, a call of the QLoRA builder that passes no
    [quantize_base] keyword is the call of the LoRA builder with the same
    arguments and [quantize_base=True]; when it returns, the component
    call carries [quantize_base=True]. *)
Theorem qlora_is_lora_with_quantize_base args (kw : gmap string pyval) :
  kw !! "quantize_base" = None →
  let kw' := <["quantize_base" := PyBool true]> kw in
  qlora_llama2_7b args kw = lora_llama2_7b args kw' ∧
  qlora_llama2_13b args kw = lora_llama2_13b args kw' ∧
  qlora_llama2_70b args kw = lora_llama2_70b args kw' ∧
  ∀ c, qlora_llama2_7b args kw = Ok c ∨ qlora_llama2_13b args kw = Ok c ∨
       qlora_llama2_70b args kw = Ok c →
       call_kwargs c !! "quantize_base" = Some (PyBool true).
Proof.
  intros Hk kw'.
  assert (kw' !! "quantize_base" = Some (PyBool true)) as Hk'
    by apply lookup_insert_eq.
  unfold qlora_llama2_7b, qlora_llama2_13b, qlora_llama2_70b.
  rewrite !partial_insert by exact Hk. fold kw'.
  split_and!; try reflexivity.
  intros c [H|[H|H]].
  - by apply (lora_builder_quantize_base V7b args kw').
  - by apply (lora_builder_quantize_base V13b args kw').
  - by apply (lora_builder_quantize_base V70b args kw').
Qed.

Lemma qlora_is_lora_with_quantize_base_witness :
  let args := [PyList [PyStr "q_proj"]] in
  let kw : gmap string pyval := {["lora_rank" := PyInt 4]} in
  qlora_llama2_13b args kw =
  lora_llama2_13b args (<["quantize_base" := PyBool true]> kw).
Proof.
  cbv zeta.
  refine (proj1 (proj2 (qlora_is_lora_with_quantize_base
                          [PyList [PyStr "q_proj"]]
                          {["lora_rank" := PyInt 4]} _))).
  vm_compute. reflexivity.
Defined.

End BuilderFacts.

(** * Facts about the quantization recipe *)

(** ** Running the recipe step by step *)

Section RunInversion.
Import PyStr Fs Recipe Trace.
Context {Device Dtype Quantizer Checkpointer Model StateDict Rng : Type}.
Context `{!EqDecision Dtype}.

#[local] Abbreviation world :=
  (@world Device Dtype Quantizer Checkpointer Model StateDict Rng).
#[local] Abbreviation M :=
  (@M Device Dtype Quantizer Checkpointer Model StateDict Rng).

Lemma pair_inv {A B} (a a' : A) (b b' : B) :
  (a, b) = (a', b') → a = a' ∧ b = b'.
Proof.
  intros H. split; [exact (f_equal fst H)|exact (f_equal snd H)].
Qed.

(** A sequence either completes its first part and goes on from the world
    that part left, or stops with the exception and the world of the
    first part. *)
Lemma bind_inv {A B} (m : M A) (f : A → M B) w r w' :
  (m ≫= f) w = (r, w') →
  (∃ a w1, m w = (Ok a, w1) ∧ f a w1 = (r, w')) ∨
  (∃ e, m w = (Raise e, w') ∧ r = Raise e).
Proof.
  unfold mbind, M_bind. destruct (m w) as [[a|e] w1]; intros H.
  - left. by exists a, w1.
  - right. apply pair_inv in H as [<- <-]. by exists e.
Qed.

Lemma ret_inv {A} (a : A) (w : world) r w' :
  mret (M := M) a w = (r, w') → r = Ok a ∧ w' = w.
Proof. intros H. by apply pair_inv in H as [<- <-]. Qed.

Lemma raise_inv {A} e (w : world) (r : pyresult A) w' :
  raise e w = (r, w') → r = Raise e ∧ w' = w.
Proof. intros H. by apply pair_inv in H as [<- <-]. Qed.

Lemma invoke_inv {A} c (x : pyresult A) (w : world) r w' :
  invoke c x w = (r, w') → x = r ∧ w' = record c (raised r) w.
Proof. intros H. by apply pair_inv in H as [<- <-]. Qed.

Lemma invoke_rng_inv {A} c (f : Rng → pyresult A * Rng) (w : world) r w' :
  invoke_rng c f w = (r, w') →
  ∃ g, f (rng w) = (r, g) ∧
       w' = record c (raised r)
              (World (self w) (trace w) (disk w) g (clock w)).
Proof.
  unfold invoke_rng. destruct (f (rng w)) as [r0 g]. intros H.
  apply pair_inv in H as [<- <-]. by exists g.
Qed.

Lemma invoke_fs_inv {A} c
    (f : fs StateDict → pyresult A * fs StateDict) (w : world) r w' :
  invoke_fs c f w = (r, w') →
  ∃ σ, f (disk w) = (r, σ) ∧
       w' = record c (raised r)
              (World (self w) (trace w) σ (rng w) (clock w)).
Proof.
  unfold invoke_fs. destruct (f (disk w)) as [r0 σ]. intros H.
  apply pair_inv in H as [<- <-]. by exists σ.
Qed.

Lemma perf_counter_inv (w : world) r w' :
  perf_counter w = (r, w') →
  r = Ok (hd 0 (clock w)) ∧
  w' = record PerfCounter None
         (World (self w) (trace w) (disk w) (rng w) (tl (clock w))).
Proof.
  unfold perf_counter. destruct (clock w); intros H;
    by apply pair_inv in H as [<- <-].
Qed.

Lemma getattr_inv {A} (attr : recipe → option A) (w : world) r w' :
  getattr attr w = (r, w') →
  w' = w ∧ r = match attr (self w) with
               | Some a => Ok a
               | None => Raise AttributeError
               end.
Proof.
  unfold getattr. destruct (attr (self w)); intros H;
    by apply pair_inv in H as [<- <-].
Qed.

Lemma setattr_inv f (w : world) r w' :
  setattr f w = (r, w') →
  r = Ok () ∧ w' = World (f (self w)) (trace w) (disk w) (rng w) (clock w).
Proof. intros H. by apply pair_inv in H as [<- <-]. Qed.

End RunInversion.

(** The equation left for a result: an [Ok] against an [Ok] gives the value,
    against a [Raise] nothing; a result that is a variable is replaced. *)
Ltac settle_result Hr :=
  first
    [ discriminate Hr
    | apply Ok_inj in Hr; first [subst | idtac]
    | match type of Hr with
      | Raise _ = Raise _ =>
          apply (f_equal raised) in Hr; cbn [raised] in Hr;
          apply (inj Some) in Hr; first [subst | idtac]
      end
    | match type of Hr with
      | ?x = ?r => is_var r; subst r
      | ?r = ?x => is_var r; subst r
      end
    | idtac ].

Ltac world_simpl H :=
  cbn [Recipe.record Recipe.self Recipe.trace Recipe.disk Recipe.rng
       Recipe.clock Recipe._device Recipe._dtype Recipe._quantizer
       Recipe._quantization_mode Recipe._checkpointer Recipe._model
       Recipe.set_device Recipe.set_dtype Recipe.set_quantizer
       Recipe.set_quantization_mode Recipe.set_checkpointer Recipe.set_model
       Recipe.new_recipe raised] in H.

(** One hypothesis [m w = (r, w')] is taken apart along the structure of
    [m], down to the equations for the calls it made. *)
Ltac run_inv H :=
  world_simpl H;
  lazymatch type of H with
  | @mbind _ _ _ _ ?f ?m ?w = _ =>
      let a := fresh "a" in
      let w1 := fresh "w" in
      let H1 := fresh "Hstep" in
      let e := fresh "e" in
      let Hr := fresh "Hr" in
      apply bind_inv in H as [(a & w1 & H1 & H) | (e & H1 & Hr)];
      [run_inv H1; run_inv H | settle_result Hr; run_inv H1]
  | @mret _ _ _ ?a ?w = _ =>
      let Hr := fresh "Hr" in
      apply ret_inv in H as [Hr ->]; settle_result Hr
  | Recipe.raise ?e ?w = _ =>
      let Hr := fresh "Hr" in
      apply raise_inv in H as [Hr ->]; settle_result Hr
  | Recipe.invoke ?c ?x ?w = _ =>
      let Hr := fresh "Hcall" in
      apply invoke_inv in H as [Hr ->]; settle_result Hr
  | Recipe.logger_info ?msg ?w = _ =>
      let Hr := fresh "Hcall" in
      unfold Recipe.logger_info in H;
      apply invoke_inv in H as [Hr ->]; settle_result Hr
  | Recipe.invoke_rng ?c ?f ?w = _ =>
      let g := fresh "g" in
      let Hr := fresh "Hcall" in
      apply invoke_rng_inv in H as (g & Hr & ->); world_simpl Hr
  | Recipe.invoke_fs ?c ?f ?w = _ =>
      let σ := fresh "σ" in
      let Hr := fresh "Hcall" in
      apply invoke_fs_inv in H as (σ & Hr & ->); world_simpl Hr;
      lazymatch type of Hr with
      | (_, _) = (_, _) =>
          let Hσ := fresh "Hσ" in
          apply pair_inv in Hr as [Hr Hσ]; subst σ
      | _ => idtac
      end
  | Recipe.perf_counter ?w = _ =>
      let Hr := fresh "Hr" in
      apply perf_counter_inv in H as [Hr ->]; settle_result Hr
  | Recipe.getattr ?attr ?w = _ =>
      let Hr := fresh "Hr" in
      apply getattr_inv in H as [-> Hr]; world_simpl Hr;
      lazymatch type of Hr with
      | _ = match ?x with Some _ => _ | None => _ end =>
          let Hattr := fresh "Hattr" in
          destruct x eqn:Hattr; settle_result Hr
      | _ => settle_result Hr
      end
  | Recipe.setattr ?f ?w = _ =>
      let Hr := fresh "Hr" in
      apply setattr_inv in H as [Hr ->]; settle_result Hr
  | (match ?x with Some _ => _ | None => _ end) ?w = _ =>
      let Hx := fresh "Hopt" in destruct x eqn:Hx; run_inv H
  | (match ?x with Ok _ => _ | Raise _ => _ end) ?w = _ =>
      let Hx := fresh "Hres" in destruct x eqn:Hx; run_inv H
  | (if ?b then _ else _) ?w = _ =>
      let Hb := fresh "Hif" in destruct b eqn:Hb; run_inv H
  | Recipe.__init__ _ _ _ = _ => unfold Recipe.__init__ in H; run_inv H
  | Recipe.load_checkpoint _ _ _ = _ =>
      unfold Recipe.load_checkpoint in H; run_inv H
  | Recipe._setup_model _ _ _ _ = _ =>
      unfold Recipe._setup_model in H; run_inv H
  | Recipe.setup _ _ _ = _ => unfold Recipe.setup in H; run_inv H
  | Recipe.quantize _ _ _ = _ => unfold Recipe.quantize in H; run_inv H
  | Recipe.save_checkpoint _ _ _ = _ =>
      unfold Recipe.save_checkpoint in H; run_inv H
  | Recipe.main _ _ _ = _ => unfold Recipe.main in H; run_inv H
  | Recipe.py_in _ _ _ = _ => unfold Recipe.py_in in H; run_inv H
  | Recipe.getitem _ _ _ = _ => unfold Recipe.getitem in H; run_inv H
  | Recipe.getkey _ _ _ = _ => unfold Recipe.getkey in H; run_inv H
  end.

Ltac world_simpl_goal :=
  cbn [Recipe.record Recipe.self Recipe.trace Recipe.disk Recipe.rng
       Recipe.clock Recipe._device Recipe._dtype Recipe._quantizer
       Recipe._quantization_mode Recipe._checkpointer Recipe._model
       Recipe.set_device Recipe.set_dtype Recipe.set_quantizer
       Recipe.set_quantization_mode Recipe.set_checkpointer Recipe.set_model
       Recipe.new_recipe raised].

(** ** The file system operations *)

Section FsFacts.
Import PyStr Fs.
Context {Content : Type}.
Implicit Types (σ : fs Content) (p : path).

Lemma os_mkdir_files σ p r σ' :
  os_mkdir σ p = (r, σ') → files σ' = files σ.
Proof.
  unfold os_mkdir. repeat case_match; intros Hrun;
    apply pair_inv in Hrun as [_ <-]; reflexivity.
Qed.

Lemma os_mkdir_raise σ p e σ' :
  os_mkdir σ p = (Raise e, σ') → σ' = σ.
Proof.
  unfold os_mkdir. repeat case_match; intros Hrun;
    apply pair_inv in Hrun as [Hr <-]; (reflexivity || discriminate Hr).
Qed.

Lemma Path_mkdir_files σ p b r σ' :
  Path_mkdir σ p b = (r, σ') → files σ' = files σ.
Proof.
  unfold Path_mkdir. destruct (os_mkdir σ p) as [r0 σ0] eqn:Hos.
  apply os_mkdir_files in Hos.
  repeat case_match; intros Hrun; apply pair_inv in Hrun as [_ <-]; exact Hos.
Qed.

Lemma Path_mkdir_raise σ p b e σ' :
  Path_mkdir σ p b = (Raise e, σ') → σ' = σ.
Proof.
  unfold Path_mkdir. destruct (os_mkdir σ p) as [[u|e0] σ0] eqn:Hos.
  - intros Hrun. apply pair_inv in Hrun as [Hr _]. discriminate Hr.
  - apply os_mkdir_raise in Hos. subst σ0.
    repeat case_match; intros Hrun; apply pair_inv in Hrun as [Hr <-];
      (reflexivity || discriminate Hr).
Qed.

Lemma torch_save_ok σ x p u σ' :
  torch_save σ x p = (Ok u, σ') →
  files σ' = <[p := x]> (files σ) ∧ dirs σ' = dirs σ.
Proof.
  unfold torch_save. repeat case_match; intros Hrun;
    apply pair_inv in Hrun as [Hr <-]; (discriminate Hr || done).
Qed.

Lemma torch_save_raise σ x p e σ' :
  torch_save σ x p = (Raise e, σ') → σ' = σ.
Proof.
  unfold torch_save. repeat case_match; intros Hrun;
    apply pair_inv in Hrun as [Hr <-]; (reflexivity || discriminate Hr).
Qed.

Lemma torch_save_dirs σ x p r σ' :
  torch_save σ x p = (r, σ') → dirs σ' = dirs σ.
Proof.
  unfold torch_save. repeat case_match; intros Hrun;
    apply pair_inv in Hrun as [_ <-]; reflexivity.
Qed.

Lemma parent_of_no_parts p : parts p = [] → parent p = p.
Proof. destruct p as [a ps]. cbn. intros ->. reflexivity. Qed.

Lemma is_dir_no_parts σ p : parts p = [] → is_dir σ p = true.
Proof. intros Hp. apply bool_decide_eq_true. by left. Qed.

Lemma is_dir_dirs σ σ' p : dirs σ' = dirs σ → is_dir σ' p = is_dir σ p.
Proof. unfold is_dir. by intros ->. Qed.

(** A missing directory whose parent is a directory is created. *)
Lemma Path_mkdir_creates σ p :
  is_dir σ p = false → is_file σ p = false →
  is_dir σ (parent p) = true → is_file σ (parent p) = false →
  Path_mkdir σ p true = (Ok (), Fs ({[p]} ∪ dirs σ) (files σ)).
Proof.
  intros Hd Hf Hpd Hpf. unfold Path_mkdir, os_mkdir.
  rewrite Hd, Hf, Hpd, Hpf. cbn [negb orb].
  case_bool_decide as Hparts; [|reflexivity].
  by rewrite (is_dir_no_parts σ p Hparts) in Hd.
Qed.

(** An existing directory is accepted. *)
Lemma Path_mkdir_exists σ p :
  is_dir σ p = true →
  is_dir σ (parent p) = true → is_file σ (parent p) = false →
  Path_mkdir σ p true = (Ok (), σ).
Proof.
  intros Hd Hpd Hpf. unfold Path_mkdir, os_mkdir.
  rewrite Hd, Hpd, Hpf. cbn [negb orb].
  case_bool_decide; cbn [negb orb]; rewrite Hd; reflexivity.
Qed.

(** A missing parent is reported, and nothing changes. *)
Lemma Path_mkdir_no_parent σ p b :
  is_dir σ (parent p) = false → is_file σ (parent p) = false →
  Path_mkdir σ p b = (Raise FileNotFoundError, σ).
Proof.
  intros Hpd Hpf. unfold Path_mkdir, os_mkdir.
  rewrite Hpd, Hpf. cbn [negb].
  case_bool_decide as Hparts; [|reflexivity].
  rewrite (parent_of_no_parts p Hparts) in Hpd.
  by rewrite (is_dir_no_parts σ p Hparts) in Hpd.
Qed.

Lemma is_dir_created (D : gset path) (F : gmap path Content) p :
  is_dir (Fs ({[p]} ∪ D) F) p = true.
Proof. apply bool_decide_eq_true. right. cbn [dirs]. set_solver. Qed.

End FsFacts.

(** ** One run of [main], call by call *)

Section MainRun.
Import PyStr Fs Recipe Trace.
Context {Device Dtype Quantizer Checkpointer Model StateDict Rng : Type}.
Context `{!EqDecision Dtype}.
Context (env : @collaborators Device Dtype Quantizer Checkpointer Model
                 StateDict Rng).

(** What the file system facts say about the disks of a run. *)
Ltac disk_facts :=
  repeat match goal with
  | H : Path_mkdir _ _ _ = (Raise _, _) |- _ =>
      apply Path_mkdir_raise in H; subst
  | H : Path_mkdir _ _ _ = (Ok _, _) |- _ => apply Path_mkdir_files in H
  | H : torch_save _ _ _ = (Raise _, _) |- _ =>
      apply torch_save_raise in H; subst
  | H : torch_save _ _ _ = (Ok _, _) |- _ =>
      apply torch_save_ok in H as [H _]
  end.

Ltac in_list :=
  repeat first [apply list_elem_of_here | apply list_elem_of_further].

Ltac main_run_case qat cpu :=
  eexists _, qat, cpu;
  split; [rewrite <- ?app_assoc; cbn [app]; reflexivity|];
  split; [apply (bool_decide_unpack _); vm_compute; exact I|];
  split; [first [intros Hok; discriminate Hok | intros _; reflexivity]|];
  split; [cbn; repeat split; reflexivity|];
  split; [cbn; repeat first [exact I | left; split; reflexivity | right]|];
  first [left; congruence
        | right; eexists _, _; split; [in_list|];
          match goal with
          | H1 : files ?σ1 = <[_ := _]> (files ?σ0),
            H2 : files ?σ0 = files _ |- files ?σ1 = _ =>
              rewrite H1, H2; reflexivity
          end].

(** The master fact about a run of [main]: the calls it adds are, by name,
    an initial part of the pipeline (all of it when the run returns);
    an exception raised by a call is the last event and the result;
    the model is worked on only after seeding; and the files on disk are
    untouched unless [torch.save] returned, in which case exactly its
    target was written. *)
Lemma main_run cfg w r w' :
  main env cfg w = (r, w') →
  ∃ t qat cpu,
    trace w' = trace w ++ t ∧
    names t `prefix_of` pipeline qat cpu ∧
    (is_ok r = true → names t = pipeline qat cpu) ∧
    propagated_from (raised r) t ∧
    seeded_from (seed cfg) (cudnn_deterministic_mode cfg) t ∧
    (files (disk w') = files (disk w) ∨
     ∃ p sd, (TorchSave p, None) ∈ t ∧
             files (disk w') = <[p := sd]> (files (disk w))).
Proof.
  destruct w as [s t d g c]. intros H.
  run_inv H; world_simpl_goal; disk_facts;
    first [exfalso; congruence | main_run_case true true | main_run_case true false
          | main_run_case false true | main_run_case false false].
Qed.

End MainRun.

(** ** What the recipe guarantees *)

Section RecipeFacts.
Import PyStr Fs Recipe Trace.
Context {Device Dtype Quantizer Checkpointer Model StateDict Rng : Type}.
Context `{!EqDecision Dtype}.
Context (env : @collaborators Device Dtype Quantizer Checkpointer Model
                 StateDict Rng).

#[local] Abbreviation world :=
  (@world Device Dtype Quantizer Checkpointer Model StateDict Rng).
#[local] Abbreviation event := (@event Dtype).

Lemma new_events_app (w w' : world) t :
  trace w' = trace w ++ t → new_events w w' = t.
Proof. unfold new_events. intros ->. apply drop_app_length. Qed.

Lemma propagated_from_spec {A} (r : pyresult A) (t : list event) :
  propagated_from (raised r) t → propagated r t.
Proof.
  induction t as [|[c [e|]] t IH]; intros H i c' e' Hi.
  - discriminate Hi.
  - destruct H as [-> Hr]. destruct i as [|i]; [|discriminate Hi].
    cbn in Hi. apply (inj Some) in Hi. apply pair_inv in Hi as [_ He].
    apply (inj Some) in He. subst e'. split; [|reflexivity].
    destruct r; [discriminate Hr|]. cbn in Hr. by apply (inj Some) in Hr as ->.
  - destruct i as [|i]; [discriminate Hi|].
    destruct (IH H i c' e' Hi) as [Hr Hl]. split; [exact Hr|].
    cbn [length]. by rewrite Hl.
Qed.

Lemma seeded_from_spec seed dbg (t : list event) :
  seeded_from seed dbg t → seeded_before_model_work seed dbg t.
Proof.
  induction t as [|[c o] t IH]; intros H i c' o' Hi Hw.
  - discriminate Hi.
  - cbn [seeded_from] in H. destruct i as [|i].
    + cbn in Hi. apply (inj Some) in Hi. apply pair_inv in Hi as [-> _].
      rewrite Hw in H. destruct H.
    + destruct (is_model_work c); [destruct H|].
      destruct H as [[-> ->]|H].
      * exists 0%nat. split; [lia|reflexivity].
      * destruct (IH H i c' o' Hi Hw) as (j & Hj & Hlook).
        exists (S j). split; [lia|exact Hlook].
Qed.

(** Bring the goal of a method-level fact into the form with the new
    events as an explicit list. *)
Ltac show_events :=
  unfold new_events; cbn [fst snd]; world_simpl_goal;
  rewrite <- ?app_assoc; cbn [app]; rewrite ?drop_app_length.

Ltac decide_closed := apply (bool_decide_unpack _); vm_compute; exact I.

Ltac in_list :=
  repeat first [apply list_elem_of_here | apply list_elem_of_further].

(** The equations between results that two readings of one call leave. *)
Ltac same_result :=
  repeat match goal with
  | Hx : Ok _ = Raise _ |- _ => discriminate Hx
  | Hx : Raise _ = Ok _ |- _ => discriminate Hx
  | Hx : Some _ = None |- _ => discriminate Hx
  | Hx : None = Some _ |- _ => discriminate Hx
  | Hx : true = false |- _ => discriminate Hx
  | Hx : false = true |- _ => discriminate Hx
  | Hx : Ok _ = Ok _ |- _ => apply Ok_inj in Hx; subst
  | Hx : Some _ = Some _ |- _ => apply (inj Some) in Hx; subst
  | Hx : (_, _) = (_, _) |- _ =>
      let Ha := fresh "Hfst" in
      let Hb := fresh "Hsnd" in
      apply pair_inv in Hx as [Ha Hb]; subst
  end.

(** Two readings of one call agree; a test whose outcome is known is
    decided. *)
Ltac merge_calls :=
  repeat first
    [ progress same_result
    | match goal with
      | H1 : ?x = _, H2 : ?x = _ |- _ => rewrite H1 in H2
      | Hb : ?b = true, Hx : context [if ?b then _ else _] |- _ =>
          rewrite Hb in Hx
      | Hb : ?b = false, Hx : context [if ?b then _ else _] |- _ =>
          rewrite Hb in Hx
      end ].

(** A call whose outcome is given is replaced by that outcome. *)
Ltac given Hx := try (rewrite Hx in *; same_result).

(** When every call that [main] makes returns, [main] returns, having
    made the calls of the whole pipeline and written the state dict. *)
Lemma main_completes cfg (w : world) dev dt q mode g0 c ckpt sd0 m0 g1 m1 g2
    m2 m3 g3 sd f file_name σ1 p σ2 :
  log_config env cfg = Ok () →
  get_device env (device cfg) = Ok dev →
  get_dtype env (dtype cfg) dev = Ok dt →
  instantiate_quantizer env (quantizer cfg) = Ok q →
  get_quantizer_mode env q = Ok (Some mode) →
  set_seed env (seed cfg) (cudnn_deterministic_mode cfg) (rng w)
    = (Ok (), g0) →
  instantiate_checkpointer env (checkpointer cfg) = Ok c →
  checkpointer_load_checkpoint env c = Ok ckpt →
  ckpt !! MODEL_KEY env = Some sd0 →
  instantiate_model env (model cfg) dt dev g0 = (Ok m0, g1) →
  (if contains "qat" mode
   then quantizer_prepare env q m0 g1 = (Ok m1, g2)
   else (m1, g2) = (m0, g1)) →
  load_state_dict env m1 sd0 = Ok m2 →
  validate_expected_param_dtype (named_parameters env m2) dt = Ok () →
  (if contains "qat" mode
   then quantizer_convert env q m2 g2
   else quantizer_quantize env q m2 g2) = (Ok m3, g3) →
  (device_type env dev ≠ "cpu" →
     get_torch_device_namespace env = Ok () ∧
     is_ok (max_memory_allocated env) = true) →
  state_dict env m3 = Ok sd →
  checkpoint_files (checkpointer cfg) !! 0%nat = Some f →
  split "." f !! 0%nat = Some file_name →
  Path_mkdir (disk w) (parse (output_dir (checkpointer cfg))) true
    = (Ok (), σ1) →
  with_suffix
    (joinpath (parse (output_dir (checkpointer cfg)))
       (rstrip "-qat" (file_name +:+ "-" +:+ str_of_optional (Some mode))))
    ".ckpt" = Ok p →
  torch_save σ1 sd p = (Ok (), σ2) →
  let run := main env cfg w in
  run.1 = Ok () ∧
  names (new_events w run.2)
    = pipeline (contains "qat" mode)
        (bool_decide (device_type env dev = "cpu")) ∧
  disk run.2 = σ2 ∧
  _model (self run.2) = Some m3.
Proof.
  destruct w as [s t d g ck]. cbn [rng disk].
  intros Hlog Hdev Hdt Hq Hmode Hseed Hc Hload Hkey Hm0 Hm1 Hm2 Hval Hm3
    Hmem Hsd Hf Hname Hmk Hp Hsave. cbv zeta.
  destruct (main env cfg _) as [r w'] eqn:H.
  run_inv H; merge_calls.
  all: try match goal with
       | Hb : bool_decide (_ ≠ _) = true |- _ =>
           apply bool_decide_eq_true in Hb;
           destruct (Hmem Hb) as [Hns Hmax]; clear Hmem;
           rewrite (bool_decide_eq_false_2 _ Hb)
       | Hb : bool_decide (_ ≠ _) = false |- _ =>
           apply bool_decide_eq_false in Hb; apply dec_stable in Hb;
           rewrite (bool_decide_eq_true_2 _ Hb)
       end.
  all: merge_calls.
  all: try match goal with
       | Hx : max_memory_allocated env = Raise _ |- _ =>
           rewrite Hx in Hmax; discriminate Hmax
       end.
  all: try match goal with
       | Hg : getsize _ _ _ = _, Hs : torch_save _ _ _ = (Ok _, _) |- _ =>
           unfold getsize in Hg;
           pose proof (torch_save_ok _ _ _ _ _ Hs) as [Hfiles _];
           rewrite Hfiles, lookup_insert_eq in Hg; same_result
       end.
  all: show_events;
    repeat match goal with
    | Hb : contains "qat" _ = _ |- _ => rewrite Hb
    end; split_and!; reflexivity.
Qed.

(** Once the device, the dtype, the quantizer and its mode are there, the
    constructor seeds the generator: its last call is [set_seed] with the
    configured seed and mode on the generator as it is, and what that call
    gives is what the constructor gives. *)
Lemma init_calls_set_seed cfg (w : world) dev dt q mode :
  get_device env (device cfg) = Ok dev →
  get_dtype env (dtype cfg) dev = Ok dt →
  instantiate_quantizer env (quantizer cfg) = Ok q →
  get_quantizer_mode env q = Ok mode →
  let run := __init__ env cfg w in
  let seeded :=
    set_seed env (seed cfg) (cudnn_deterministic_mode cfg) (rng w) in
  run.1 = seeded.1 ∧ rng run.2 = seeded.2 ∧
  last (new_events w run.2)
    = Some (SetSeed (seed cfg) (cudnn_deterministic_mode cfg),
            raised seeded.1) ∧
  occurrences "training.set_seed" (names (new_events w run.2)) = 1%nat.
Proof.
  destruct w as [s t d g ck]. cbn [rng].
  intros Hdev Hdt Hq Hmode. cbv zeta.
  destruct (__init__ env cfg _) as [r w'] eqn:H.
  run_inv H; given Hdev; given Hdt; given Hq; given Hmode.
  all: show_events;
    repeat match goal with
    | Hc : ?x = (_, _) |- context [?x] => rewrite Hc
    end; cbn [fst snd raised]; split_and!; reflexivity.
Qed.

(** A run of [main] that returns has seeded the generator as configured,
    and has written one file through [torch.save]. *)
Lemma main_returns cfg (w w' : world) u :
  main env cfg w = (Ok u, w') →
  ∃ p sd,
    (SetSeed (seed cfg) (cudnn_deterministic_mode cfg), None)
      ∈ new_events w w' ∧
    (TorchSave p, None) ∈ new_events w w' ∧
    files (disk w') = <[p := sd]> (files (disk w)).
Proof.
  destruct w as [s t d g ck]. intros H.
  run_inv H; try (exfalso; congruence);
    match goal with
    | Hm : Path_mkdir _ _ _ = _, Hs : torch_save _ _ _ = _ |- _ =>
        apply Path_mkdir_files in Hm;
        apply torch_save_ok in Hs as [Hs _]; rewrite Hm in Hs
    end;
    (do 2 eexists; show_events; split_and!;
     [in_list|in_list|eassumption]).
Qed.

(** What [setup] gives once the checkpoint is loaded into the model: the
    outcome of validating the named parameters of that model against the
    dtype of the recipe. *)
Lemma setup_validates_loaded_model cfg (w : world) dt dev q mode c ckpt sd0
    m0 g1 m1 g2 m2 :
  _dtype (self w) = Some dt →
  _device (self w) = Some dev →
  _quantizer (self w) = Some q →
  _quantization_mode (self w) = Some (Some mode) →
  instantiate_checkpointer env (checkpointer cfg) = Ok c →
  checkpointer_load_checkpoint env c = Ok ckpt →
  ckpt !! MODEL_KEY env = Some sd0 →
  instantiate_model env (model cfg) dt dev (rng w) = (Ok m0, g1) →
  (if contains "qat" mode
   then quantizer_prepare env q m0 g1 = (Ok m1, g2)
   else (m1, g2) = (m0, g1)) →
  load_state_dict env m1 sd0 = Ok m2 →
  let run := setup env cfg w in
  run.1 = validate_expected_param_dtype (named_parameters env m2) dt ∧
  (ValidateExpectedParamDtype (named_parameters env m2) dt, raised run.1)
    ∈ new_events w run.2 ∧
  _model (self run.2) = if is_ok run.1 then Some m2 else _model (self w).
Proof.
  destruct w as [[dv dty qz qm ck md] t d g clk].
  cbn [self _dtype _device _quantizer _quantization_mode rng].
  intros -> -> -> -> Hc Hload Hkey Hm0 Hm1 Hm2. cbv zeta.
  destruct (setup env cfg _) as [r w'] eqn:H.
  destruct (contains "qat" mode) eqn:Hqat.
  - run_inv H; given Hc; given Hload; given Hkey; given Hm0; given Hqat;
      given Hm1; given Hm2; show_events;
      repeat match goal with
      | Hv : validate_expected_param_dtype _ _ = _ |- _ => rewrite Hv
      end; cbn [raised is_ok];
      repeat match goal with x : unit |- _ => destruct x end;
      split_and!; first [reflexivity | in_list].
  - apply pair_inv in Hm1 as [-> ->].
    run_inv H; given Hc; given Hload; given Hkey; given Hm0; given Hqat;
      given Hm2; show_events;
      repeat match goal with
      | Hv : validate_expected_param_dtype _ _ = _ |- _ => rewrite Hv
      end; cbn [raised is_ok];
      repeat match goal with x : unit |- _ => destruct x end;
      split_and!; first [reflexivity | in_list].
Qed.

(** C3: with the quantizer and the mode in place, [quantize] applies
    [convert] to the model when the mode contains ["qat"] and [quantize]
    otherwise, never the other one, and stores what it returns; and
    [_setup_model] calls [prepare] between building the model and loading
    the state dict exactly when the mode contains ["qat"], the state dict
    being loaded into the prepared model. *)
Theorem quantizer_methods_follow_qat cfg mcfg sd (w : world) q s dt dev :
  _quantizer (self w) = Some q →
  _quantization_mode (self w) = Some (Some s) →
  _dtype (self w) = Some dt →
  _device (self w) = Some dev →
  let qat := contains "qat" s in
  (∀ m, _model (self w) = Some m →
     let run := quantize env cfg w in
     let t := new_events w run.2 in
     let applied := if qat then quantizer_convert env q m (rng w)
                    else quantizer_quantize env q m (rng w) in
     t !! 1%nat = Some (if qat then Convert else Quantize,
                        raised applied.1) ∧
     ((if qat then "quantizer.quantize" else "quantizer.convert")
        ∉ names t) ∧
     occurrences (if qat then "quantizer.convert" else "quantizer.quantize")
       (names t) = 1%nat ∧
     (∀ m', applied.1 = Ok m' → _model (self run.2) = Some m')) ∧
  (let run := _setup_model env mcfg sd w in
   let t := names (new_events w run.2) in
   t `prefix_of` setup_model_calls qat ∧
   (is_ok run.1 = true → t = setup_model_calls qat) ∧
   (∀ m, run.1 = Ok m →
      ∃ m0 g0, instantiate_model env mcfg dt dev (rng w) = (Ok m0, g0) ∧
        if qat
        then ∃ m1 g1, quantizer_prepare env q m0 g0 = (Ok m1, g1) ∧
                      load_state_dict env m1 sd = Ok m
        else load_state_dict env m0 sd = Ok m)).
Proof.
  destruct w as [[dv dty qz qm ck md] t d g c]. cbn [self _quantizer
    _quantization_mode _dtype _device _model rng].
  intros -> -> -> ->. split.
  - intros m ->.
    destruct (quantize env cfg _) as [r w'] eqn:H.
    run_inv H; show_events;
      repeat match goal with
      | Hc : ?x = (_, _) |- context [?x] => rewrite Hc
      end; cbn [fst snd raised];
      (split; [reflexivity|]); (split; [decide_closed|]);
      (split; [vm_compute; reflexivity|]);
      intros m' Hm'; first [discriminate Hm' | by apply Ok_inj in Hm' as ->].
  - destruct (_setup_model env mcfg sd _) as [r w'] eqn:H.
    run_inv H; show_events;
      (split; [decide_closed|]);
      (split; [first [intros Hok; discriminate Hok | intros _; reflexivity]|]);
      intros m Hm; first [discriminate Hm | apply Ok_inj in Hm as ->];
      eauto 10.
Qed.

(** C4: the calls [main] makes are, in this order, those of constructing
    the recipe, of [setup], of [quantize] and of [save_checkpoint]; a run
    that stops early made an initial part of them, a run that returns
    made all of them, each step once; and [main] does go through all of
    them: when each call it makes returns, [main] returns, with the calls
    of the whole pipeline made and the disk as [torch.save] left it. *)
Theorem main_runs_pipeline_in_order cfg (w : world) :
  (∃ qat cpu,
     let run := main env cfg w in
     let t := names (new_events w run.2) in
     t `prefix_of` pipeline qat cpu ∧
     (is_ok run.1 = true →
        t = ["config.log_config"] ++ construct_calls ++ setup_calls qat ++
            quantize_calls qat cpu ++ save_calls ∧
        occurrences "utils.get_device" t = 1%nat ∧
        occurrences "checkpointer.load_checkpoint" t = 1%nat ∧
        occurrences "config.instantiate(model_cfg)" t = 1%nat ∧
        (occurrences "quantizer.convert" t +
         occurrences "quantizer.quantize" t = 1)%nat ∧
        occurrences "torch.save" t = 1%nat)) ∧
  (∀ dev dt q mode g0 c ckpt sd0 m0 g1 m1 g2 m2 m3 g3 sd f file_name σ1 p
     σ2,
     log_config env cfg = Ok () →
     get_device env (device cfg) = Ok dev →
     get_dtype env (dtype cfg) dev = Ok dt →
     instantiate_quantizer env (quantizer cfg) = Ok q →
     get_quantizer_mode env q = Ok (Some mode) →
     set_seed env (seed cfg) (cudnn_deterministic_mode cfg) (rng w)
       = (Ok (), g0) →
     instantiate_checkpointer env (checkpointer cfg) = Ok c →
     checkpointer_load_checkpoint env c = Ok ckpt →
     ckpt !! MODEL_KEY env = Some sd0 →
     instantiate_model env (model cfg) dt dev g0 = (Ok m0, g1) →
     (if contains "qat" mode
      then quantizer_prepare env q m0 g1 = (Ok m1, g2)
      else (m1, g2) = (m0, g1)) →
     load_state_dict env m1 sd0 = Ok m2 →
     validate_expected_param_dtype (named_parameters env m2) dt = Ok () →
     (if contains "qat" mode
      then quantizer_convert env q m2 g2
      else quantizer_quantize env q m2 g2) = (Ok m3, g3) →
     (device_type env dev ≠ "cpu" →
        get_torch_device_namespace env = Ok () ∧
        is_ok (max_memory_allocated env) = true) →
     state_dict env m3 = Ok sd →
     checkpoint_files (checkpointer cfg) !! 0%nat = Some f →
     split "." f !! 0%nat = Some file_name →
     Path_mkdir (disk w) (parse (output_dir (checkpointer cfg))) true
       = (Ok (), σ1) →
     with_suffix
       (joinpath (parse (output_dir (checkpointer cfg)))
          (rstrip "-qat"
             (file_name +:+ "-" +:+ str_of_optional (Some mode))))
       ".ckpt" = Ok p →
     torch_save σ1 sd p = (Ok (), σ2) →
     let run := main env cfg w in
     run.1 = Ok () ∧
     names (new_events w run.2)
       = pipeline (contains "qat" mode)
           (bool_decide (device_type env dev = "cpu")) ∧
     disk run.2 = σ2 ∧
     _model (self run.2) = Some m3).
Proof.
  split.
  - destruct (main env cfg w) as [r w'] eqn:H.
    apply main_run in H as (t & qat & cpu & Ht & Hpre & Hok & _).
    exists qat, cpu. cbn [fst snd]. rewrite (new_events_app _ _ _ Ht).
    split; [exact Hpre|]. intros Hr. rewrite (Hok Hr).
    split; [reflexivity|]. destruct qat, cpu; vm_compute; auto.
  - intros. by eapply main_completes.
Qed.

(** C6: in a run of [main], an exception raised by a call is the result of
    [main] and nothing is called after it; and unless [torch.save] has
    returned, the files on disk are those from before the run. *)
Theorem collaborator_failures_propagate cfg (w : world) :
  let run := main env cfg w in
  let t := new_events w run.2 in
  (∀ i c e, t !! i = Some (c, Some e) →
            run.1 = Raise e ∧ S i = length t) ∧
  ((∀ p, (TorchSave p, None) ∉ t) →
     files (disk run.2) = files (disk w)).
Proof.
  destruct (main env cfg w) as [r w'] eqn:H.
  apply main_run in H as (t & qat & cpu & Ht & _ & _ & Hprop & _ & Hfiles).
  cbn [fst snd]. rewrite (new_events_app _ _ _ Ht). split.
  - by apply propagated_from_spec.
  - intros Hno. destruct Hfiles as [Hf|(p & sd & Hin & _)]; [exact Hf|].
    destruct (Hno p Hin).
Qed.

Lemma validate_expected_param_dtype_ok (ps : list (string * Dtype)) dt u :
  validate_expected_param_dtype ps dt = Ok u →
  ∀ name d, (name, d) ∈ ps → d = dt.
Proof.
  induction ps as [|[n0 d0] ps IH]; intros H name d Hin.
  - by apply elem_of_nil in Hin.
  - cbn [validate_expected_param_dtype] in H.
    destruct (decide (d0 = dt)) as [->|]; [|discriminate H].
    apply elem_of_cons in Hin as [Heq|Hin]; [|by eapply IH].
    by apply pair_inv in Heq as [_ ->].
Qed.

Lemma validate_expected_param_dtype_raise (ps : list (string * Dtype)) dt :
  (∃ name d, (name, d) ∈ ps ∧ d ≠ dt) →
  validate_expected_param_dtype ps dt = Raise ValueError.
Proof.
  induction ps as [|[n0 d0] ps IH]; intros (name & d & Hin & Hne).
  - by apply elem_of_nil in Hin.
  - cbn [validate_expected_param_dtype].
    destruct (decide (d0 = dt)) as [->|]; [|reflexivity].
    apply IH. exists name, d. split; [|exact Hne].
    apply elem_of_cons in Hin as [Heq|Hin]; [|exact Hin].
    apply pair_inv in Heq as [_ ->]. by destruct Hne.
Qed.

(** Membership in an explicit list of events, case by case. *)
Ltac inv_elem H :=
  repeat (apply elem_of_cons in H as [H|H]; [try discriminate H|]);
  try (apply elem_of_nil in H; destruct H).

(** C8: when [setup] returns, the model it assigned has every named
    parameter in the configured dtype; whenever the validation is handed
    a parameter of another dtype, [setup] raises; when [setup] raises
    the recipe still has no model; and the parameters that are validated
    are those of the model after the state dict of the checkpoint was
    loaded into it: if one of them has another dtype than the
    recipe's, [setup] raises [ValueError] and assigns no model. *)
Theorem setup_checks_parameter_dtypes cfg (w : world) :
  _model (self w) = None →
  let run := setup env cfg w in
  (is_ok run.1 = true →
     ∃ m dt, _model (self run.2) = Some m ∧
             _dtype (self run.2) = Some dt ∧
             ∀ name d, (name, d) ∈ named_parameters env m → d = dt) ∧
  (∀ ps dt o,
     (ValidateExpectedParamDtype ps dt, o) ∈ new_events w run.2 →
     (∃ name d, (name, d) ∈ ps ∧ d ≠ dt) →
     run.1 = Raise ValueError) ∧
  (is_ok run.1 = false → _model (self run.2) = None) ∧
  (∀ dt dev q mode c ckpt sd0 m0 g1 m1 g2 m2,
     _dtype (self w) = Some dt →
     _device (self w) = Some dev →
     _quantizer (self w) = Some q →
     _quantization_mode (self w) = Some (Some mode) →
     instantiate_checkpointer env (checkpointer cfg) = Ok c →
     checkpointer_load_checkpoint env c = Ok ckpt →
     ckpt !! MODEL_KEY env = Some sd0 →
     instantiate_model env (model cfg) dt dev (rng w) = (Ok m0, g1) →
     (if contains "qat" mode
      then quantizer_prepare env q m0 g1 = (Ok m1, g2)
      else (m1, g2) = (m0, g1)) →
     load_state_dict env m1 sd0 = Ok m2 →
     (ValidateExpectedParamDtype (named_parameters env m2) dt, raised run.1)
       ∈ new_events w run.2 ∧
     ((∃ name d, (name, d) ∈ named_parameters env m2 ∧ d ≠ dt) →
        run.1 = Raise ValueError ∧ _model (self run.2) = None) ∧
     ((∀ name d, (name, d) ∈ named_parameters env m2 → d = dt) →
        run.1 = Ok () ∧ _model (self run.2) = Some m2)).
Proof.
  intros Hnone. cbv zeta.
  assert (∀ (ps : list (string * Dtype)) dt,
            (∀ name d, (name, d) ∈ ps → d = dt) →
            validate_expected_param_dtype ps dt = Ok ()) as Hvalid.
  { intros ps dt. induction ps as [|[n0 d0] ps IH]; intros Hall;
      [reflexivity|]. cbn [validate_expected_param_dtype].
    rewrite decide_True by (eapply Hall; apply list_elem_of_here).
    apply IH. intros name d Hin. eapply Hall, list_elem_of_further, Hin. }
  split_and!.
  - revert Hnone. destruct w as [[dv dty qz qm ck md] t d g c].
    cbn [self _model]. intros ->.
    destruct (setup env cfg _) as [r w'] eqn:H.
    run_inv H; show_events; try (intros Hok; discriminate Hok).
    all: intros _; do 2 eexists; split; [reflexivity|];
      split; [reflexivity|];
      eapply validate_expected_param_dtype_ok; eassumption.
  - revert Hnone. destruct w as [[dv dty qz qm ck md] t d g c].
    cbn [self _model]. intros ->.
    destruct (setup env cfg _) as [r w'] eqn:H.
    run_inv H; show_events;
      intros ps dt' o Hin Hbad; inv_elem Hin;
      apply pair_inv in Hin as [Hc _];
      injection Hc as -> ->;
      apply validate_expected_param_dtype_raise in Hbad; congruence.
  - revert Hnone. destruct w as [[dv dty qz qm ck md] t d g c].
    cbn [self _model]. intros ->.
    destruct (setup env cfg _) as [r w'] eqn:H.
    run_inv H; show_events; try (intros Hok; discriminate Hok);
      intros _; reflexivity.
  - intros dt dev q mode c ckpt sd0 m0 g1 m1 g2 m2 Hdt Hdev Hq Hmode Hc
      Hload Hkey Hm0 Hm1 Hm2.
    destruct (setup_validates_loaded_model cfg w dt dev q mode c ckpt
                sd0 m0 g1 m1 g2 m2 Hdt Hdev Hq Hmode Hc Hload Hkey Hm0
                Hm1 Hm2) as (Hr & Hin & Hmodel).
    split; [exact Hin|]. split.
    + intros Hbad. apply validate_expected_param_dtype_raise in Hbad.
      rewrite Hmodel, Hr, Hbad. cbn [is_ok]. by rewrite Hnone.
    + intros Hall. rewrite Hmodel, Hr, (Hvalid _ _ Hall). by cbn [is_ok].
Qed.

(** [split] always gives a first piece. *)
Lemma split_first_piece sep s : split sep s !! 0%nat ≠ None.
Proof.
  destruct s as [|ch s]; cbn [split]; [discriminate|].
  destruct (Ascii.eqb ch sep); [discriminate|].
  destruct (split sep s); discriminate.
Qed.

Ltac absurd_run :=
  first [ congruence
        | exfalso; eapply split_first_piece; eassumption ].

(** Replace the outcome of [Path.mkdir] by what the file system facts
    say it is. *)
Ltac mkdir_outcome Hmk :=
  match goal with
  | Hc : Path_mkdir _ _ _ = (_, ?σ) |- _ =>
      is_var σ;
      let Hr := fresh "Hr" in
      rewrite Hmk in Hc; apply pair_inv in Hc as [Hr <-];
      settle_result Hr
  end.

Ltac disk_dirs :=
  repeat match goal with
  | H : torch_save _ _ _ = (_, _) |- _ => apply torch_save_dirs in H
  end.

(** C10: with a model to save and a first checkpoint file name,
    [save_checkpoint] creates the output directory when it is missing
    and its parent is there, accepts one that exists, and when the parent
    is missing raises [FileNotFoundError] without touching the disk and
    without calling [torch.save]. *)
Theorem save_checkpoint_ensures_output_dir cfg (w : world) m sd f :
  _model (self w) = Some m →
  state_dict env m = Ok sd →
  checkpoint_files (checkpointer cfg) !! 0%nat = Some f →
  let out := parse (output_dir (checkpointer cfg)) in
  let run := save_checkpoint env cfg w in
  let t := new_events w run.2 in
  (is_dir (disk w) out = false → is_file (disk w) out = false →
   is_dir (disk w) (parent out) = true →
   is_file (disk w) (parent out) = false →
     (Mkdir out, None) ∈ t ∧ is_dir (disk run.2) out = true) ∧
  (is_dir (disk w) out = true →
   is_dir (disk w) (parent out) = true →
   is_file (disk w) (parent out) = false →
     (Mkdir out, None) ∈ t ∧ dirs (disk run.2) = dirs (disk w)) ∧
  (is_dir (disk w) (parent out) = false →
   is_file (disk w) (parent out) = false →
     run.1 = Raise FileNotFoundError ∧ disk run.2 = disk w ∧
     t = [(GetStateDict, None); (Mkdir out, Some FileNotFoundError)]).
Proof.
  destruct w as [[dv dty qz qm ck md] t d g c]. cbn [self _model disk].
  intros -> Hsd Hf. destruct (save_checkpoint env cfg _) as [r w'] eqn:H.
  cbv zeta. split; [|split].
  - intros Hd Hfile Hpd Hpf.
    pose proof (Path_mkdir_creates _ _ Hd Hfile Hpd Hpf) as Hmk.
    run_inv H; try absurd_run; mkdir_outcome Hmk; disk_dirs;
      show_events; (split; [in_list|]);
      rewrite ?(is_dir_dirs _ _ _ ltac:(eassumption));
      apply is_dir_created.
  - intros Hd Hpd Hpf.
    pose proof (Path_mkdir_exists _ _ Hd Hpd Hpf) as Hmk.
    run_inv H; try absurd_run; mkdir_outcome Hmk; disk_dirs;
      show_events; (split; [in_list|]); congruence.
  - intros Hpd Hpf.
    pose proof (Path_mkdir_no_parent _ _ true Hpd Hpf) as Hmk.
    run_inv H; try absurd_run; mkdir_outcome Hmk;
      show_events; cbn [disk]; rewrite ?Hsd; cbn [raised]; done.
Qed.

End RecipeFacts.

(** ** Two runs of the recipe *)

Section TwoRunsFacts.
Import PyStr Fs Recipe Trace TwoRuns.
Context {Device Dtype Quantizer Checkpointer Model StateDict Rng : Type}.
Context `{!EqDecision Dtype}.
Context (env : @collaborators Device Dtype Quantizer Checkpointer Model
                 StateDict Rng).

#[local] Abbreviation world :=
  (@world Device Dtype Quantizer Checkpointer Model StateDict Rng).
#[local] Abbreviation M :=
  (@M Device Dtype Quantizer Checkpointer Model StateDict Rng).

Lemma sim_disk l (w1 w2 : world) : sim l w1 w2 → disk w1 = disk w2.
Proof. by intros [H _]. Qed.

Lemma rel_bind {A B} l l' l'' (m1 m2 : M A) (f1 f2 : A → M B) :
  rel l l' m1 m2 → (∀ a, rel l' l'' (f1 a) (f2 a)) →
  rel l l'' (m1 ≫= f1) (m2 ≫= f2).
Proof.
  intros Hm Hf w1 w2 Hsim. specialize (Hm w1 w2 Hsim).
  unfold mbind, M_bind.
  destruct (m1 w1) as [[a1|e1] w1'], (m2 w2) as [[a2|e2] w2'];
    cbn [fst snd is_ok] in *; destruct Hm as [Hr Hw];
    try discriminate Hr.
  - apply Ok_inj in Hr as <-. exact (Hf a1 w1' w2' Hw).
  - split; [|exact Hw]. apply (f_equal raised) in Hr. cbn [raised] in Hr.
    by apply (inj Some) in Hr as ->.
Qed.

Lemma rel_ret {A} l (a : A) : rel l l (mret (M := M) a) (mret a).
Proof. intros w1 w2 Hsim. by split. Qed.

Lemma rel_raise {A} l l' e : rel l l' (raise e : M A) (raise e).
Proof. intros w1 w2 Hsim. split; [reflexivity|]. by eapply sim_disk. Qed.

(** Two calls with the same outcome, whatever is written to the trace. *)
Lemma rel_invoke {A} l c1 c2 (x : pyresult A) :
  rel l l (invoke c1 x : M A) (invoke c2 x).
Proof.
  intros w1 w2 Hsim. split; [reflexivity|].
  cbn [invoke fst snd]. destruct (is_ok x); [exact Hsim|].
  by eapply sim_disk.
Qed.

Lemma rel_invoke_rng {A} o c (f : Rng → pyresult A * Rng) :
  rel (Level o true) (Level o true) (invoke_rng c f : M A) (invoke_rng c f).
Proof.
  intros w1 w2 (Hd & Hs & Hg). unfold invoke_rng. rewrite (Hg eq_refl).
  destruct (f (rng w2)) as [r g']. cbn [fst snd].
  split; [reflexivity|]. destruct (is_ok r); [|exact Hd].
  split; [exact Hd|]. split; [exact Hs|reflexivity].
Qed.

(** A call that sets the generator whatever its state was. *)
Lemma rel_invoke_reseed {A} o s c (f : Rng → pyresult A * Rng) :
  (∀ g1 g2, f g1 = f g2) →
  rel (Level o s) (Level o true) (invoke_rng c f : M A) (invoke_rng c f).
Proof.
  intros Hf w1 w2 (Hd & Hs & _). unfold invoke_rng.
  rewrite (Hf (rng w1) (rng w2)).
  destruct (f (rng w2)) as [r g']. cbn [fst snd].
  split; [reflexivity|]. destruct (is_ok r); [|exact Hd].
  split; [exact Hd|]. split; [exact Hs|reflexivity].
Qed.

Lemma rel_invoke_fs {A} l c1 c2
    (f1 f2 : fs StateDict → pyresult A * fs StateDict) :
  (∀ σ, f1 σ = f2 σ) → rel l l (invoke_fs c1 f1 : M A) (invoke_fs c2 f2).
Proof.
  intros Hf w1 w2 (Hd & Hs & Hg). unfold invoke_fs. rewrite Hd, Hf.
  destruct (f2 (disk w2)) as [r σ]. cbn [fst snd].
  split; [reflexivity|]. destruct (is_ok r); [|reflexivity].
  split; [reflexivity|]. by split.
Qed.

Lemma rel_getattr {A} s (attr : recipe → option A) :
  rel (Level true s) (Level true s) (getattr attr : M A) (getattr attr).
Proof.
  intros w1 w2 Hsim. unfold getattr.
  rewrite (proj1 (proj2 Hsim) eq_refl).
  destruct (attr (self w2)); cbn [fst snd is_ok].
  - by split.
  - split; [reflexivity|]. by eapply sim_disk.
Qed.

Lemma rel_setattr s f :
  rel (Level true s) (Level true s) (setattr f : M unit) (setattr f).
Proof.
  intros w1 w2 (Hd & Hs & Hg). split; [reflexivity|].
  cbn [setattr fst snd is_ok]. split; [exact Hd|].
  split; [|exact Hg]. intros _. cbn [self]. by rewrite (Hs eq_refl).
Qed.

(** Assigning an object that does not depend on the old one. *)
Lemma rel_setattr_new o s r :
  rel (Level o s) (Level true s)
    (setattr (λ _, r) : M unit) (setattr (λ _, r)).
Proof.
  intros w1 w2 (Hd & _ & Hg). split; [reflexivity|].
  cbn [setattr fst snd is_ok]. split; [exact Hd|]. by split.
Qed.

(** The clock may read differently in the two runs, as long as what
    follows does not care. *)
Lemma rel_perf_counter_bind {B} l l' (f1 f2 : Z → M B) :
  (∀ t1 t2, rel l l' (f1 t1) (f2 t2)) →
  rel l l' (perf_counter ≫= f1) (perf_counter ≫= f2).
Proof.
  intros Hf w1 w2 Hsim. unfold mbind, M_bind, perf_counter.
  destruct (clock w1) as [|t1 c1], (clock w2) as [|t2 c2];
    apply Hf; exact Hsim.
Qed.

Ltac rel_step :=
  lazymatch goal with
  | |- rel _ _ (mbind _ perf_counter) (mbind _ perf_counter) =>
      apply rel_perf_counter_bind; intros ? ?
  | |- rel _ _ (mbind _ _) (mbind _ _) =>
      eapply rel_bind; [|intros ?]
  | |- rel _ _ (mret _) (mret _) => apply rel_ret
  | |- rel _ _ (raise _) (raise _) => apply rel_raise
  | |- rel _ _ (invoke _ _) (invoke _ _) => apply rel_invoke
  | |- rel _ _ (logger_info _) (logger_info _) => apply rel_invoke
  | |- rel _ _ (invoke_rng _ _) (invoke_rng _ _) =>
      first [apply rel_invoke_rng | apply rel_invoke_reseed; solve [auto]]
  | |- rel _ _ (invoke_fs _ _) (invoke_fs _ _) =>
      apply rel_invoke_fs; reflexivity
  | |- rel _ _ (getattr _) (getattr _) => apply rel_getattr
  | |- rel (Level true _) _ (setattr _) (setattr _) => apply rel_setattr
  | |- rel _ _ (setattr _) (setattr _) => apply rel_setattr_new
  | |- rel ?l ?l' (match ?x with Some _ => _ | None => _ end) _ =>
      try (is_evar l'; unify l' l); destruct x
  | |- rel ?l ?l' (match ?x with Ok _ => _ | Raise _ => _ end) _ =>
      try (is_evar l'; unify l' l); destruct x
  | |- rel ?l ?l' (if ?b then _ else _) _ =>
      try (is_evar l'; unify l' l); destruct b
  | |- rel _ _ (py_in _ _) _ => unfold py_in
  | |- rel _ _ (getitem _ _) _ => unfold getitem
  | |- rel _ _ (getkey _ _) _ => unfold getkey
  end.

Lemma rel_init_same_rng cfg :
  rel (Level true true) (Level true true)
    (__init__ env cfg) (__init__ env cfg).
Proof. unfold __init__. repeat rel_step. Qed.

Lemma rel_init_reseeds cfg s :
  reseeds env cfg →
  rel (Level true s) (Level true true) (__init__ env cfg) (__init__ env cfg).
Proof.
  intros (s0 & Hseed & Hreset). unfold __init__. rewrite Hseed.
  repeat rel_step.
Qed.

Lemma rel_setup cfg :
  rel (Level true true) (Level true true) (setup env cfg) (setup env cfg).
Proof.
  unfold setup, load_checkpoint, _setup_model. repeat rel_step.
Qed.

Lemma rel_quantize cfg :
  rel (Level true true) (Level true true)
    (quantize env cfg) (quantize env cfg).
Proof. unfold quantize. repeat rel_step. Qed.

Lemma rel_save_checkpoint cfg :
  rel (Level true true) (Level true true)
    (save_checkpoint env cfg) (save_checkpoint env cfg).
Proof. unfold save_checkpoint. repeat rel_step. Qed.

Lemma rel_main cfg s :
  s = true ∨ reseeds env cfg →
  rel (Level false s) (Level true true) (main env cfg) (main env cfg).
Proof.
  intros Hs. unfold main.
  eapply rel_bind; [apply rel_invoke|intros _].
  eapply rel_bind; [apply rel_setattr_new|intros _].
  apply (rel_bind _ (Level true true)); [|intros _].
  { destruct Hs as [->|Hs];
      [apply rel_init_same_rng|by apply rel_init_reseeds]. }
  eapply rel_bind; [apply rel_setup|intros _].
  eapply rel_bind; [apply rel_quantize|intros _].
  apply rel_save_checkpoint.
Qed.

(** C7: two runs of [main] from the same disk, with the generator in the
    same state, or in any state when the configuration gives a seed and
    seeding with it sets the generator whatever its state was, end with
    the same result and the same disk, whatever the clock reads, whatever
    was called before and whatever recipe object was there; in every
    run the model is worked on only after [set_seed] was called with the
    configured seed and returned; when the runs return, both have called
    [set_seed] with the configured seed, and the file that [torch.save]
    wrote holds the same state dict on both disks; and the call of
    [set_seed] is the constructor's: once the device, the dtype, the
    quantizer and its mode are there, the constructor ends with exactly
    one call of [set_seed], with the configured seed on the generator as
    it is, and gives what that call gives. *)
Theorem main_is_deterministic cfg (w1 w2 : world) :
  disk w1 = disk w2 →
  rng w1 = rng w2 ∨ reseeds env cfg →
  let run1 := main env cfg w1 in
  let run2 := main env cfg w2 in
  let seeding :=
    (SetSeed (seed cfg) (cudnn_deterministic_mode cfg), None) in
  run1.1 = run2.1 ∧ disk run1.2 = disk run2.2 ∧
  seeded_before_model_work (seed cfg) (cudnn_deterministic_mode cfg)
    (new_events w1 run1.2) ∧
  (is_ok run1.1 = true →
     seeding ∈ new_events w1 run1.2 ∧ seeding ∈ new_events w2 run2.2 ∧
     ∃ p sd, (TorchSave p, None) ∈ new_events w1 run1.2 ∧
             files (disk run1.2) !! p = Some sd ∧
             files (disk run2.2) !! p = Some sd) ∧
  (∀ (w : world) dev dt q mode,
     get_device env (device cfg) = Ok dev →
     get_dtype env (dtype cfg) dev = Ok dt →
     instantiate_quantizer env (quantizer cfg) = Ok q →
     get_quantizer_mode env q = Ok mode →
     let built := __init__ env cfg w in
     let seeded :=
       set_seed env (seed cfg) (cudnn_deterministic_mode cfg) (rng w) in
     built.1 = seeded.1 ∧ rng built.2 = seeded.2 ∧
     last (new_events w built.2)
       = Some (SetSeed (seed cfg) (cudnn_deterministic_mode cfg),
               raised seeded.1) ∧
     occurrences "training.set_seed" (names (new_events w built.2))
       = 1%nat).
Proof.
  intros Hdisk Hrng. cbv zeta.
  assert ((main env cfg w1).1 = (main env cfg w2).1 ∧
          if is_ok (main env cfg w1).1
          then sim (Level true true) (main env cfg w1).2 (main env cfg w2).2
          else disk (main env cfg w1).2 = disk (main env cfg w2).2)
    as [Hr Hw].
  { destruct Hrng as [Hg|Hre].
    - apply (rel_main cfg true); [by left|]. by split.
    - apply (rel_main cfg false); [by right|]. by split. }
  assert (disk (main env cfg w1).2 = disk (main env cfg w2).2) as Hd.
  { destruct (is_ok (main env cfg w1).1); [by eapply sim_disk|exact Hw]. }
  split; [exact Hr|]. split; [exact Hd|]. split; [|split].
  - destruct (main env cfg w1) as [r w'] eqn:H.
    apply main_run in H as (t & qat & cpu & Ht & _ & _ & _ & Hs & _).
    cbn [snd]. rewrite (new_events_app _ _ _ Ht).
    by apply seeded_from_spec.
  - intros Hok. rewrite <- Hd.
    destruct (main env cfg w1) as [r1 w1'] eqn:H1.
    destruct (main env cfg w2) as [r2 w2'] eqn:H2.
    cbn [fst snd] in *. subst r2.
    destruct r1 as [u|e]; [|discriminate Hok].
    destruct (main_returns env cfg _ _ _ H1) as (p & sd & Hs1 & Ht1 & Hf1).
    destruct (main_returns env cfg _ _ _ H2) as (p2 & sd2 & Hs2 & _ & _).
    split; [exact Hs1|]. split; [exact Hs2|].
    exists p, sd. split; [exact Ht1|].
    rewrite Hf1, lookup_insert_eq. by split.
  - intros w dev dt q mode Hdev Hdt Hq Hmode.
    by apply (init_calls_set_seed env cfg w dev dt q mode).
Qed.

End TwoRunsFacts.

(** ** The name of the saved file *)

Section FileName.
Import PyStr Fs Recipe Trace.

Lemma append_nonempty s t : t ≠ "" → s +:+ t ≠ "".
Proof. destruct s; [done|discriminate]. Qed.

(** Stripping stops inside the last part of a string as soon as that
    part keeps a character. *)
Lemma rstrip_app_keep chars s t :
  rstrip chars t ≠ "" → rstrip chars (s +:+ t) = s +:+ rstrip chars t.
Proof.
  intros Ht. induction s as [|ch s IH]; [reflexivity|].
  change (String ch s +:+ t) with (String ch (s +:+ t)).
  cbn [rstrip]. rewrite IH.
  change (String ch s +:+ rstrip chars t)
    with (String ch (s +:+ rstrip chars t)).
  pose proof (append_nonempty s _ Ht) as Hne.
  destruct (s +:+ rstrip chars t); [done|reflexivity].
Qed.

(** For the two documented modes the stripped name is the file name
    joined to the mode without its ["-qat"] ending. *)
Lemma rstrip_documented_modes file_name :
  rstrip "-qat" (file_name +:+ "-" +:+ "8da4w-qat") =
    file_name +:+ "-" +:+ removesuffix "-qat" "8da4w-qat" ∧
  rstrip "-qat" (file_name +:+ "-" +:+ "8da4w") =
    file_name +:+ "-" +:+ removesuffix "-qat" "8da4w".
Proof.
  split; rewrite rstrip_app_keep by (vm_compute; discriminate);
    f_equal; vm_compute; reflexivity.
Qed.

End FileName.

(** ** The facts at a concrete configuration *)

Section Witnesses.
Import PyStr Fs Recipe Trace.

#[local] Abbreviation params :=
  [("tok_embeddings.weight", "bf16"); ("output.weight", "bf16")].

Lemma quantizer_methods_follow_qat_witness :
  let w := Demo.world_ready "8da4w-qat" in
  _quantizer (self w) = Some "8da4w-qat" ∧
  _quantization_mode (self w) = Some (Some "8da4w-qat") ∧
  _dtype (self w) = Some "bf16" ∧
  _device (self w) = Some "cpu" ∧
  new_events w (quantize Demo.env (Demo.cfg "8da4w-qat") w).2 !! 1%nat
    = Some (Convert, None).
Proof.
  cbv zeta.
  assert (_quantizer (self (Demo.world_ready "8da4w-qat"))
          = Some "8da4w-qat") as H1 by (vm_compute; reflexivity).
  assert (_quantization_mode (self (Demo.world_ready "8da4w-qat"))
          = Some (Some "8da4w-qat")) as H2 by (vm_compute; reflexivity).
  assert (_dtype (self (Demo.world_ready "8da4w-qat")) = Some "bf16")
    as H3 by (vm_compute; reflexivity).
  assert (_device (self (Demo.world_ready "8da4w-qat")) = Some "cpu")
    as H4 by (vm_compute; reflexivity).
  assert (_model (self (Demo.world_ready "8da4w-qat")) = Some params)
    as H5 by (vm_compute; reflexivity).
  split_and!; try assumption.
  destruct (quantizer_methods_follow_qat Demo.env (Demo.cfg "8da4w-qat")
              (PyStr "model") params _ _ _ _ _ H1 H2 H3 H4) as [Hq _].
  exact (proj1 (Hq params H5)).
Defined.

Lemma main_runs_pipeline_in_order_witness :
  let cfg := Demo.cfg "8da4w-qat" in
  let run := main Demo.env cfg Demo.world0 in
  run.1 = Ok () ∧
  names (new_events Demo.world0 run.2) = pipeline true true ∧
  files (disk run.2)
    = <[Path false ["out"; "model-8da4w.ckpt"] := params]> ∅.
Proof.
  cbv zeta.
  destruct (main_runs_pipeline_in_order Demo.env (Demo.cfg "8da4w-qat")
              Demo.world0) as [_ Hall].
  destruct (Hall "cpu" "bf16" "8da4w-qat" "8da4w-qat" 1234 ["model.pt"]
              {["model" := params]} params params 1235 params 1235
              params params 1235 params "model.pt" "model"
              (Fs {[Path false ["out"]]} ∅)
              (Path false ["out"; "model-8da4w.ckpt"])
              (Fs {[Path false ["out"]]}
                 (<[Path false ["out"; "model-8da4w.ckpt"] := params]> ∅)))
    as (Hr & Hn & Hd & _);
    try (vm_compute; reflexivity).
  - intros Hne. by destruct Hne.
  - split; [exact Hr|]. split; [exact Hn|]. by rewrite Hd.
Defined.

Lemma setup_checks_parameter_dtypes_witness :
  let cfg := Demo.cfg "8da4w" in
  let w := (__init__ Demo.env cfg Demo.world0).2 in
  let saved := [("tok_embeddings.weight", "fp32");
                ("output.weight", "fp32")] in
  let env' := Scenarios.env_with Some {["model" := saved]} in
  let w' := (__init__ env' cfg Demo.world0).2 in
  _model (self w) = None ∧
  (∃ m, _model (self (setup Demo.env cfg w).2) = Some m ∧
        ∀ name d, (name, d) ∈ named_parameters Demo.env m → d = "bf16") ∧
  _model (self w') = None ∧
  (setup env' cfg w').1 = Raise ValueError ∧
  _model (self (setup env' cfg w').2) = None.
Proof.
  cbv zeta.
  assert (_model (self (__init__ Demo.env (Demo.cfg "8da4w")
                          Demo.world0).2) = None)
    as H1 by (vm_compute; reflexivity).
  split; [exact H1|]. split.
  { destruct (setup_checks_parameter_dtypes Demo.env (Demo.cfg "8da4w") _
                H1) as [Hok _].
    destruct Hok as (m & dt & Hm & Hdt & Hall); [vm_compute; reflexivity|].
    exists m. split; [exact Hm|].
    vm_compute in Hdt. apply (inj Some) in Hdt. subst dt. exact Hall. }
  set (saved := [("tok_embeddings.weight", "fp32");
                 ("output.weight", "fp32")]).
  set (env' := Scenarios.env_with Some {["model" := saved]}).
  assert (_model (self (__init__ env' (Demo.cfg "8da4w") Demo.world0).2)
          = None) as H2 by (vm_compute; reflexivity).
  split; [exact H2|].
  destruct (setup_checks_parameter_dtypes env' (Demo.cfg "8da4w") _ H2)
    as (_ & _ & _ & Hflow).
  destruct (Hflow "bf16" "cpu" "8da4w" "8da4w" ["model.pt"]
              {["model" := saved]} saved params 1235 params 1235 saved)
    as (_ & Hraise & _); try (vm_compute; reflexivity).
  apply Hraise. exists "tok_embeddings.weight", "fp32".
  split; [apply list_elem_of_here|discriminate].
Defined.

(** With a [load_state_dict] that keeps the dtype of the model's
    parameters, a checkpoint whose entries have another dtype than the
    configured one is accepted: [setup] returns, and the model it
    assigns has the configured dtype. *)
Lemma setup_accepts_checkpoint_of_other_dtype :
  let saved := [("tok_embeddings.weight", "fp32");
                ("output.weight", "fp32")] in
  let env := Scenarios.env_casting {["model" := saved]} in
  let cfg := Demo.cfg "8da4w" in
  let w := (__init__ env cfg Demo.world0).2 in
  _model (self w) = None ∧
  dtype cfg = "bf16" ∧
  checkpointer_load_checkpoint env ["model.pt"] = Ok {["model" := saved]} ∧
  ("tok_embeddings.weight", "fp32") ∈ saved ∧
  (setup env cfg w).1 = Ok () ∧
  _model (self (setup env cfg w).2) = Some params.
Proof.
  cbv zeta. split_and!; try (vm_compute; reflexivity).
  apply list_elem_of_here.
Qed.

Lemma save_checkpoint_ensures_output_dir_witness :
  let cfg := Demo.cfg "8da4w" in
  let w := Demo.world_ready "8da4w" in
  _model (self w) = Some params ∧
  state_dict Demo.env params = Ok params ∧
  checkpoint_files (checkpointer cfg) !! 0%nat = Some "model.pt" ∧
  is_dir (disk w) (parse "out") = false ∧
  is_dir (disk (save_checkpoint Demo.env cfg w).2) (parse "out") = true.
Proof.
  cbv zeta.
  assert (_model (self (Demo.world_ready "8da4w")) = Some params)
    as H1 by (vm_compute; reflexivity).
  assert (state_dict Demo.env params = Ok params) as H2 by reflexivity.
  assert (checkpoint_files (checkpointer (Demo.cfg "8da4w")) !! 0%nat
          = Some "model.pt") as H3 by reflexivity.
  assert (is_dir (disk (Demo.world_ready "8da4w")) (parse "out") = false)
    as H4 by (vm_compute; reflexivity).
  split_and!; try assumption.
  destruct (save_checkpoint_ensures_output_dir Demo.env (Demo.cfg "8da4w")
              _ _ _ _ H1 H2 H3) as [Hnew _].
  apply Hnew; vm_compute; reflexivity.
Defined.

Lemma main_is_deterministic_witness :
  let cfg := Demo.cfg "8da4w-qat" in
  let w1 := Demo.world0 in
  let w2 := World new_recipe [(LogConfig, None)] (Fs ∅ ∅) 99 [] in
  disk w1 = disk w2 ∧ seed cfg = Some 1234 ∧
  (main Demo.env cfg w1).1 = (main Demo.env cfg w2).1 ∧
  disk (main Demo.env cfg w1).2 = disk (main Demo.env cfg w2).2 ∧
  (SetSeed (Some 1234) None, None)
    ∈ new_events w2 (main Demo.env cfg w2).2 ∧
  (∃ p sd, files (disk (main Demo.env cfg w1).2) !! p = Some sd ∧
           files (disk (main Demo.env cfg w2).2) !! p = Some sd) ∧
  rng (__init__ Demo.env cfg w2).2 = 1234 ∧
  last (new_events w2 (__init__ Demo.env cfg w2).2)
    = Some (SetSeed (Some 1234) None, None).
Proof.
  cbv zeta. split; [reflexivity|]. split; [reflexivity|].
  destruct (main_is_deterministic Demo.env (Demo.cfg "8da4w-qat")
              Demo.world0
              (World new_recipe [(LogConfig, None)] (Fs ∅ ∅) 99 []))
    as (Hr & Hd & _ & Hrun & Hinit).
  - reflexivity.
  - right. exists 1234. split; [reflexivity|].
    intros dbg g1 g2. reflexivity.
  - split; [exact Hr|]. split; [exact Hd|].
    destruct Hrun as (_ & Hs2 & p & sd & _ & Hf1 & Hf2);
      [vm_compute; reflexivity|].
    split; [exact Hs2|].
    split; [exists p, sd; split; [exact Hf1|exact Hf2]|].
    destruct (Hinit (World new_recipe [(LogConfig, None)] (Fs ∅ ∅) 99 [])
                "cpu" "bf16" "8da4w-qat" (Some "8da4w-qat")
                eq_refl eq_refl eq_refl eq_refl)
      as (_ & Hg & Hlast & _).
    split; [exact Hg|exact Hlast].
Defined.

End Witnesses.

(** * More about the model builders *)

(** ** Python's argument binding *)

Section BindingFacts.
Import PyCall.

Implicit Types (ps rest : list param) (args : list pyval)
  (kw bound locals m : gmap string pyval).

Lemma bind_positional_too_many ps args :
  (length ps < length args)%nat →
  bind_positional ps args = Raise TypeError.
Proof.
  revert ps. induction args as [|a args IH]; intros ps Hlen.
  - cbn in Hlen. lia.
  - destruct ps as [|p ps]; [reflexivity|].
    cbn [bind_positional]. rewrite IH by (cbn in Hlen; lia). reflexivity.
Qed.

Lemma bind_positional_ok ps args :
  (length args ≤ length ps)%nat →
  ∃ bound,
    bind_positional ps args = Ok (bound, drop (length args) ps) ∧
    dom bound =@{gset string}
      list_to_set (p_name <$> take (length args) ps) ∧
    (NoDup (p_name <$> ps) →
     ∀ i a p, args !! i = Some a → ps !! i = Some p →
              bound !! p_name p = Some a).
Proof.
  revert ps. induction args as [|a args IH]; intros ps Hlen.
  - exists ∅. split; [by destruct ps|]. split.
    + cbn. by rewrite dom_empty_L.
    + intros _ i a p Hi. discriminate Hi.
  - destruct ps as [|p ps]; [cbn in Hlen; lia|].
    destruct (IH ps) as (bound & Hb & Hdom & Hval); [cbn in Hlen; lia|].
    exists (<[p_name p := a]> bound). cbn [bind_positional].
    rewrite Hb. split; [reflexivity|]. split.
    + cbn [length take fmap list_fmap list_to_set].
      rewrite dom_insert_L, Hdom. reflexivity.
    + intros Hnd i a' p' Hi Hp. cbn [fmap list_fmap] in Hnd.
      apply NoDup_cons in Hnd as [Hnot Hnd].
      destruct i as [|i]; cbn in Hi, Hp.
      * apply (inj Some) in Hi, Hp. subst. apply lookup_insert_eq.
      * rewrite lookup_insert_ne; [by eapply Hval|].
        intros Heq. apply Hnot. rewrite Heq.
        apply list_elem_of_fmap. exists p'. split; [reflexivity|].
        by eapply list_elem_of_lookup_2.
Qed.

Lemma fill_defaults_raise rest m e :
  fill_defaults rest m = Raise e → e = TypeError.
Proof.
  revert m. induction rest as [|p rest IH]; intros m H; cbn in H.
  - discriminate H.
  - destruct (m !! p_name p); [by eapply IH|].
    destruct (p_default p); [by eapply IH|].
    apply (f_equal raised) in H. cbn in H. by apply (inj Some) in H.
Qed.

(** A call that fails to bind fails with [TypeError]. *)
Lemma bind_call_raise ps args kw e :
  bind_call ps args kw = Raise e → e = TypeError.
Proof.
  unfold bind_call.
  destruct (bind_positional ps args) as [[bound rest]|e0] eqn:Hb;
    cbn [mbind pyresult_bind].
  - repeat case_decide; intros Hr;
      first [ by eapply fill_defaults_raise
            | apply (f_equal raised) in Hr; cbn in Hr;
              by apply (inj Some) in Hr ].
  - intros Hr. apply (f_equal raised) in Hr. cbn in Hr.
    apply (inj Some) in Hr. subst e0.
    destruct (decide (length ps < length args)%nat) as [Hlt|Hge].
    + rewrite bind_positional_too_many in Hb by exact Hlt.
      apply (f_equal raised) in Hb. cbn in Hb. by apply (inj Some) in Hb.
    + destruct (bind_positional_ok ps args) as (b & Hok & _); [lia|].
      rewrite Hok in Hb. discriminate Hb.
Qed.

(** Filling in defaults succeeds exactly when every parameter left has a
    value or a default. *)
Lemma fill_defaults_ok_iff rest m :
  NoDup (p_name <$> rest) →
  is_ok (fill_defaults rest m) = true ↔
  Forall (λ p, is_Some (m !! p_name p) ∨ is_Some (p_default p)) rest.
Proof.
  revert m. induction rest as [|p rest IH]; intros m Hnd.
  - split; [constructor|reflexivity].
  - cbn [fmap list_fmap] in Hnd. apply NoDup_cons in Hnd as [Hnot Hnd].
    cbn [fill_defaults]. rewrite Forall_cons.
    destruct (m !! p_name p) as [x|] eqn:Hm.
    + rewrite (IH m Hnd). split; [intros HF; split; [left; eauto|exact HF]|].
      by intros [_ HF].
    + destruct (p_default p) as [d|] eqn:Hd.
      * rewrite (IH _ Hnd). split.
        -- intros HF. split; [right; eauto|].
           rewrite Forall_forall in HF. apply Forall_forall.
           intros p' Hin. destruct (HF p' Hin) as [Hs|Hs]; [|by right].
           left. rewrite lookup_insert_ne in Hs; [exact Hs|].
           intros Heq. apply Hnot. rewrite Heq.
           apply list_elem_of_fmap. by exists p'.
        -- intros [_ HF]. eapply Forall_impl; [exact HF|].
           intros p' [Hs|Hs]; [|by right]. left.
           destruct Hs as [y Hy].
           destruct (decide (p_name p = p_name p')) as [Heq|Hne].
           ++ rewrite Heq, lookup_insert_eq. eauto.
           ++ rewrite lookup_insert_ne by exact Hne. eauto.
      * split; [discriminate|].
        intros [[Hs|Hs] _]; destruct Hs as [y Hy]; discriminate Hy.
Qed.

(** What a name is bound to after the defaults are filled in. *)
Lemma fill_defaults_lookup rest m l p :
  NoDup (p_name <$> rest) → p ∈ rest →
  fill_defaults rest m = Ok l →
  l !! p_name p = match m !! p_name p with
                  | Some x => Some x
                  | None => p_default p
                  end.
Proof.
  revert m. induction rest as [|p0 rest IH]; intros m Hnd Hin Hf.
  - by apply elem_of_nil in Hin.
  - cbn [fmap list_fmap] in Hnd. apply NoDup_cons in Hnd as [Hnot Hnd].
    cbn [fill_defaults] in Hf.
    apply elem_of_cons in Hin as [->|Hin].
    + destruct (m !! p_name p0) as [x|] eqn:Hm.
      * eapply fill_defaults_preserves; eassumption.
      * destruct (p_default p0) as [d|]; [|discriminate Hf].
        eapply fill_defaults_preserves; [exact Hf|].
        apply lookup_insert_eq.
    + assert (p_name p0 ≠ p_name p) as Hne.
      { intros Heq. apply Hnot. rewrite Heq.
        apply list_elem_of_fmap. by exists p. }
      destruct (m !! p_name p0) as [x|] eqn:Hm; [by eapply IH|].
      destruct (p_default p0) as [d|]; [|discriminate Hf].
      rewrite (IH _ Hnd Hin Hf). by rewrite lookup_insert_ne.
Qed.

(** With distinct parameter names, the names bound by position are apart
    from the names still to bind. *)
Lemma names_take_drop ps n p :
  NoDup (p_name <$> ps) → p ∈ drop n ps →
  p_name p ∉@{gset string} list_to_set (p_name <$> take n ps).
Proof.
  intros Hnd Hin Hel. rewrite <- (take_drop n ps), fmap_app in Hnd.
  apply NoDup_app in Hnd as (_ & Hdis & _).
  apply elem_of_list_to_set in Hel. apply (Hdis _ Hel).
  apply list_elem_of_fmap. by exists p.
Qed.

Lemma NoDup_names_drop ps n :
  NoDup (p_name <$> ps) → NoDup (p_name <$> drop n ps).
Proof.
  intros Hnd. rewrite <- (take_drop n ps), fmap_app in Hnd.
  by apply NoDup_app in Hnd as (_ & _ & Hd).
Qed.

(** When a call binds: not more positional arguments than parameters,
    only keywords that name a parameter, none of them naming a parameter
    already bound by position, and a value or a default for every
    parameter that is left. *)
Lemma bind_call_ok_iff ps args kw :
  NoDup (p_name <$> ps) →
  is_ok (bind_call ps args kw) = true ↔
  (length args ≤ length ps)%nat ∧
  dom kw ⊆@{gset string} list_to_set (p_name <$> ps) ∧
  dom kw ##@{gset string}
    list_to_set (p_name <$> take (length args) ps) ∧
  Forall (λ p, is_Some (kw !! p_name p) ∨ is_Some (p_default p))
    (drop (length args) ps).
Proof.
  intros Hnd. unfold bind_call.
  destruct (decide (length ps < length args)%nat) as [Hlt|Hge].
  { rewrite bind_positional_too_many by exact Hlt.
    split; [discriminate|]. intros [Hle _]. lia. }
  destruct (bind_positional_ok ps args) as (bound & Hb & Hdom & _); [lia|].
  rewrite Hb. cbn [mbind pyresult_bind]. rewrite Hdom.
  assert (∀ p, p ∈ drop (length args) ps →
               (kw ∪ bound) !! p_name p = kw !! p_name p) as Hlook.
  { intros p Hin. destruct (kw !! p_name p) as [x|] eqn:Hk.
    - by apply lookup_union_Some_l.
    - apply lookup_union_None. split; [exact Hk|].
      apply not_elem_of_dom. rewrite Hdom.
      by apply names_take_drop. }
  repeat case_decide.
  - rewrite fill_defaults_ok_iff by by apply NoDup_names_drop.
    rewrite !Forall_forall. split.
    + intros HF. split; [lia|]. split; [done|]. split; [done|].
      intros p Hin. rewrite <- (Hlook p Hin). by apply HF.
    + intros (_ & _ & _ & HF) p Hin. rewrite (Hlook p Hin). by apply HF.
  - split; [discriminate|]. by intros (_ & _ & Hd & _).
  - split; [discriminate|]. by intros (_ & Hs & _).
Qed.

(** What each parameter is bound to when the call binds: the positional
    argument at its place if there is one, else the keyword argument of
    its name, else its default. *)
Lemma bind_call_lookup ps args kw locals i p :
  NoDup (p_name <$> ps) →
  bind_call ps args kw = Ok locals → ps !! i = Some p →
  locals !! p_name p =
    match args !! i with
    | Some a => Some a
    | None => match kw !! p_name p with
              | Some x => Some x
              | None => p_default p
              end
    end.
Proof.
  intros Hnd Hcall Hp. unfold bind_call in Hcall.
  destruct (decide (length ps < length args)%nat) as [Hlt|Hge].
  { by rewrite bind_positional_too_many in Hcall. }
  destruct (bind_positional_ok ps args) as (bound & Hb & Hdom & Hval);
    [lia|].
  rewrite Hb in Hcall. cbn [mbind pyresult_bind] in Hcall.
  repeat case_decide; try discriminate Hcall.
  destruct (args !! i) as [a|] eqn:Ha.
  - eapply fill_defaults_preserves; [exact Hcall|].
    pose proof (Hval Hnd i a p Ha Hp) as Hbp.
    apply lookup_union_Some_raw. right. split; [|exact Hbp].
    apply not_elem_of_dom. intros Hin.
    match goal with Hd : dom kw ## dom bound |- _ => apply (Hd _ Hin) end.
    apply elem_of_dom. eauto.
  - apply lookup_ge_None in Ha.
    assert (p ∈ drop (length args) ps) as Hin.
    { apply list_elem_of_lookup. exists (i - length args)%nat.
      rewrite lookup_drop. by replace (length args + (i - length args))%nat
        with i by lia. }
    rewrite (fill_defaults_lookup _ _ _ p
               (NoDup_names_drop _ _ Hnd) Hin Hcall).
    destruct (kw !! p_name p) as [x|] eqn:Hk.
    + by rewrite (lookup_union_Some_l _ _ _ _ Hk).
    + assert ((kw ∪ bound) !! p_name p = None) as ->; [|reflexivity].
      apply lookup_union_None. split; [exact Hk|].
      apply not_elem_of_dom. rewrite Hdom. by apply names_take_drop.
Qed.

(** The value a bound parameter has in the body. *)
Lemma bind_call_lookup_total ps args kw locals i p :
  NoDup (p_name <$> ps) →
  bind_call ps args kw = Ok locals → ps !! i = Some p →
  Some (locals !!! p_name p) =
    match args !! i with
    | Some a => Some a
    | None => match kw !! p_name p with
              | Some x => Some x
              | None => p_default p
              end
    end.
Proof.
  intros Hnd Hcall Hp.
  rewrite <- (bind_call_lookup _ _ _ _ _ _ Hnd Hcall Hp).
  pose proof (bind_call_lookup _ _ _ _ _ _ Hnd Hcall Hp) as Hv.
  destruct (locals !! p_name p) as [y|] eqn:Hy.
  { by rewrite (lookup_total_correct _ _ _ Hy). }
  exfalso.
  assert (is_ok (bind_call ps args kw) = true) as Hok by by rewrite Hcall.
  apply (bind_call_ok_iff _ _ _ Hnd) in Hok as (_ & _ & _ & HF).
  destruct (args !! i) as [a|] eqn:Ha; [discriminate Hv|].
  apply lookup_ge_None in Ha.
  rewrite Forall_forall in HF.
  destruct (HF p) as [[x Hx]|[d Hd]].
  - apply list_elem_of_lookup. exists (i - length args)%nat.
    rewrite lookup_drop. by replace (length args + (i - length args))%nat
      with i by lia.
  - rewrite Hx in Hv. discriminate Hv.
  - rewrite Hd in Hv. destruct (kw !! p_name p); discriminate Hv.
Qed.

End BindingFacts.

(** ** Calling the LoRA and QLoRA builders *)

Section BuilderCalls.
Import PyCall Builders.

Lemma lora_params_NoDup : NoDup (p_name <$> lora_params).
Proof. apply (bool_decide_unpack _). vm_compute. exact I. Qed.

(** A LoRA builder returns exactly when its arguments bind. *)
Lemma lora_builder_is_ok v args kw :
  is_ok (lora_builder v args kw) = is_ok (bind_call lora_params args kw).
Proof.
  destruct v; cbn [lora_builder];
    unfold lora_llama2_7b, lora_llama2_13b, lora_llama2_70b,
      lora_llama2_reward_7b;
    destruct (bind_call lora_params args kw); reflexivity.
Qed.

Lemma lora_builder_raise v args kw e :
  lora_builder v args kw = Raise e → e = TypeError.
Proof.
  destruct v; cbn [lora_builder];
    unfold lora_llama2_7b, lora_llama2_13b, lora_llama2_70b,
      lora_llama2_reward_7b;
    destruct (bind_call lora_params args kw) as [l|e0] eqn:Hb;
    cbn [mbind pyresult_bind]; intros Hr; try discriminate Hr;
    apply (f_equal raised) in Hr; cbn in Hr; apply (inj Some) in Hr;
    subst e0; by eapply bind_call_raise.
Qed.

Lemma not_ok_TypeError {A} (r : pyresult A) :
  is_ok r = false → (∀ e, r = Raise e → e = TypeError) →
  r = Raise TypeError.
Proof.
  destruct r as [a|e]; [discriminate|]. intros _ He.
  by rewrite (He e eq_refl).
Qed.

(** Every parameter after the first has a default. *)
Lemma lora_params_defaults n :
  Forall (λ p, is_Some (p_default p)) (drop (S n) lora_params).
Proof.
  change (drop (S n) lora_params) with (drop n (tail lora_params)).
  apply Forall_drop. cbn [lora_params tail].
  repeat constructor; cbn [p_default]; eauto.
Qed.

Lemma lora_builder_binds v args (kw : gmap string pyval) :
  is_ok (lora_builder v args kw) = true ↔
  (length args ≤ 8)%nat ∧
  dom kw ⊆ lora_keys ∧
  dom kw ##@{gset string}
    list_to_set (take (length args) (p_name <$> lora_params)) ∧
  (args = [] → is_Some (kw !! "lora_attn_modules")).
Proof.
  rewrite lora_builder_is_ok, (bind_call_ok_iff _ _ _ lora_params_NoDup).
  rewrite fmap_take. change (length lora_params) with 8%nat.
  fold lora_keys. split.
  - intros (Hl & Hs & Hd & HF). split_and!; try done.
    intros ->. cbn [length drop] in HF.
    apply Forall_cons in HF as [[Hk|[d Hd']] _]; [exact Hk|].
    discriminate Hd'.
  - intros (Hl & Hs & Hd & Ha). split_and!; try done.
    destruct args as [|a args].
    + cbn [length drop lora_params]. apply Forall_cons. split.
      * left. by apply Ha.
      * eapply Forall_impl; [apply (lora_params_defaults 0)|].
        intros p Hp. by right.
    + cbn [length]. eapply Forall_impl; [apply lora_params_defaults|].
      intros p Hp. by right.
Qed.

(** A preset keyword of [functools.partial] that the call passes itself
    has no effect. *)
Lemma partial_overridden {R} (f : callable R) k v x args
    (kw : gmap string pyval) :
  kw !! k = Some x → partial f {[k := v]} args kw = f args kw.
Proof.
  intros Hk. unfold partial. f_equal. apply map_eq. intros j.
  rewrite lookup_union. destruct (kw !! j) as [y|] eqn:Hj.
  - by destruct ({[k := v]} !! j).
  - rewrite lookup_singleton_ne; [reflexivity|]. congruence.
Qed.

(** X1: a LoRA builder calls its component builder exactly when its
    arguments bind to the eight parameters: at most eight positional
    arguments, every keyword one of the eight names and none of them a
    name already filled by position, and the attention modules given one
    way or the other.  It then returns, or raises, what the component
    builder does on that call.  Every other call raises [TypeError],
    whatever the component builder does. *)
Theorem lora_builder_accepts_exactly {R}
    (component : component_call → pyresult R) v args
    (kw : gmap string pyval) :
  let binds :=
    (length args ≤ 8)%nat ∧
    dom kw ⊆ lora_keys ∧
    dom kw ##@{gset string}
      list_to_set (take (length args)
        ["lora_attn_modules"; "apply_lora_to_mlp"; "apply_lora_to_output";
         "lora_rank"; "lora_alpha"; "lora_dropout"; "use_dora";
         "quantize_base"]) ∧
    (args = [] → is_Some (kw !! "lora_attn_modules")) in
  (binds →
     ∃ c, lora_builder v args kw = Ok c ∧
          Delegate.returning component (lora_builder v) args kw = component c) ∧
  (¬ binds →
     Delegate.returning component (lora_builder v) args kw = Raise TypeError).
Proof.
  cbv zeta. unfold Delegate.returning. split.
  - intros Hb. apply (lora_builder_binds v args kw) in Hb.
    destruct (lora_builder v args kw) as [c|e]; [|discriminate Hb].
    by exists c.
  - intros Hno.
    assert (lora_builder v args kw = Raise TypeError) as ->; [|reflexivity].
    apply not_ok_TypeError; [|intros e; apply lora_builder_raise].
    apply not_true_is_false. intros Hok. apply Hno.
    by apply (lora_builder_binds v args kw).
Qed.

(** X2: when a LoRA builder returns, each of the eight LoRA settings
    reaches the component builder as the positional argument at the
    parameter's place when there is one, else as the keyword argument of
    that name, else as the default of the signature. *)
Theorem lora_builder_resolves_arguments v args kw c i p :
  lora_builder v args kw = Ok c → lora_params !! i = Some p →
  call_kwargs c !! p_name p =
    match args !! i with
    | Some a => Some a
    | None => match kw !! p_name p with
              | Some x => Some x
              | None => p_default p
              end
    end.
Proof.
  intros H Hp.
  pose proof (λ locals Hb, bind_call_lookup_total lora_params args kw
                locals i p lora_params_NoDup Hb Hp) as Hl.
  destruct i as [|[|[|[|[|[|[|[|i]]]]]]]]; [..|discriminate Hp];
    (cbn in Hp; apply (inj Some) in Hp; subst p;
     destruct v; cbn [lora_builder] in H;
     unfold lora_llama2_7b, lora_llama2_13b, lora_llama2_70b,
       lora_llama2_reward_7b in H;
     destruct (bind_call lora_params args kw) as [locals|] eqn:Hbind;
     cbn [mbind pyresult_bind] in H; try discriminate H;
     apply Ok_inj in H; subst c;
     (etrans; [|apply (Hl locals eq_refl)]);
     cbn [call_kwargs p_name];
     rewrite lookup_list_to_map_assoc; reflexivity).
Qed.

Lemma lora_builder_resolves_arguments_witness :
  let args := [PyList [PyStr "q_proj"]; PyBool true] in
  let kw : gmap string pyval := {["lora_rank" := PyInt 64]} in
  ∃ c, lora_builder V13b args kw = Ok c ∧
       call_kwargs c !! "apply_lora_to_mlp" = Some (PyBool true) ∧
       call_kwargs c !! "lora_rank" = Some (PyInt 64) ∧
       call_kwargs c !! "lora_alpha" = Some (PyInt 16).
Proof.
  cbv zeta.
  destruct (lora_builder V13b [PyList [PyStr "q_proj"]; PyBool true]
              {["lora_rank" := PyInt 64]}) as [c|e] eqn:Hc;
    [|vm_compute in Hc; discriminate Hc].
  exists c. split; [reflexivity|]. split_and!.
  - exact (lora_builder_resolves_arguments V13b _ _ c 1
             (Param "apply_lora_to_mlp" (Some (PyBool false)))
             Hc eq_refl).
  - exact (lora_builder_resolves_arguments V13b _ _ c 3
             (Param "lora_rank" (Some (PyInt 8))) Hc eq_refl).
  - exact (lora_builder_resolves_arguments V13b _ _ c 4
             (Param "lora_alpha" (Some (PyInt 16))) Hc eq_refl).
Defined.

(** X3: a caller of a QLoRA builder who passes [quantize_base] by
    keyword overrides the preset [True]: the call is the call of the
    wrapped LoRA builder with the caller's keywords unchanged, and the
    component builder receives the caller's value. *)
Theorem qlora_caller_overrides_quantize_base args
    (kw : gmap string pyval) x :
  kw !! "quantize_base" = Some x →
  qlora_llama2_7b args kw = lora_llama2_7b args kw ∧
  qlora_llama2_13b args kw = lora_llama2_13b args kw ∧
  qlora_llama2_70b args kw = lora_llama2_70b args kw ∧
  qlora_llama2_reward_7b args kw = lora_llama2_7b args kw ∧
  ∀ c, qlora_llama2_7b args kw = Ok c ∨ qlora_llama2_13b args kw = Ok c ∨
       qlora_llama2_70b args kw = Ok c ∨
       qlora_llama2_reward_7b args kw = Ok c →
       call_kwargs c !! "quantize_base" = Some x.
Proof.
  intros Hk.
  unfold qlora_llama2_7b, qlora_llama2_13b, qlora_llama2_70b,
    qlora_llama2_reward_7b.
  rewrite !(partial_overridden _ _ _ x) by exact Hk.
  split_and!; try reflexivity.
  intros c [H|[H|[H|H]]].
  - by apply (lora_builder_quantize_base V7b args kw).
  - by apply (lora_builder_quantize_base V13b args kw).
  - by apply (lora_builder_quantize_base V70b args kw).
  - by apply (lora_builder_quantize_base V7b args kw).
Qed.

Lemma qlora_caller_overrides_quantize_base_witness :
  let args := [PyList [PyStr "q_proj"]] in
  let kw : gmap string pyval := {["quantize_base" := PyBool false]} in
  qlora_llama2_70b args kw = lora_llama2_70b args kw ∧
  ∃ c, qlora_llama2_70b args kw = Ok c ∧
       call_kwargs c !! "quantize_base" = Some (PyBool false).
Proof.
  cbv zeta.
  assert (({["quantize_base" := PyBool false]} : gmap string pyval)
            !! "quantize_base" = Some (PyBool false)) as Hk
    by (vm_compute; reflexivity).
  destruct (qlora_caller_overrides_quantize_base
              [PyList [PyStr "q_proj"]] _ _ Hk)
    as (_ & _ & H70 & _ & Hc).
  split; [exact H70|].
  destruct (qlora_llama2_70b [PyList [PyStr "q_proj"]]
              {["quantize_base" := PyBool false]}) as [c|e] eqn:Hq;
    [|vm_compute in Hq; discriminate Hq].
  exists c. split; [reflexivity|]. apply Hc. by right; right; left.
Defined.

(** X4: [quantize_base] is the eighth parameter, and the QLoRA builders
    preset it by keyword; a call of a QLoRA builder with eight or more
    positional arguments therefore raises [TypeError], whatever the
    keywords. *)
Theorem qlora_rejects_positional_quantize_base args
    (kw : gmap string pyval) :
  (8 ≤ length args)%nat →
  qlora_llama2_7b args kw = Raise TypeError ∧
  qlora_llama2_13b args kw = Raise TypeError ∧
  qlora_llama2_70b args kw = Raise TypeError ∧
  qlora_llama2_reward_7b args kw = Raise TypeError.
Proof.
  intros Hlen.
  assert (∀ v, lora_builder v args (kw ∪ {["quantize_base" := PyBool true]})
               = Raise TypeError) as Hv.
  { intros v. apply not_ok_TypeError; [|intros e; apply lora_builder_raise].
    apply not_true_is_false. rewrite lora_builder_binds.
    intros (_ & _ & Hdisj & _).
    apply (Hdisj "quantize_base").
    - apply elem_of_dom.
      destruct (kw !! "quantize_base") as [y|] eqn:Hy.
      + exists y. by apply lookup_union_Some_l.
      + exists (PyBool true). rewrite lookup_union_r by exact Hy.
        apply lookup_singleton_eq.
    - rewrite take_ge by (cbn; lia).
      apply (bool_decide_unpack _). vm_compute. exact I. }
  unfold qlora_llama2_7b, qlora_llama2_13b, qlora_llama2_70b,
    qlora_llama2_reward_7b, partial.
  split_and!; [apply (Hv V7b)|apply (Hv V13b)|apply (Hv V70b)
              |apply (Hv V7b)].
Qed.

Lemma qlora_rejects_positional_quantize_base_witness :
  qlora_llama2_13b
    [PyList [PyStr "q_proj"]; PyBool false; PyBool false; PyInt 8;
     PyInt 16; PyFloat 0; PyBool false; PyBool false] ∅
  = Raise TypeError.
Proof.
  refine (proj1 (proj2 (qlora_rejects_positional_quantize_base _ ∅ _))).
  cbn [length]. lia.
Defined.

End BuilderCalls.

(** ** Calling the tokenizer builder *)

Section TokenizerFacts.
Import PyCall Tokenizer.
Context {Template : Type}.
Implicit Types (get : pyval → pyresult Template).

Lemma tokenizer_params_NoDup : NoDup (p_name <$> tokenizer_params).
Proof. apply (bool_decide_unpack _). vm_compute. exact I. Qed.

(** The four parameters in the body of a call that binds. *)
Lemma tokenizer_locals args kw locals :
  bind_call tokenizer_params args kw = Ok locals →
  let given i name :=
    match args !! i with Some a => Some a | None => kw !! name end in
  given 0%nat "path" = Some (locals !!! "path") ∧
  locals !!! "max_seq_len" = default PyNone (given 1%nat "max_seq_len") ∧
  locals !!! "prompt_template" =
    default (PyStr "torchtune.models.llama2.Llama2ChatTemplate")
      (given 2%nat "prompt_template") ∧
  locals !!! "truncation_type" =
    default (PyStr "right") (given 3%nat "truncation_type").
Proof.
  intros Hb. cbv zeta.
  pose proof (λ i p, bind_call_lookup_total tokenizer_params args kw
                locals i p tokenizer_params_NoDup Hb) as Hl.
  pose proof (Hl 0%nat _ eq_refl) as H0.
  pose proof (Hl 1%nat _ eq_refl) as H1.
  pose proof (Hl 2%nat _ eq_refl) as H2.
  pose proof (Hl 3%nat _ eq_refl) as H3.
  cbn [p_name p_default] in H0, H1, H2, H3.
  split_and!.
  - rewrite H0. by destruct (args !! 0%nat), (kw !! "path").
  - apply (inj Some). rewrite H1.
    by destruct (args !! 1%nat), (kw !! "max_seq_len").
  - apply (inj Some). rewrite H2.
    by destruct (args !! 2%nat), (kw !! "prompt_template").
  - apply (inj Some). rewrite H3.
    by destruct (args !! 3%nat), (kw !! "truncation_type").
Qed.

(** X5: when [llama2_tokenizer] returns, the constructor got the path
    the caller gave, [max_seq_len] and [truncation_type] as given or
    else [None] and ["right"], and for the template: [None] when the
    caller passed [None], and otherwise the object that
    [_get_prompt_template] made of the caller's value or else of the
    dotpath of [Llama2ChatTemplate]. *)
Theorem llama2_tokenizer_passes_arguments get args kw t :
  llama2_tokenizer get args kw = Ok t →
  let given i name :=
    match args !! i with Some a => Some a | None => kw !! name end in
  let template :=
    default (PyStr "torchtune.models.llama2.Llama2ChatTemplate")
      (given 2%nat "prompt_template") in
  given 0%nat "path" = Some (path t) ∧
  max_seq_len t = default PyNone (given 1%nat "max_seq_len") ∧
  truncation_type t =
    default (PyStr "right") (given 3%nat "truncation_type") ∧
  match template with
  | PyNone => prompt_template t = None
  | _ => ∃ tpl, get template = Ok tpl ∧ prompt_template t = Some tpl
  end.
Proof.
  unfold llama2_tokenizer. intros H.
  destruct (bind_call tokenizer_params args kw) as [locals|] eqn:Hb;
    cbn [mbind pyresult_bind] in H; [|discriminate H].
  destruct (tokenizer_locals _ _ _ Hb) as (Hp & Hm & Ht & Htr).
  cbv zeta. rewrite <- Ht.
  destruct (locals !!! "prompt_template") eqn:Htpl;
    cbn [mbind pyresult_bind] in H;
    try (destruct (get _) as [tpl|] eqn:Hget;
         cbn [mbind pyresult_bind] in H; [|discriminate H]);
    apply Ok_inj in H; subst t; cbn [path max_seq_len truncation_type
      prompt_template]; split_and!; eauto.
Qed.

(** X6: with [prompt_template=None], by keyword or as third positional
    argument, [_get_prompt_template] has no part in the call: the builder
    does the same whatever that function does, and a tokenizer it
    returns has no template. *)
Theorem llama2_tokenizer_without_template get get' args kw :
  args !! 2%nat = Some PyNone ∨
  (args !! 2%nat = None ∧ kw !! "prompt_template" = Some PyNone) →
  llama2_tokenizer get args kw = llama2_tokenizer get' args kw ∧
  ∀ t, llama2_tokenizer get args kw = Ok t → prompt_template t = None.
Proof.
  intros Hnone.
  assert (∀ locals, bind_call tokenizer_params args kw = Ok locals →
                    locals !!! "prompt_template" = PyNone) as Hl.
  { intros locals Hb.
    destruct (tokenizer_locals _ _ _ Hb) as (_ & _ & Ht & _).
    cbv zeta in Ht. rewrite Ht.
    destruct Hnone as [->|[-> ->]]; reflexivity. }
  unfold llama2_tokenizer.
  destruct (bind_call tokenizer_params args kw) as [locals|] eqn:Hb;
    cbn [mbind pyresult_bind]; [|split; [reflexivity|discriminate]].
  rewrite (Hl locals eq_refl). cbn [mbind pyresult_bind].
  split; [reflexivity|]. intros t Ht. apply Ok_inj in Ht. by subst t.
Qed.

(** X7: [llama2_tokenizer] fails in three ways only, in this order: with
    [TypeError] when the arguments do not bind to its four parameters;
    with the exception that [_get_prompt_template] raises on the template
    it is given, the caller's or else the dotpath of
    [Llama2ChatTemplate]; and with the exception that the
    [Llama2Tokenizer] constructor raises on the keyword arguments the
    builder passes. *)
Theorem llama2_tokenizer_failures {R}
    (get : pyval → pyresult Template)
    (constructor : tokenizer_call Template → pyresult R) args kw e :
  Delegate.returning constructor (llama2_tokenizer get) args kw = Raise e →
  (e = TypeError ∧ is_ok (bind_call tokenizer_params args kw) = false) ∨
  (is_ok (bind_call tokenizer_params args kw) = true ∧
   ∃ template,
     template =
       default (PyStr "torchtune.models.llama2.Llama2ChatTemplate")
         (match args !! 2%nat with
          | Some a => Some a
          | None => kw !! "prompt_template"
          end) ∧
     get template = Raise e) ∨
  (∃ t, llama2_tokenizer get args kw = Ok t ∧ constructor t = Raise e).
Proof.
  unfold Delegate.returning. intros H.
  destruct (llama2_tokenizer get args kw) as [t|e0] eqn:Ht;
    cbn [mbind pyresult_bind] in H.
  { right; right. by exists t. }
  apply (f_equal raised) in H. cbn [raised] in H.
  apply (inj Some) in H. subst e0.
  unfold llama2_tokenizer in Ht.
  destruct (bind_call tokenizer_params args kw) as [locals|e0] eqn:Hb;
    cbn [mbind pyresult_bind] in Ht.
  - right; left. split; [reflexivity|].
    destruct (tokenizer_locals _ _ _ Hb) as (_ & _ & Htpl & _).
    cbv zeta in Htpl. rewrite <- Htpl. eexists. split; [reflexivity|].
    destruct (locals !!! "prompt_template");
      cbn [mbind pyresult_bind] in Ht; try discriminate Ht;
      (destruct (get _) as [tpl|e1] eqn:Hget;
       cbn [mbind pyresult_bind] in Ht; [discriminate Ht|]);
      apply (f_equal raised) in Ht; cbn [raised] in Ht;
      apply (inj Some) in Ht; by subst e1.
  - left. apply (f_equal raised) in Ht. cbn [raised] in Ht.
    apply (inj Some) in Ht. subst e0. split; [|reflexivity].
    by eapply bind_call_raise.
Qed.

End TokenizerFacts.

Section TokenizerWitnesses.
Import PyCall Tokenizer.

Lemma llama2_tokenizer_passes_arguments_witness :
  let get : pyval → pyresult string := λ v,
    match v with PyStr s => Ok s | _ => Raise ValueError end in
  ∃ t, llama2_tokenizer get [PyStr "/tmp/tokenizer.model"]
         {["max_seq_len" := PyInt 2048]} = Ok t ∧
       path t = PyStr "/tmp/tokenizer.model" ∧
       max_seq_len t = PyInt 2048 ∧
       truncation_type t = PyStr "right" ∧
       prompt_template t
         = Some "torchtune.models.llama2.Llama2ChatTemplate".
Proof.
  cbv zeta.
  destruct (llama2_tokenizer
              (λ v, match v with PyStr s => Ok s | _ => Raise ValueError
                    end)
              [PyStr "/tmp/tokenizer.model"]
              {["max_seq_len" := PyInt 2048]}) as [t|e] eqn:Ht;
    [|vm_compute in Ht; discriminate Ht].
  exists t. split; [reflexivity|].
  destruct (llama2_tokenizer_passes_arguments _ _ _ t Ht)
    as (Hp & Hm & Htr & Htpl).
  cbv zeta in Htpl.
  split_and!.
  - cbn in Hp. by apply (inj Some) in Hp.
  - rewrite Hm. vm_compute. reflexivity.
  - rewrite Htr. vm_compute. reflexivity.
  - assert (default
              (PyStr "torchtune.models.llama2.Llama2ChatTemplate")
              (match [PyStr "/tmp/tokenizer.model"] !! 2%nat with
               | Some a => Some a
               | None => ({["max_seq_len" := PyInt 2048]}
                            : gmap string pyval) !! "prompt_template"
               end)
            = PyStr "torchtune.models.llama2.Llama2ChatTemplate") as Hd
      by (vm_compute; reflexivity).
    rewrite Hd in Htpl. destruct Htpl as (tpl & Hg & Hr).
    apply Ok_inj in Hg. by subst tpl.
Defined.

Lemma llama2_tokenizer_without_template_witness :
  let failing : pyval → pyresult string := λ _, Raise ValueError in
  let kw : gmap string pyval := {["prompt_template" := PyNone]} in
  ∃ t, llama2_tokenizer failing [PyStr "/tmp/tokenizer.model"] kw = Ok t ∧
       prompt_template t = None.
Proof.
  cbv zeta.
  destruct (llama2_tokenizer (λ _, Raise ValueError : pyresult string)
              [PyStr "/tmp/tokenizer.model"]
              {["prompt_template" := PyNone]}) as [t|e] eqn:Ht;
    [|vm_compute in Ht; discriminate Ht].
  exists t. split; [reflexivity|].
  refine (proj2 (llama2_tokenizer_without_template
                   (λ _, Raise ValueError) (λ _, Raise ValueError)
                   [PyStr "/tmp/tokenizer.model"]
                   {["prompt_template" := PyNone]} _) t Ht).
  right. split; vm_compute; reflexivity.
Defined.

Lemma llama2_tokenizer_failures_witness :
  let get : pyval → pyresult string := λ v,
    match v with PyStr s => Ok s | _ => Raise ValueError end in
  let constructor : tokenizer_call string → pyresult unit := λ t,
    match path t with
    | PyStr "/tmp/tokenizer.model" => Ok ()
    | _ => Raise FileNotFoundError
    end in
  Delegate.returning constructor (llama2_tokenizer get) []
    {["max_seq_len" := PyInt 2048]} = Raise TypeError ∧
  Delegate.returning constructor (llama2_tokenizer get)
    [PyStr "/tmp/tokenizer.model"] {["prompt_template" := PyInt 3]}
    = Raise ValueError ∧
  Delegate.returning constructor (llama2_tokenizer get) [PyStr "/tmp/missing"] ∅
    = Raise FileNotFoundError ∧
  ∃ t, llama2_tokenizer get [PyStr "/tmp/missing"] ∅ = Ok t ∧
       constructor t = Raise FileNotFoundError.
Proof.
  cbv zeta.
  set (get := λ v, match v with PyStr s => Ok s | _ => Raise ValueError end
              : pyresult string).
  set (constructor := λ t : tokenizer_call string,
         match path t with
         | PyStr "/tmp/tokenizer.model" => Ok ()
         | _ => Raise FileNotFoundError
         end).
  assert (Delegate.returning constructor (llama2_tokenizer get)
            [PyStr "/tmp/missing"] ∅ = Raise FileNotFoundError) as H3
    by (vm_compute; reflexivity).
  split; [vm_compute; reflexivity|]. split; [vm_compute; reflexivity|].
  split; [exact H3|].
  destruct (llama2_tokenizer_failures get constructor _ _ _ H3)
    as [[He _]|[(_ & template & Htpl & Hg)|Hc]].
  - discriminate He.
  - exfalso. vm_compute in Htpl. subst template. discriminate Hg.
  - exact Hc.
Defined.

End TokenizerWitnesses.

(** * More about the quantization recipe *)

(** ** More about the file system operations *)

Section FsMoreFacts.
Import PyStr Fs.
Context {Content : Type}.
Implicit Types (σ : fs Content) (p : path).

Lemma os_mkdir_dirs σ p r σ' :
  os_mkdir σ p = (r, σ') →
  dirs σ' = dirs σ ∨ (r = Ok () ∧ dirs σ' = {[p]} ∪ dirs σ).
Proof.
  unfold os_mkdir. repeat case_match; intros Hrun;
    apply pair_inv in Hrun as [<- <-]; auto.
Qed.

Lemma Path_mkdir_dirs σ p b r σ' :
  Path_mkdir σ p b = (r, σ') →
  dirs σ' = dirs σ ∨ (r = Ok () ∧ dirs σ' = {[p]} ∪ dirs σ).
Proof.
  unfold Path_mkdir. destruct (os_mkdir σ p) as [r0 σ0] eqn:Hos.
  apply os_mkdir_dirs in Hos.
  repeat case_match; intros Hrun; apply pair_inv in Hrun as [<- <-];
    destruct Hos as [Hd|[Hr Hd]]; auto; discriminate Hr.
Qed.

(** After [mkdir(exist_ok=True)] has returned, the directory is there. *)
Lemma Path_mkdir_ok_is_dir σ p u σ' :
  Path_mkdir σ p true = (Ok u, σ') → is_dir σ' p = true.
Proof.
  unfold Path_mkdir. destruct (os_mkdir σ p) as [[u0|e] σ0] eqn:Hos.
  - intros Hrun. apply pair_inv in Hrun as [_ <-].
    unfold os_mkdir in Hos. repeat case_match;
      apply pair_inv in Hos as [Hr <-]; try discriminate Hr.
    apply is_dir_created.
  - destruct (is_dir σ0 p) eqn:Hd; cbn [negb orb];
      destruct e; intros Hrun; apply pair_inv in Hrun as [Hr <-];
      (discriminate Hr || exact Hd).
Qed.

(** [mkdir] leaves the files alone and adds at most its directory;
    [torch.save] leaves the directories alone and removes no file. *)
Lemma Path_mkdir_effect σ p b r σ' :
  Path_mkdir σ p b = (r, σ') →
  files σ' = files σ ∧ dirs σ ⊆ dirs σ' ∧ dirs σ' ⊆ {[p]} ∪ dirs σ.
Proof.
  intros Hm. split; [exact (Path_mkdir_files _ _ _ _ _ Hm)|].
  destruct (Path_mkdir_dirs _ _ _ _ _ Hm) as [Hd|[_ Hd]]; rewrite Hd.
  - split; [reflexivity|apply union_subseteq_r].
  - split; [apply union_subseteq_r|reflexivity].
Qed.

Lemma torch_save_effect σ x p r σ' :
  torch_save σ x p = (r, σ') →
  dirs σ' = dirs σ ∧ dom (files σ) ⊆ dom (files σ').
Proof.
  intros Hs. split; [exact (torch_save_dirs _ _ _ _ _ Hs)|].
  destruct r as [u|e].
  - apply torch_save_ok in Hs as [Hf _]. rewrite Hf.
    apply dom_insert_subseteq.
  - by rewrite (torch_save_raise _ _ _ _ _ Hs).
Qed.

Lemma getsize_saved (size : Content → Z) σ x p u σ' :
  torch_save σ x p = (Ok u, σ') → getsize size σ' p = Ok (size x).
Proof.
  intros Hs. apply torch_save_ok in Hs as [Hf _].
  unfold getsize. by rewrite Hf, lookup_insert_eq.
Qed.

Lemma with_suffix_name p suffix q :
  with_suffix p suffix = Ok q →
  name q = stem p +:+ suffix ∧ anchored q = anchored p ∧
  parent q = parent p.
Proof.
  unfold with_suffix. repeat case_match; intros Hq; try discriminate Hq.
  apply Ok_inj in Hq. subst q. unfold name, parent. cbn [parts anchored].
  rewrite last_snoc, removelast_last. done.
Qed.

End FsMoreFacts.

(** ** What each method reads and changes *)

Section RecipeFrames.
Import PyStr Fs Recipe Trace.
Context {Device Dtype Quantizer Checkpointer Model StateDict Rng : Type}.
Context `{!EqDecision Dtype}.
Context (env : @collaborators Device Dtype Quantizer Checkpointer Model
                 StateDict Rng).

#[local] Abbreviation world :=
  (@world Device Dtype Quantizer Checkpointer Model StateDict Rng).

Ltac show_events :=
  unfold new_events; cbn [fst snd]; world_simpl_goal;
  rewrite <- ?app_assoc; cbn [app]; rewrite ?drop_app_length.

(** X8: each method assigns only its own attributes of the recipe: the
    constructor never assigns the checkpointer or the model; [setup]
    never assigns the device, the dtype, the quantizer or the mode;
    [quantize] assigns no attribute but the model. *)
Theorem methods_assign_only_their_attributes cfg (w : world) :
  (let w' := (__init__ env cfg w).2 in
   _checkpointer (self w') = _checkpointer (self w) ∧
   _model (self w') = _model (self w)) ∧
  (let w' := (setup env cfg w).2 in
   _device (self w') = _device (self w) ∧
   _dtype (self w') = _dtype (self w) ∧
   _quantizer (self w') = _quantizer (self w) ∧
   _quantization_mode (self w') = _quantization_mode (self w)) ∧
  (let w' := (quantize env cfg w).2 in
   _device (self w') = _device (self w) ∧
   _dtype (self w') = _dtype (self w) ∧
   _quantizer (self w') = _quantizer (self w) ∧
   _quantization_mode (self w') = _quantization_mode (self w) ∧
   _checkpointer (self w') = _checkpointer (self w)).
Proof.
  destruct w as [[dv dty qz qm ck md] t d g c]. cbv zeta. split_and!.
  1-2: destruct (__init__ env cfg _) as [r w'] eqn:H;
    run_inv H; reflexivity.
  1-4: destruct (setup env cfg _) as [r w'] eqn:H;
    run_inv H; reflexivity.
  all: destruct (quantize env cfg _) as [r w'] eqn:H;
    run_inv H; reflexivity.
Qed.

End RecipeFrames.

(** ** The methods at the edges *)

Section RecipeEdges.
Import PyStr Fs Recipe Trace.
Context {Device Dtype Quantizer Checkpointer Model StateDict Rng : Type}.
Context `{!EqDecision Dtype}.
Context (env : @collaborators Device Dtype Quantizer Checkpointer Model
                 StateDict Rng).

#[local] Abbreviation world :=
  (@world Device Dtype Quantizer Checkpointer Model StateDict Rng).

Ltac show_events :=
  unfold new_events; cbn [fst snd]; world_simpl_goal;
  rewrite <- ?app_assoc; cbn [app]; rewrite ?drop_app_length.

Ltac absurd_run :=
  first [ congruence
        | exfalso; eapply split_first_piece; eassumption ].

(** X9: on a recipe that has no model yet, as after the constructor
    alone, [quantize] raises [AttributeError] having only read the
    clock, and [save_checkpoint] raises [AttributeError] at once; no
    quantizer method is called, the recipe object and the disk stay as
    they were. *)
Theorem methods_need_setup cfg (w : world) q s :
  _quantizer (self w) = Some q →
  _quantization_mode (self w) = Some (Some s) →
  _model (self w) = None →
  (let run := quantize env cfg w in
   run.1 = Raise AttributeError ∧
   new_events w run.2 = [(PerfCounter, None)] ∧
   self run.2 = self w ∧ rng run.2 = rng w) ∧
  (let run := save_checkpoint env cfg w in
   run.1 = Raise AttributeError ∧
   new_events w run.2 = [] ∧ disk run.2 = disk w).
Proof.
  destruct w as [[dv dty qz qm ck md] t d g c].
  cbn [self _quantizer _quantization_mode _model].
  intros -> -> ->. cbv zeta. split.
  - destruct (quantize env cfg _) as [r w'] eqn:H.
    run_inv H; show_events; try absurd_run; done.
  - destruct (save_checkpoint env cfg _) as [r w'] eqn:H.
    run_inv H; show_events; try absurd_run.
    rewrite drop_all. done.
Qed.

(** X10: with the quantization mode [None], which is what a quantizer
    of no known mode has, the test ["qat" in mode] raises [TypeError]:
    [quantize] fails having only read the clock, and [_setup_model]
    fails right after it has instantiated the model, before any state
    dict is loaded. *)
Theorem mode_none_is_type_error cfg mcfg sd (w : world) dt dev :
  _quantization_mode (self w) = Some None →
  _dtype (self w) = Some dt →
  _device (self w) = Some dev →
  (let run := quantize env cfg w in
   run.1 = Raise TypeError ∧
   new_events w run.2 = [(PerfCounter, None)] ∧
   self run.2 = self w) ∧
  (let run := _setup_model env mcfg sd w in
   let built := instantiate_model env mcfg dt dev (rng w) in
   new_events w run.2 = [(InstantiateModel, raised built.1)] ∧
   run.1 = match built.1 with
           | Ok _ => Raise TypeError
           | Raise e => Raise e
           end ∧
   self run.2 = self w).
Proof.
  destruct w as [[dv dty qz qm ck md] t d g c].
  cbn [self _quantization_mode _dtype _device rng].
  intros -> -> ->. cbv zeta. split.
  - destruct (quantize env cfg _) as [r w'] eqn:H.
    run_inv H; show_events; done.
  - destruct (_setup_model env mcfg sd _) as [r w'] eqn:H.
    run_inv H; show_events;
      repeat match goal with
      | Hc : ?x = (_, _) |- context [?x] => rewrite Hc
      end; cbn [fst snd raised]; done.
Qed.

(** X11: when the loaded checkpoint has no entry under [MODEL_KEY],
    [setup] raises [KeyError] after the two checkpointer calls: the
    checkpointer is assigned, but no model is instantiated or assigned
    and the random generator is not used. *)
Theorem setup_without_model_key cfg (w : world) c d :
  instantiate_checkpointer env (checkpointer cfg) = Ok c →
  checkpointer_load_checkpoint env c = Ok d →
  d !! MODEL_KEY env = None →
  let run := setup env cfg w in
  run.1 = Raise KeyError ∧
  new_events w run.2
    = [(InstantiateCheckpointer, None); (LoadCheckpoint, None)] ∧
  _checkpointer (self run.2) = Some c ∧
  _model (self run.2) = _model (self w) ∧
  rng run.2 = rng w.
Proof.
  destruct w as [[dv dty qz qm ck md] t d0 g c0].
  intros Hc Hd Hkey. cbv zeta.
  destruct (setup env cfg _) as [r w'] eqn:H.
  run_inv H; show_events; try congruence.
  all: rewrite Hc in *;
    repeat match goal with
    | Hx : Ok _ = Ok _ |- _ => apply Ok_inj in Hx; subst
    end; try congruence.
  all: try done.
Qed.

(** X12: with an empty list of checkpoint files, [save_checkpoint]
    raises [IndexError] after it has taken the state dict of the model,
    before any directory or file is made. *)
Theorem save_checkpoint_without_files cfg (w : world) m sd :
  _model (self w) = Some m →
  state_dict env m = Ok sd →
  checkpoint_files (checkpointer cfg) = [] →
  let run := save_checkpoint env cfg w in
  run.1 = Raise IndexError ∧
  new_events w run.2 = [(GetStateDict, None)] ∧
  disk run.2 = disk w.
Proof.
  destruct w as [[dv dty qz qm ck md] t d g c]. cbn [self _model].
  intros -> Hsd Hnil. cbv zeta.
  destruct (save_checkpoint env cfg _) as [r w'] eqn:H.
  run_inv H; show_events; rewrite ?Hsd in *; try absurd_run;
    try (rewrite Hnil in *; discriminate); done.
Qed.

End RecipeEdges.

(** ** What [quantize] and [save_checkpoint] do when they return *)

Section RecipeResults.
Import PyStr Fs Recipe Trace.
Context {Device Dtype Quantizer Checkpointer Model StateDict Rng : Type}.
Context `{!EqDecision Dtype}.
Context (env : @collaborators Device Dtype Quantizer Checkpointer Model
                 StateDict Rng).

#[local] Abbreviation world :=
  (@world Device Dtype Quantizer Checkpointer Model StateDict Rng).

Ltac show_events :=
  unfold new_events; cbn [fst snd]; world_simpl_goal;
  rewrite <- ?app_assoc; cbn [app]; rewrite ?drop_app_length.

Ltac absurd_run :=
  first [ congruence
        | exfalso; eapply split_first_piece; eassumption ].

Ltac decide_closed := apply (bool_decide_unpack _); vm_compute; exact I.

(** X13: [save_checkpoint] changes nothing but the disk, and on the disk
    it removes nothing: the recipe object, the random generator and the
    clock are as before, every directory and every file that was there
    is still there, and the only directory that can be new is the output
    directory. *)
Theorem save_checkpoint_changes_only_the_disk cfg (w : world) :
  let w' := (save_checkpoint env cfg w).2 in
  self w' = self w ∧ rng w' = rng w ∧ clock w' = clock w ∧
  dirs (disk w) ⊆ dirs (disk w') ∧
  dirs (disk w') ⊆ {[parse (output_dir (checkpointer cfg))]} ∪ dirs (disk w) ∧
  dom (files (disk w)) ⊆ dom (files (disk w')).
Proof.
  destruct w as [s t d g c]. cbv zeta.
  destruct (save_checkpoint env cfg _) as [r w'] eqn:H.
  run_inv H; cbn [fst snd]; world_simpl_goal;
    repeat match goal with
    | Hm : Path_mkdir _ _ _ = _ |- _ =>
        destruct (Path_mkdir_effect _ _ _ _ _ Hm) as (? & ? & ?);
        clear Hm
    | Hs : torch_save _ _ _ = _ |- _ =>
        destruct (torch_save_effect _ _ _ _ _ Hs) as (? & ?); clear Hs
    end;
    repeat match goal with
    | Hf : files _ = files _ |- _ => rewrite Hf in *; clear Hf
    | Hd : dirs _ = dirs _ |- _ => rewrite Hd in *; clear Hd
    end;
    split_and!;
    first [assumption | reflexivity | apply union_subseteq_r].
Qed.

(** X14: what [quantize] reports.  On the CPU it never asks for the
    device namespace or the allocated memory.  When it returns, its
    calls are: the clock, the one quantizer method, the clock, the log
    of the difference of the two readings, and on another device than
    the CPU the device namespace, the allocated memory and the log of
    that number. *)
Theorem quantize_reports_time_and_memory cfg (w : world) dev :
  _device (self w) = Some dev →
  let run := quantize env cfg w in
  let t := new_events w run.2 in
  let t0 := hd 0 (clock w) in
  let t1 := hd 0 (tl (clock w)) in
  (device_type env dev = "cpu" →
     ("utils.get_torch_device_namespace" ∉ names t) ∧
     ("torch_device.max_memory_allocated" ∉ names t)) ∧
  (is_ok run.1 = true →
     ∃ method,
       (method = Convert ∨ method = Quantize) ∧
       (let timed := [(PerfCounter, None); (method, None);
                      (PerfCounter, None);
                      (LoggerInfo (MsgQuantTime (t1 - t0)), None)] in
        if bool_decide (device_type env dev = "cpu") then t = timed
        else ∃ bytes,
          max_memory_allocated env = Ok bytes ∧
          t = timed ++ [(GetTorchDeviceNamespace, None);
                        (MaxMemoryAllocated, None);
                        (LoggerInfo (MsgMemory bytes), None)])).
Proof.
  destruct w as [[dv dty qz qm ck md] t d g c]. cbn [self _device clock].
  intros ->. cbv zeta.
  destruct (quantize env cfg _) as [r w'] eqn:H.
  run_inv H; show_events.
  all: split;
    [ intros Hcpu;
      try (match goal with
           | Hb : bool_decide _ = true |- _ =>
               apply bool_decide_eq_true in Hb; destruct (Hb Hcpu)
           end);
      split; decide_closed
    | first [intros Hok; discriminate Hok | intros _] ].
  all: match goal with
       | |- context [(Convert, None)] => exists Convert
       | |- context [(Quantize, None)] => exists Quantize
       end;
    (split; [auto|]); cbv zeta;
    match goal with
    | Hb : bool_decide (_ ≠ _) = true |- _ =>
        apply bool_decide_eq_true in Hb;
        rewrite bool_decide_eq_false_2 by exact Hb;
        eexists; split; [eassumption|reflexivity]
    | Hb : bool_decide (_ ≠ _) = false |- _ =>
        apply bool_decide_eq_false in Hb; apply dec_stable in Hb;
        rewrite bool_decide_eq_true_2 by exact Hb; reflexivity
    end.
Qed.

End RecipeResults.

(** ** The checkpoint that is written *)

Section SavedCheckpoint.
Import PyStr Fs Recipe Trace.
Context {Device Dtype Quantizer Checkpointer Model StateDict Rng : Type}.
Context `{!EqDecision Dtype}.
Context (env : @collaborators Device Dtype Quantizer Checkpointer Model
                 StateDict Rng).

#[local] Abbreviation world :=
  (@world Device Dtype Quantizer Checkpointer Model StateDict Rng).

Ltac show_events :=
  unfold new_events; cbn [fst snd]; world_simpl_goal;
  rewrite <- ?app_assoc; cbn [app]; rewrite ?drop_app_length.

Ltac absurd_run :=
  first [ congruence
        | exfalso; eapply split_first_piece; eassumption ].

(** X15: when [save_checkpoint] returns, it has written the state dict
    of the recipe's model, replacing what the file held, to the path
    made of the output directory, the first checkpoint file name up to
    its first dot, the mode and the suffix [.ckpt]; the output directory
    exists; and the size it logs is the size of what it has just
    written. *)
Theorem save_checkpoint_writes_state_dict cfg (w w' : world) u :
  save_checkpoint env cfg w = (Ok u, w') →
  ∃ m sd f file_name mode p,
    _model (self w) = Some m ∧
    state_dict env m = Ok sd ∧
    checkpoint_files (checkpointer cfg) !! 0%nat = Some f ∧
    split "." f !! 0%nat = Some file_name ∧
    _quantization_mode (self w) = Some mode ∧
    with_suffix
      (joinpath (parse (output_dir (checkpointer cfg)))
         (rstrip "-qat" (file_name +:+ "-" +:+ str_of_optional mode)))
      ".ckpt" = Ok p ∧
    (∃ stem, name p = stem +:+ ".ckpt") ∧
    files (disk w') = <[p := sd]> (files (disk w)) ∧
    is_dir (disk w') (parse (output_dir (checkpointer cfg))) = true ∧
    last (new_events w w')
      = Some (LoggerInfo (MsgSaved (serialized_size env sd) p), None).
Proof.
  destruct w as [[dv dty qz qm ck md] t d g c]. intros H.
  run_inv H; show_events.
  match goal with
  | Hm : Path_mkdir _ _ _ = _, Hs : torch_save _ _ _ = _,
    Hg : getsize _ _ _ = _, Hw : with_suffix _ _ = _ |- _ =>
      pose proof (Path_mkdir_files _ _ _ _ _ Hm) as Hfiles;
      pose proof (Path_mkdir_ok_is_dir _ _ _ _ Hm) as Hdir;
      pose proof (torch_save_dirs _ _ _ _ _ Hs) as Hdirs;
      rewrite (getsize_saved _ _ _ _ _ _ Hs) in Hg;
      apply Ok_inj in Hg; subst;
      apply torch_save_ok in Hs as [Hsaved _];
      pose proof (with_suffix_name _ _ _ Hw) as (Hname & _ & _)
  end.
  do 6 eexists. split_and!; try eassumption; try reflexivity.
  - eexists. exact Hname.
  - by rewrite Hsaved, Hfiles.
  - by rewrite (is_dir_dirs _ _ _ Hdirs).
Qed.

(** A string keeps its first character through [split] and, when
    that character is not stripped, through [rstrip]. *)
Lemma split_first_head sep ch s piece :
  Ascii.eqb ch sep = false →
  split sep (String ch s) !! 0%nat = Some piece →
  ∃ rest, piece = String ch rest.
Proof.
  intros Hne. cbn [split]. rewrite Hne.
  destruct (split sep s) as [|h tl]; intros Hp; cbn in Hp;
    apply (inj Some) in Hp; subst piece; eauto.
Qed.

Lemma rstrip_head chars ch s :
  mem ch chars = false → ∃ rest, rstrip chars (String ch s) = String ch rest.
Proof.
  intros Hm. cbn [rstrip]. rewrite Hm.
  destruct (rstrip chars s); eauto.
Qed.

Lemma parse_absolute s : anchored (parse (String "/" s)) = true.
Proof.
  unfold parse. cbn [anchored]. cbn [String.prefix].
  destruct (ascii_dec "/" "/"); [by destruct s|done].
Qed.

Lemma joinpath_absolute out s :
  joinpath out (String "/" s) = parse (String "/" s).
Proof. unfold joinpath. by rewrite parse_absolute. Qed.

(** The path that [torch.save] is given when the first checkpoint file
    is an absolute path. *)
Lemma absolute_file_saved_path cfg (w : world)
    f file_name mode :
  checkpoint_files (checkpointer cfg) !! 0%nat = Some f →
  String.prefix "/" f = true →
  split "." f !! 0%nat = Some file_name →
  _quantization_mode (self w) = Some mode →
  ∀ p o, (TorchSave p, o) ∈ new_events w (save_checkpoint env cfg w).2 →
    with_suffix
      (parse (rstrip "-qat" (file_name +:+ "-" +:+ str_of_optional mode)))
      ".ckpt" = Ok p ∧
    anchored p = true.
Proof.
  destruct w as [[dv dty qz qm ck md] t d g c].
  cbn [self _quantization_mode].
  intros Hf Habs Hsplit -> p o.
  destruct f as [|ch f]; [discriminate Habs|].
  assert (ch = "/"%char) as ->.
  { cbn [String.prefix] in Habs.
    destruct (ascii_dec "/" ch) as [<-|]; [reflexivity|discriminate Habs]. }
  destruct (split_first_head "." "/" f file_name eq_refl Hsplit)
    as [rest ->].
  destruct (rstrip_head "-qat" "/"
              (rest +:+ "-" +:+ str_of_optional mode) eq_refl)
    as [kept Hkept].
  change (String "/" rest +:+ "-" +:+ str_of_optional mode)
    with (String "/" (rest +:+ "-" +:+ str_of_optional mode)).
  destruct (save_checkpoint env cfg _) as [r w'] eqn:H.
  run_inv H; show_events; rewrite ?drop_all; intros Hin;
    repeat (apply elem_of_cons in Hin as [Hin|Hin];
            [try discriminate Hin|]);
    try (apply elem_of_nil in Hin; destruct Hin).
  all: apply pair_inv in Hin as [Hp _];
    apply (f_equal (λ c, match c with TorchSave q => q | _ => p end))
      in Hp; subst p;
    rewrite Hf in *;
    repeat match goal with
    | Hx : Some _ = Some _ |- _ => apply (inj Some) in Hx; subst
    end;
    rewrite Hsplit in *;
    repeat match goal with
    | Hx : Some _ = Some _ |- _ => apply (inj Some) in Hx; subst
    end.
  all: match goal with
    | Hw : with_suffix _ _ = Ok ?q |- _ =>
        change (String "/" rest +:+ "-" +:+ str_of_optional mode)
          with (String "/" (rest +:+ "-" +:+ str_of_optional mode)) in Hw;
        rewrite Hkept in Hw; rewrite joinpath_absolute in Hw;
        rewrite Hkept; split; [exact Hw|];
        apply with_suffix_name in Hw as (_ & -> & _); apply parse_absolute
    end.
Qed.

(** X16: with a first checkpoint file given by an absolute path, the
    path handed to [torch.save] is absolute and is made of that file
    name and the mode alone: [Path.joinpath] drops the output directory,
    so a configuration with the same checkpoint files saves to the same
    path whatever its output directory is. *)
Theorem absolute_checkpoint_file_ignores_output_dir cfg (w : world)
    f file_name mode :
  checkpoint_files (checkpointer cfg) !! 0%nat = Some f →
  String.prefix "/" f = true →
  split "." f !! 0%nat = Some file_name →
  _quantization_mode (self w) = Some mode →
  ∀ p o, (TorchSave p, o) ∈ new_events w (save_checkpoint env cfg w).2 →
    with_suffix
      (parse (rstrip "-qat" (file_name +:+ "-" +:+ str_of_optional mode)))
      ".ckpt" = Ok p ∧
    anchored p = true ∧
    ∀ cfg' p' o',
      checkpoint_files (checkpointer cfg')
        = checkpoint_files (checkpointer cfg) →
      (TorchSave p', o') ∈ new_events w (save_checkpoint env cfg' w).2 →
      p' = p.
Proof.
  intros Hf Habs Hsplit Hmode p o Hin.
  destruct (absolute_file_saved_path cfg w f file_name mode Hf Habs Hsplit
              Hmode p o Hin) as [Hp Ha].
  split; [exact Hp|]. split; [exact Ha|].
  intros cfg' p' o' Hfiles Hin'. rewrite <- Hfiles in Hf.
  destruct (absolute_file_saved_path cfg' w f file_name mode Hf Habs
              Hsplit Hmode p' o' Hin') as [Hp' _].
  rewrite Hp in Hp'. by apply Ok_inj in Hp'.
Qed.

End SavedCheckpoint.

(** ** From the configuration to the saved file *)

Section MainDataFlow.
Import PyStr Fs Recipe Trace.
Context {Device Dtype Quantizer Checkpointer Model StateDict Rng : Type}.
Context `{!EqDecision Dtype}.
Context (env : @collaborators Device Dtype Quantizer Checkpointer Model
                 StateDict Rng).

#[local] Abbreviation world :=
  (@world Device Dtype Quantizer Checkpointer Model StateDict Rng).

(** X17: when [main] returns, the file it has written holds the state
    dict of the model that was instantiated with the configured dtype
    on the configured device after seeding, prepared when the mode
    contains ["qat"], loaded with the checkpoint's entry under
    [MODEL_KEY], and converted or quantized by the configured
    quantizer; the random generator went through these calls in this
    order, and the recipe object holds the device, the dtype, the
    quantizer, its mode, the checkpointer and the quantized model. *)
Theorem main_saves_the_quantized_model cfg (w w' : world) u :
  main env cfg w = (Ok u, w') →
  ∃ dev dt q mode c ckpt sd0 g0 m0 g1 m1 g2 m2 m3 g3 sd p,
    get_device env (device cfg) = Ok dev ∧
    get_dtype env (dtype cfg) dev = Ok dt ∧
    instantiate_quantizer env (quantizer cfg) = Ok q ∧
    get_quantizer_mode env q = Ok (Some mode) ∧
    set_seed env (seed cfg) (cudnn_deterministic_mode cfg) (rng w)
      = (Ok (), g0) ∧
    instantiate_checkpointer env (checkpointer cfg) = Ok c ∧
    checkpointer_load_checkpoint env c = Ok ckpt ∧
    ckpt !! MODEL_KEY env = Some sd0 ∧
    instantiate_model env (model cfg) dt dev g0 = (Ok m0, g1) ∧
    (if contains "qat" mode
     then quantizer_prepare env q m0 g1 = (Ok m1, g2)
     else (m1, g2) = (m0, g1)) ∧
    load_state_dict env m1 sd0 = Ok m2 ∧
    (if contains "qat" mode
     then quantizer_convert env q m2 g2
     else quantizer_quantize env q m2 g2) = (Ok m3, g3) ∧
    state_dict env m3 = Ok sd ∧
    files (disk w') = <[p := sd]> (files (disk w)) ∧
    self w' = RecipeObj (Some dev) (Some dt) (Some q) (Some (Some mode))
                (Some c) (Some m3) ∧
    rng w' = g3.
Proof.
  destruct w as [s t d g c]. intros H.
  run_inv H; world_simpl_goal; try (exfalso; congruence);
    repeat match goal with x : unit |- _ => destruct x end;
    match goal with
    | Hm : Path_mkdir _ _ _ = _, Hs : torch_save _ _ _ = _ |- _ =>
        apply Path_mkdir_files in Hm;
        apply torch_save_ok in Hs as [Hs _]; rewrite Hm in Hs
    end;
    match goal with
    | Hq : contains "qat" _ = _ |- _ =>
        do 17 eexists; split_and!;
          rewrite ?Hq; try eassumption; try reflexivity
    end.
Qed.

End MainDataFlow.

(** ** When the saved file has the intended name *)

Section FileNameMore.
Import PyStr Fs Recipe.

Lemma append_assoc_string (a b c : string) :
  (a +:+ b) +:+ c = a +:+ (b +:+ c).
Proof.
  induction a as [|ch a IH]; [reflexivity|].
  change (String ch ((a +:+ b) +:+ c) = String ch (a +:+ (b +:+ c))).
  by rewrite IH.
Qed.

(** A string either ends in the suffix that [removesuffix] removes, or
    comes back unchanged. *)
Lemma removesuffix_cases suffix s :
  s = removesuffix suffix s +:+ suffix ∨ removesuffix suffix s = s.
Proof.
  induction s as [|ch s IH]; cbn [removesuffix].
  - destruct (String.eqb "" suffix); by right.
  - destruct (String.eqb_spec (String ch s) suffix) as [Heq|Hne].
    + left. by rewrite Heq.
    + destruct IH as [IH|IH].
      * left. change (String ch s = String ch (removesuffix suffix s +:+ suffix)).
        by rewrite <- IH.
      * right. by rewrite IH.
Qed.

(** An ending that is stripped entirely lets the stripping go on in
    what precedes it. *)
Lemma rstrip_app_strip chars s t :
  rstrip chars t = "" → rstrip chars (s +:+ t) = rstrip chars s.
Proof.
  intros Ht. induction s as [|ch s IH]; [exact Ht|].
  change (String ch s +:+ t) with (String ch (s +:+ t)).
  cbn [rstrip]. by rewrite IH.
Qed.

Lemma rstrip_snoc_keep chars s ch :
  mem ch chars = false →
  rstrip chars (s +:+ String ch "") = s +:+ String ch "".
Proof.
  intros Hm.
  assert (rstrip chars (String ch "") = String ch "") as Hlast
    by (cbn [rstrip]; by rewrite Hm).
  rewrite rstrip_app_keep; rewrite Hlast; [reflexivity|discriminate].
Qed.

(** X18: [rstrip("-qat")] gives the intended file name whenever the
    mode, taken without a trailing ["-qat"], ends in a character other
    than [-], [q], [a] and [t]: the name is then the file name, a
    hyphen, and the mode without that ending. *)
Theorem checkpoint_name_drops_qat_suffix file_name mode base ch :
  removesuffix "-qat" mode = base +:+ String ch "" →
  mem ch "-qat" = false →
  rstrip "-qat" (file_name +:+ "-" +:+ mode)
    = file_name +:+ "-" +:+ removesuffix "-qat" mode.
Proof.
  intros Hbase Hch.
  assert (rstrip "-qat" (file_name +:+ "-" +:+ removesuffix "-qat" mode)
          = file_name +:+ "-" +:+ removesuffix "-qat" mode) as Hkeep.
  { rewrite Hbase, <- !append_assoc_string.
    by apply rstrip_snoc_keep. }
  destruct (removesuffix_cases "-qat" mode) as [Hqat|Hsame].
  - rewrite Hqat at 1. rewrite <- !append_assoc_string.
    rewrite rstrip_app_strip by reflexivity.
    rewrite !append_assoc_string. exact Hkeep.
  - rewrite Hsame in *. exact Hkeep.
Qed.

Lemma checkpoint_name_drops_qat_suffix_witness :
  rstrip "-qat" ("hf_model_0001_0" +:+ "-" +:+ "8da4w-qat")
    = "hf_model_0001_0-8da4w".
Proof.
  exact (checkpoint_name_drops_qat_suffix "hf_model_0001_0" "8da4w-qat"
           "8da4" "w" eq_refl eq_refl).
Defined.

End FileNameMore.

(** ** The file that [save_checkpoint] writes *)

Section SavedName.
Import PyStr Fs Recipe Trace.










End SavedName.

Section SavedFile.
Import PyStr Fs Recipe Trace.
Context {Device Dtype Quantizer Checkpointer Model StateDict Rng : Type}.
Context `{!EqDecision Dtype}.
Context (env : @collaborators Device Dtype Quantizer Checkpointer Model
                 StateDict Rng).

#[local] Abbreviation world :=
  (@world Device Dtype Quantizer Checkpointer Model StateDict Rng).


End SavedFile.

Section SavedFileWitness.
Import PyStr Fs Recipe Trace.


End SavedFileWitness.

(** ** The further facts at concrete configurations *)

Section MoreWitnesses.
Import PyStr Fs Recipe Trace.

#[local] Abbreviation params :=
  [("tok_embeddings.weight", "bf16"); ("output.weight", "bf16")].

Lemma methods_need_setup_witness :
  let cfg := Demo.cfg "8da4w" in
  let w := (__init__ Demo.env cfg Demo.world0).2 in
  _model (self w) = None ∧
  (quantize Demo.env cfg w).1 = Raise AttributeError ∧
  (save_checkpoint Demo.env cfg w).1 = Raise AttributeError ∧
  disk (save_checkpoint Demo.env cfg w).2 = disk w.
Proof.
  cbv zeta.
  assert (_quantizer (self (__init__ Demo.env (Demo.cfg "8da4w")
                              Demo.world0).2) = Some "8da4w")
    as H1 by (vm_compute; reflexivity).
  assert (_quantization_mode (self (__init__ Demo.env (Demo.cfg "8da4w")
                                      Demo.world0).2)
          = Some (Some "8da4w")) as H2 by (vm_compute; reflexivity).
  assert (_model (self (__init__ Demo.env (Demo.cfg "8da4w")
                          Demo.world0).2) = None)
    as H3 by (vm_compute; reflexivity).
  split; [exact H3|].
  destruct (methods_need_setup Demo.env (Demo.cfg "8da4w") _ _ _ H1 H2 H3)
    as [(Hq & _) (Hs & _ & Hd)].
  split; [exact Hq|]. split; [exact Hs|exact Hd].
Defined.

Lemma mode_none_is_type_error_witness :
  let w : @world string string string (list string)
            (list (string * string)) (list (string * string)) Z :=
    World (RecipeObj (Some "cpu") (Some "bf16") (Some "custom")
             (Some None) None None) [] (Fs ∅ ∅) 0 [] in
  (quantize Demo.env (Demo.cfg "custom") w).1 = Raise TypeError ∧
  (_setup_model Demo.env (PyStr "model") params w).1 = Raise TypeError.
Proof.
  cbv zeta.
  destruct (mode_none_is_type_error Demo.env (Demo.cfg "custom")
              (PyStr "model") params
              (World (RecipeObj (Some "cpu") (Some "bf16") (Some "custom")
                        (Some None) None None) [] (Fs ∅ ∅) 0 [])
              "bf16" "cpu" eq_refl eq_refl eq_refl)
    as [(Hq & _) (_ & Hs & _)].
  split; [exact Hq|exact Hs].
Defined.

Lemma setup_without_model_key_witness :
  let env := Scenarios.env_with Some {["weights" := params]} in
  let cfg := Demo.cfg "8da4w" in
  let w := (__init__ env cfg Demo.world0).2 in
  (setup env cfg w).1 = Raise KeyError ∧
  _checkpointer (self (setup env cfg w).2) = Some ["model.pt"] ∧
  _model (self (setup env cfg w).2) = None.
Proof.
  cbv zeta.
  assert (({["weights" := params]} : gmap string _)
            !! MODEL_KEY (Scenarios.env_with Some {["weights" := params]})
          = None) as Hkey by (vm_compute; reflexivity).
  destruct (setup_without_model_key
              (Scenarios.env_with Some {["weights" := params]})
              (Demo.cfg "8da4w")
              (__init__ (Scenarios.env_with Some {["weights" := params]})
                 (Demo.cfg "8da4w") Demo.world0).2
              ["model.pt"] {["weights" := params]}
              eq_refl eq_refl Hkey) as (Hr & _ & Hc & Hm & _).
  split; [exact Hr|]. split; [exact Hc|].
  rewrite Hm. vm_compute. reflexivity.
Defined.

Lemma save_checkpoint_without_files_witness :
  let cfg := Scenarios.cfg_with "cpu" [] in
  let w := Demo.world_ready "8da4w" in
  (save_checkpoint Demo.env cfg w).1 = Raise IndexError ∧
  disk (save_checkpoint Demo.env cfg w).2 = disk w.
Proof.
  cbv zeta.
  assert (_model (self (Demo.world_ready "8da4w")) = Some params)
    as H1 by (vm_compute; reflexivity).
  destruct (save_checkpoint_without_files Demo.env
              (Scenarios.cfg_with "cpu" []) _ params params
              H1 eq_refl eq_refl) as (Hr & _ & Hd).
  split; [exact Hr|exact Hd].
Defined.

Lemma quantize_reports_time_and_memory_witness :
  let cfg := Scenarios.cfg_with "cuda" ["model.pt"] in
  let w := (setup Demo.env cfg (__init__ Demo.env cfg Demo.world0).2).2 in
  _device (self w) = Some "cuda" ∧
  ∃ method bytes,
    new_events w (quantize Demo.env cfg w).2
    = [(PerfCounter, None); (method, None); (PerfCounter, None);
       (LoggerInfo (MsgQuantTime (25 - 10)), None);
       (GetTorchDeviceNamespace, None); (MaxMemoryAllocated, None);
       (LoggerInfo (MsgMemory bytes), None)].
Proof.
  cbv zeta.
  assert (_device (self (setup Demo.env
                           (Scenarios.cfg_with "cuda" ["model.pt"])
                           (__init__ Demo.env
                              (Scenarios.cfg_with "cuda" ["model.pt"])
                              Demo.world0).2).2) = Some "cuda")
    as H1 by (vm_compute; reflexivity).
  split; [exact H1|].
  destruct (quantize_reports_time_and_memory Demo.env
              (Scenarios.cfg_with "cuda" ["model.pt"]) _ "cuda" H1)
    as [_ Hok].
  destruct Hok as (method & _ & Hshape); [vm_compute; reflexivity|].
  cbv zeta in Hshape.
  rewrite bool_decide_eq_false_2 in Hshape by discriminate.
  destruct Hshape as (bytes & _ & Hshape).
  exists method, bytes. exact Hshape.
Defined.

Lemma save_checkpoint_writes_state_dict_witness :
  let cfg := Demo.cfg "8da4w" in
  let w := Demo.world_ready "8da4w" in
  let w' := (save_checkpoint Demo.env cfg w).2 in
  (save_checkpoint Demo.env cfg w).1 = Ok () ∧
  ∃ sd p, state_dict Demo.env params = Ok sd ∧
          files (disk w') = <[p := sd]> (files (disk w)) ∧
          is_dir (disk w') (parse "out") = true.
Proof.
  cbv zeta.
  assert ((save_checkpoint Demo.env (Demo.cfg "8da4w")
             (Demo.world_ready "8da4w")).1 = Ok ()) as Hr
    by (vm_compute; reflexivity).
  split; [exact Hr|].
  destruct (save_checkpoint Demo.env (Demo.cfg "8da4w")
              (Demo.world_ready "8da4w")) as [r w'] eqn:H.
  cbn [fst snd] in *. subst r.
  destruct (save_checkpoint_writes_state_dict Demo.env _ _ _ _ H)
    as (m & sd & f & file_name & mode & p & Hm & Hsd & _ & _ & _ & _ & _
        & Hfiles & Hdir & _).
  assert (_model (self (Demo.world_ready "8da4w")) = Some params)
    as Hm' by (vm_compute; reflexivity).
  rewrite Hm' in Hm. apply (inj Some) in Hm. subst m.
  exists sd, p. split; [exact Hsd|]. split; [exact Hfiles|exact Hdir].
Defined.

Lemma absolute_checkpoint_file_ignores_output_dir_witness :
  let cfg := Scenarios.cfg_with "cpu" ["/data/model.pt"] in
  let w := World (self (Demo.world_ready "8da4w")) []
             (Fs {[Path true ["data"]]} ∅) 0 [] in
  let p := Path true ["data"; "model-8da4w.ckpt"] in
  (TorchSave p, None) ∈ new_events w (save_checkpoint Demo.env cfg w).2 ∧
  with_suffix (parse "/data/model-8da4w") ".ckpt" = Ok p ∧
  anchored p = true.
Proof.
  cbv zeta.
  assert ((TorchSave (Path true ["data"; "model-8da4w.ckpt"]), None)
          ∈ new_events
              (World (self (Demo.world_ready "8da4w")) []
                 (Fs {[Path true ["data"]]} ∅) 0 [])
              (save_checkpoint Demo.env
                 (Scenarios.cfg_with "cpu" ["/data/model.pt"])
                 (World (self (Demo.world_ready "8da4w")) []
                    (Fs {[Path true ["data"]]} ∅) 0 [])).2) as Hin.
  { assert (new_events
              (World (self (Demo.world_ready "8da4w")) []
                 (Fs {[Path true ["data"]]} ∅) 0 [])
              (save_checkpoint Demo.env
                 (Scenarios.cfg_with "cpu" ["/data/model.pt"])
                 (World (self (Demo.world_ready "8da4w")) []
                    (Fs {[Path true ["data"]]} ∅) 0 [])).2
            = [(GetStateDict, None); (Mkdir (Path false ["out"]), None);
               (TorchSave (Path true ["data"; "model-8da4w.ckpt"]), None);
               (Getsize (Path true ["data"; "model-8da4w.ckpt"]), None);
               (LoggerInfo
                  (MsgSaved 2 (Path true ["data"; "model-8da4w.ckpt"])),
                None)]) as -> by (vm_compute; reflexivity).
    do 2 apply list_elem_of_further. apply list_elem_of_here. }
  split; [exact Hin|].
  assert (_quantization_mode
            (self (World (self (Demo.world_ready "8da4w")) []
                     (Fs {[Path true ["data"]]} ∅) 0 []
                   : @world string string string (list string)
                       (list (string * string)) (list (string * string))
                       Z))
          = Some (Some "8da4w")) as Hmode by (vm_compute; reflexivity).
  destruct (absolute_checkpoint_file_ignores_output_dir Demo.env
              (Scenarios.cfg_with "cpu" ["/data/model.pt"]) _
              "/data/model.pt" "/data/model" (Some "8da4w")
              eq_refl eq_refl eq_refl Hmode _ _ Hin) as (Hp & Ha & _).
  split; [|exact Ha].
  etrans; [|exact Hp]. vm_compute. reflexivity.
Defined.

Lemma main_saves_the_quantized_model_witness :
  let cfg := Demo.cfg "8da4w-qat" in
  (main Demo.env cfg Demo.world0).1 = Ok () ∧
  ∃ p, files (disk (main Demo.env cfg Demo.world0).2)
       = <[p := params]> ∅.
Proof.
  cbv zeta.
  assert ((main Demo.env (Demo.cfg "8da4w-qat") Demo.world0).1 = Ok ())
    as Hr by (vm_compute; reflexivity).
  split; [exact Hr|].
  destruct (main Demo.env (Demo.cfg "8da4w-qat") Demo.world0)
    as [r w'] eqn:H.
  cbn [fst snd] in *. subst r.
  destruct (main_saves_the_quantized_model Demo.env _ _ _ _ H)
    as (dev & dt & q & mode & c & ckpt & sd0 & g0 & m0 & g1 & m1 & g2
        & m2 & m3 & g3 & sd & p & Hdev & Hdt & Hq & Hmode & Hseed & Hc
        & Hload & Hkey & Hm0 & Hm1 & Hm2 & Hm3 & Hsd & Hfiles & _).
  exists p. rewrite Hfiles. f_equal.
  cbn in Hdev, Hdt, Hq, Hmode, Hc, Hload, Hsd.
  apply Ok_inj in Hdev, Hdt, Hq, Hmode, Hload, Hsd.
  apply (inj Some) in Hmode. subst dev dt q mode ckpt sd.
  vm_compute in Hkey. apply (inj Some) in Hkey. subst sd0.
  cbn in Hm0. apply pair_inv in Hm0 as [Hm0 _].
  apply Ok_inj in Hm0. subst m0.
  vm_compute in Hm1. apply pair_inv in Hm1 as [Hm1 _].
  apply Ok_inj in Hm1. subst m1.
  vm_compute in Hm2. apply Ok_inj in Hm2. subst m2.
  vm_compute in Hm3. apply pair_inv in Hm3 as [Hm3 _].
  apply Ok_inj in Hm3. by subst m3.
Defined.

End MoreWitnesses.
